(** * Profile lifecycle of qTox: a shallow embedding of the [Profile] class
    (the implementation of persistence/profile.h, kept in
    src/model/notificationdata.h) and the properties of its load, create,
    save, rename, remove and password-change operations.

    The C++ code talks to collaborators that live outside the file
    (ToxEncrypt, Core, CoreAV, RawDatabase, Qt's file classes, libsodium and
    the c-toxcore hashing API).  Their behaviour is a parameter of the model:
    every operation below is defined for an arbitrary implementation of these
    interfaces.  Mutable state that the code shares across calls (the
    filesystem, the process-wide ProfileLocker, the static profile list, the
    settings object) is threaded explicitly as a [World]; an [Outcome]
    distinguishes a normal return from a failed assertion. *)

From Stdlib Require Import String Ascii List Bool NArith ZArith.
From Stdlib.Strings Require Import Byte.
From stdpp Require Import base option gmap strings list.

Open Scope string_scope.

(** ** Basic data *)

Abbreviation QByteArray := (list byte).
Abbreviation QString := string.

(** The regular files of the machine, by path. *)
Abbreviation FS := (gmap string QByteArray).

#[global] Instance byte_eq_decision : EqDecision byte := byte_eq_dec.

Definition isEmptyS (s : QString) : bool :=
  match s with EmptyString => true | String _ _ => false end.

Definition isEmptyB (b : QByteArray) : bool :=
  match b with [] => true | _ :: _ => false end.

(** [QByteArray::toHex] followed by [QString::toUpper]. *)
Definition hexDigitUpper (n : N) : ascii :=
  match n with
  | 0%N => "0" | 1%N => "1" | 2%N => "2" | 3%N => "3" | 4%N => "4"
  | 5%N => "5" | 6%N => "6" | 7%N => "7" | 8%N => "8" | 9%N => "9"
  | 10%N => "A" | 11%N => "B" | 12%N => "C" | 13%N => "D" | 14%N => "E"
  | _ => "F"
  end%char.

Fixpoint toHexUpper (b : QByteArray) : QString :=
  match b with
  | [] => ""
  | x :: rest =>
      let n := Byte.to_N x in
      String (hexDigitUpper (N.div n 16))
        (String (hexDigitUpper (N.modulo n 16)) (toHexUpper rest))
  end.

(** A public key ([ToxPk]) is a wrapper around its raw bytes. *)
Record ToxPk := mkToxPk { getByteArray : QByteArray }.

#[global] Instance ToxPk_eq_decision : EqDecision ToxPk.
Proof. solve_decision. Defined.

(** [enum class LoadToxDataError] *)
Module LoadToxDataError.
Inductive t :=
| OK
| FILE_NOT_FOUND
| COULD_NOT_READ_FILE
| FILE_IS_EMPTY
| ENCRYPTED_NO_PASSWORD
| COULD_NOT_DERIVE_KEY
| DECRYPTION_FAILED
| DECRYPT_UNENCRYPTED_FILE.
End LoadToxDataError.

(** [enum class CreateToxDataError] *)
Module CreateToxDataError.
Inductive t :=
| OK
| COULD_NOT_DERIVE_KEY
| PROFILE_LOCKED
| ALREADY_EXISTS
| LOCK_FAILED.
End CreateToxDataError.

(** [Core::ToxCoreErrors] *)
Module ToxCoreErrors.
Inductive t := BAD_PROXY | INVALID_SAVE | FAILED_TO_START | ERROR_ALLOC.
End ToxCoreErrors.

(** ** Observable effects

    Calls that leave the Profile object (signals, message boxes, warning and
    error log lines, lock and file operations, calls into Settings, Core and
    the database) are recorded in chronological order.  [qDebug] lines are
    left out. *)
Inductive Event :=
| LogLoadError (e : LoadToxDataError.t) (path : QString)
| LogCreateError (e : CreateToxDataError.t) (userName : QString)
| Log (msg : QString)
| SigFailedToStart
| SigBadProxy
| ShowError (title msg : QString)
| EvLock (name : QString) (ok : bool)
| EvUnlock
| EvFileRemove (path : QString) (ok : bool)
| EvFileRename (from to : QString) (ok : bool)
| EvSaveCommit (path : QString) (ok : bool)
| EvSaveCancel (path : QString)
| EvDbOpen (path password : QString) (salt : QByteArray)
| EvDbRemove (ok : bool)
| EvDbRename (newName : QString)
| EvDbSetPassword (password : QString) (ok : bool)
| EvHistoryReset
| EvUpdateProfileData (name : QString) (isNewProfile : bool)
| EvCreatePersonal (name : QString)
| EvSettingsSavePersonal
| EvSettingsSync
| EvSetAutorun (on : bool)
| EvSetCurrentProfile (name : QString)
| EvCoreSetAv
| EvCoreAvStart
| EvConnect (signal : QString)
| EvHandleAvatarOffer (friendId fileId : N) (accept : bool) (filesize : N).

(** The signal that reports a core start error (the [switch] of
    [initCore]). *)
Definition classify (err : ToxCoreErrors.t) : Event :=
  match err with
  | ToxCoreErrors.BAD_PROXY => SigBadProxy
  | ToxCoreErrors.ERROR_ALLOC
  | ToxCoreErrors.FAILED_TO_START
  | ToxCoreErrors.INVALID_SAVE => SigFailedToStart
  end.

(** ** Shared mutable state *)

Record Paths := mkPaths { getSettingsDirPath : QString }.

Record Settings := mkSettings {
  getPaths : Paths;
  getAutorun : bool;
  getCurrentProfile : QString;
  getShowIdenticons : bool;
  getEnableLogging : bool
}.

Record World := mkWorld {
  files : FS;
  curLockName : option QString;    (* ProfileLocker: the lock this process holds *)
  foreignLocks : gset string;      (* profile names locked by other instances *)
  profiles : list QString;         (* static Profile::profiles *)
  settings : Settings;
  trace : list Event
}.

Definition set_files (f : FS) (w : World) : World :=
  mkWorld f (curLockName w) (foreignLocks w) (profiles w) (settings w) (trace w).

Definition set_curLockName (l : option QString) (w : World) : World :=
  mkWorld (files w) l (foreignLocks w) (profiles w) (settings w) (trace w).

Definition set_profiles (ps : list QString) (w : World) : World :=
  mkWorld (files w) (curLockName w) (foreignLocks w) ps (settings w) (trace w).

Definition set_settings (s : Settings) (w : World) : World :=
  mkWorld (files w) (curLockName w) (foreignLocks w) (profiles w) s (trace w).

Definition emit (e : Event) (w : World) : World :=
  mkWorld (files w) (curLockName w) (foreignLocks w) (profiles w) (settings w)
          (trace w ++ [e])%list.

Definition settingsDir (w : World) : QString :=
  getSettingsDirPath (getPaths (settings w)).

(** ** Assertions

    [assert], [Q_ASSERT_X], [ProfileLocker::assertLock] and a dereference of
    a null pointer end the run; [Fatal] names the check that failed. *)
Inductive Outcome (A : Type) :=
| Fatal (why : QString)
| Done (a : A).

Arguments Fatal {A} why.
Arguments Done {A} a.

#[global] Instance Outcome_ret : MRet Outcome := fun A a => Done a.

#[global] Instance Outcome_bind : MBind Outcome := fun A B k m =>
  match m with
  | Fatal why => Fatal why
  | Done a => k a
  end.

Definition assertO (b : bool) (what : QString) : Outcome unit :=
  if b then Done tt else Fatal what.

Definition deref {A} (p : option A) (what : QString) : Outcome A :=
  match p with
  | Some a => Done a
  | None => Fatal what
  end.

(** ** Collaborator interfaces *)

(** src/core/toxencrypt: password-derived keys. *)
Class ToxEncryptAPI (ToxEncrypt : Type) := {
  isEncryptedData : QByteArray -> bool;                        (* ToxEncrypt::isEncrypted *)
  makeToxEncrypt : QString -> option ToxEncrypt;               (* makeToxEncrypt(password) *)
  makeToxEncryptFor : QString -> QByteArray -> option ToxEncrypt; (* makeToxEncrypt(password, toxSave) *)
  encrypt : ToxEncrypt -> QByteArray -> QByteArray;
  decrypt : ToxEncrypt -> QByteArray -> QByteArray
}.

(** src/core/core and src/core/coreav. *)
Class CoreAPI (Core CoreAV : Type) := {
  makeToxCore : QByteArray -> Settings -> Core + ToxCoreErrors.t;
  makeCoreAV : Core -> Settings -> option CoreAV;
  getSelfPublicKey : Core -> ToxPk;
  getFriendList : Core -> list N;
  getFriendPublicKey : Core -> N -> ToxPk;
  getToxSaveData : Core -> QByteArray;
  setStatusMessage : QString -> Core -> Core;
  setUsername : QString -> Core -> Core
}.

(** src/persistence/db/rawdatabase.  The database keeps its own file; what
    its operations do to the filesystem is left to the implementation. *)
Class RawDatabaseAPI (RawDatabase : Type) := {
  RawDatabase_new : QString -> QString -> QByteArray -> FS -> RawDatabase * FS;
  db_isOpen : RawDatabase -> bool;
  db_remove : RawDatabase -> FS -> bool * FS;
  db_rename : QString -> RawDatabase -> FS -> RawDatabase * FS;
  db_setPassword : QString -> RawDatabase -> FS -> bool * RawDatabase * FS
}.

(** src/persistence/settings: the calls whose effect is not a plain field
    update. *)
Class SettingsAPI := {
  updateProfileData : QString -> bool -> FS -> Settings -> Settings;
  createPersonal : Paths -> QString -> FS -> FS
}.

(** Constants and hash functions of c-toxcore and libsodium. *)
Class ToxAPI := {
  ToxPk_toString : ToxPk -> QString;
  TOX_PASS_SALT_LENGTH : nat;
  tox_public_key_size : nat;
  tox_hash_length : nat;
  tox_hash : QByteArray -> QByteArray;
  crypto_generichash : nat -> QByteArray -> QByteArray -> QByteArray;
  crypto_generichash_BYTES_MIN : nat;
  crypto_generichash_BYTES_MAX : nat;
  crypto_generichash_KEYBYTES_MIN : nat;
  crypto_generichash_KEYBYTES_MAX : nat
}.

(** The two [Q_ASSERT_X] of [avatarPath] on the size of the hash. *)
Definition hashSizeSupported `{ToxAPI} : bool :=
  ((crypto_generichash_BYTES_MIN <=? tox_public_key_size)%nat
   && (tox_public_key_size <=? crypto_generichash_BYTES_MAX)%nat)
  && ((crypto_generichash_KEYBYTES_MIN <=? tox_public_key_size)%nat
      && (tox_public_key_size <=? crypto_generichash_KEYBYTES_MAX)%nat).

(** [tox_hash(hash, data, length)] called on a buffer: the bytes that
    toxcore computes are written over the beginning of the buffer, which
    keeps its size (toxcore writes as many bytes as [tox_hash_length()]
    says; a buffer of that size is overwritten whole). *)
Definition tox_hash_into `{ToxAPI} (buffer data : QByteArray) : QByteArray :=
  take (length buffer) (tox_hash data ++ drop (length (tox_hash data)) buffer)%list.

(** Which file operations the operating system lets through. *)
Class FileEnv := {
  canOpenRead : QString -> bool;
  canOpenWrite : QString -> bool;
  flushOk : QString -> QByteArray -> bool;
  commitOk : QString -> bool;
  canRemove : QString -> bool;
  canRename : QString -> QString -> bool
}.

(** The header check of toxencryptsave.h, used on a file that is not
    loaded. *)
Class ToxSaveAPI := {
  TOX_PASS_ENCRYPTION_EXTRA_LENGTH : nat;
  tox_is_data_encrypted : QByteArray -> bool
}.

(** More of src/core/core: starting the core thread and the user name. *)
Class CoreRunAPI (Core : Type) := {
  Core_start : Core -> Core;
  getUsername : Core -> QString
}.

(** [QDir::entryInfoList] under the filter Files | NoDotAndDotDot and the
    name filter [*.extension]: the names of the matching files of a
    directory, in the order Qt lists them. *)
Class DirEnv := {
  entryInfoList : QString -> QString -> FS -> list QString
}.

(** How a [QPixmap] handed to the GUI was made. *)
Inductive QPixmap :=
| Pix_loadFromData (data : QByteArray)
| Pix_identicon (pk : QByteArray) (scale : nat)
| Pix_load (resource : QString).

(** Signals of Profile and calls into the avatar broadcaster, the core
    thread and the history, in the order a function issues them. *)
Inductive Signal :=
| selfAvatarChanged (pixmap : QPixmap)
| friendAvatarSet (owner : ToxPk) (pixmap : QPixmap)
| friendAvatarRemoved (owner : ToxPk)
| friendAvatarChanged (owner : ToxPk) (pixmap : QPixmap)
| coreChanged
| ConnectRequestSent
| CoreStarted
| BroadcasterSetAvatar (data : QByteArray)
| BroadcasterEnableAutoBroadcast
| HistoryAddNewMessage (friendPk : ToxPk) (message : QString) (sender : ToxPk)
                       (time : N) (isDelivered : bool) (dispName : QString).

(** [QFileInfo::completeBaseName]: the file name up to its last dot. *)
Fixpoint hasDot (s : QString) : bool :=
  match s with
  | EmptyString => false
  | String c rest => Ascii.eqb c "."%char || hasDot rest
  end.

Fixpoint completeBaseName (s : QString) : QString :=
  match s with
  | EmptyString => EmptyString
  | String c rest =>
      if hasDot rest then String c (completeBaseName rest)
      else if Ascii.eqb c "."%char then EmptyString
      else String c rest
  end.

(** [w'] differs from [w] in the trace at most. *)
Definition quiet_step (w w' : World) : Prop :=
  files w' = files w ∧ curLockName w' = curLockName w
  ∧ foreignLocks w' = foreignLocks w ∧ profiles w' = profiles w
  ∧ settings w' = settings w.


(** ** Qt file primitives over [World] *)

Module QFile.
Definition exists_ (path : QString) (w : World) : bool :=
  bool_decide (is_Some (files w !! path)).

(** [open(QIODevice::ReadOnly)] followed by [readAll]. *)
Definition openRead `{FileEnv} (path : QString) (w : World) : option QByteArray :=
  if canOpenRead path then files w !! path else None.

(** [remove]: true when the file existed and was deleted. *)
Definition remove `{FileEnv} (path : QString) (w : World) : bool * World :=
  if exists_ path w && canRemove path
  then (true, emit (EvFileRemove path true) (set_files (delete path (files w)) w))
  else (false, emit (EvFileRemove path false) w).

(** [rename]: fails when the source is missing or the target exists. *)
Definition rename `{FileEnv} (from to : QString) (w : World) : bool * World :=
  match files w !! from with
  | Some content =>
      if negb (exists_ to w) && canRename from to
      then (true, emit (EvFileRename from to true)
                    (set_files (<[to := content]> (delete from (files w))) w))
      else (false, emit (EvFileRename from to false) w)
  | None => (false, emit (EvFileRename from to false) w)
  end.
End QFile.

(** [QSaveFile]: writes go to a staging buffer; the target path changes only
    on a successful [commit]. *)
Module QSaveFile.
Record t := mk { path : QString; buffer : QByteArray }.

Definition open `{FileEnv} (p : QString) : option t :=
  if canOpenWrite p then Some (mk p []) else None.

Definition write (data : QByteArray) (f : t) : t :=
  mk (path f) (buffer f ++ data)%list.

Definition flush `{FileEnv} (f : t) : bool := flushOk (path f) (buffer f).

Definition commit `{FileEnv} (f : t) (w : World) : bool * World :=
  if commitOk (path f)
  then (true, emit (EvSaveCommit (path f) true)
                (set_files (<[path f := buffer f]> (files w)) w))
  else (false, emit (EvSaveCommit (path f) false) w).

Definition cancelWriting (f : t) (w : World) : World :=
  emit (EvSaveCancel (path f)) w.
End QSaveFile.

(** ** ProfileLocker *)

(** Modelled from the spec: src/persistence/profilelocker.cpp is not part of
    the sources.  What [lock] does while this process holds the lock of
    another name: see [ProfileLocker.lock]. *)
Class LockerPolicy := {
  handsOver : bool
}.

Module ProfileLocker.
(** Modelled from the spec: src/persistence/profilelocker.cpp is not part of
    the sources.  [hasLock]: true if this process currently holds any
    profile lock. *)
Definition hasLock (w : World) : bool :=
  match curLockName w with Some _ => true | None => false end.

(** Modelled from the spec: ProfileLocker::lock is not part of the sources.
    It fails if the filesystem-level lock for [name] is held by another
    instance, and it succeeds and records [name] as the current holder when
    this process holds no lock or holds the one for [name] already.  For a
    call made while this process holds the lock of another name the spec
    has two sentences: its entry for lock says that the call fails, its
    entries for the lock and for rename say that a rename takes the lock of
    the new name before the old one is released, and [rename] calls nothing
    but [lock].  [handsOver] tells which of the two the locker follows:
    when it is set, such a call takes the lock of [name] and lets go of the
    old one afterwards, in one step. *)
Definition lock `{LockerPolicy} (name : QString) (w : World) : bool * World :=
  match curLockName w with
  | Some held =>
      if bool_decide (held = name)
      then (true, emit (EvLock name true) w)
      else if handsOver && negb (bool_decide (name ∈ foreignLocks w))
           then (true, emit (EvLock name true) (set_curLockName (Some name) w))
           else (false, emit (EvLock name false) w)
  | None =>
      if bool_decide (name ∈ foreignLocks w)
      then (false, emit (EvLock name false) w)
      else (true, emit (EvLock name true) (set_curLockName (Some name) w))
  end.

(** Modelled from the spec: ProfileLocker::unlock is not part of the
    sources.  It releases the held lock and is a no-op if nothing is
    held. *)
Definition unlock (w : World) : World :=
  emit EvUnlock (set_curLockName None w).

(** Modelled from the spec: ProfileLocker::assertLock is not part of the
    sources.  A fatal internal-consistency check: it fails loudly if no
    lock is held. *)
Definition assertLock (w : World) : Outcome unit :=
  assertO (hasLock w) "ProfileLocker::assertLock".

(** Modelled from the spec: ProfileLocker::getCurLockName is not part of
    the sources.  The name recorded as the current holder, empty when no
    lock is held. *)
Definition getCurLockName (w : World) : QString :=
  match curLockName w with Some n => n | None => "" end.
End ProfileLocker.

(** ** The Profile class *)

Module Profile.
Section Model.
Context {ToxEncrypt Core CoreAV RawDatabase : Type}.
Context `{!ToxEncryptAPI ToxEncrypt} `{!CoreAPI Core CoreAV}
        `{!RawDatabaseAPI RawDatabase} `{!SettingsAPI} `{!ToxAPI} `{!FileEnv}.
Context `{LP : !LockerPolicy}.

(** Data members.  [paths] and [settings] are references into the shared
    settings object and are read through the [World]; [history] tells
    whether a History object is held. *)
Record t := mk {
  name : QString;
  passkey : option ToxEncrypt;
  isRemoved : bool;
  encrypted : bool;
  core : option Core;
  coreAv : option CoreAV;
  database : option RawDatabase;
  history : bool;
  avatarBroadcaster : bool
}.

Definition set_name (n : QString) (p : t) : t :=
  mk n (passkey p) (isRemoved p) (encrypted p) (core p) (coreAv p)
     (database p) (history p) (avatarBroadcaster p).
Definition set_passkey (k : option ToxEncrypt) (p : t) : t :=
  mk (name p) k (isRemoved p) (encrypted p) (core p) (coreAv p)
     (database p) (history p) (avatarBroadcaster p).
Definition set_isRemoved (b : bool) (p : t) : t :=
  mk (name p) (passkey p) b (encrypted p) (core p) (coreAv p)
     (database p) (history p) (avatarBroadcaster p).
Definition set_encrypted (b : bool) (p : t) : t :=
  mk (name p) (passkey p) (isRemoved p) b (core p) (coreAv p)
     (database p) (history p) (avatarBroadcaster p).
Definition set_core (c : option Core) (p : t) : t :=
  mk (name p) (passkey p) (isRemoved p) (encrypted p) c (coreAv p)
     (database p) (history p) (avatarBroadcaster p).
Definition set_coreAv (c : option CoreAV) (p : t) : t :=
  mk (name p) (passkey p) (isRemoved p) (encrypted p) (core p) c
     (database p) (history p) (avatarBroadcaster p).
Definition set_database (d : option RawDatabase) (p : t) : t :=
  mk (name p) (passkey p) (isRemoved p) (encrypted p) (core p) (coreAv p)
     d (history p) (avatarBroadcaster p).
Definition set_history (h : bool) (p : t) : t :=
  mk (name p) (passkey p) (isRemoved p) (encrypted p) (core p) (coreAv p)
     (database p) h (avatarBroadcaster p).
Definition set_avatarBroadcaster (a : bool) (p : t) : t :=
  mk (name p) (passkey p) (isRemoved p) (encrypted p) (core p) (coreAv p)
     (database p) (history p) a.

(** [loadToxData]: [data] and [error] are the reference parameters; the
    result is (returned key, final data, final error). *)
Definition loadToxData (password filePath : QString) (data : QByteArray) (w : World)
  : option ToxEncrypt * QByteArray * LoadToxDataError.t :=
  if negb (QFile.exists_ filePath w) then
    (None, data, LoadToxDataError.FILE_NOT_FOUND)
  else
    match QFile.openRead filePath w with
    | None => (None, data, LoadToxDataError.COULD_NOT_READ_FILE)
    | Some content =>
        if (length content =? 0)%nat then
          (None, data, LoadToxDataError.FILE_IS_EMPTY)
        else
          let data := content in
          if isEncryptedData data then
            if isEmptyS password then
              (None, data, LoadToxDataError.ENCRYPTED_NO_PASSWORD)
            else
              match makeToxEncryptFor password data with
              | None => (None, data, LoadToxDataError.COULD_NOT_DERIVE_KEY)
              | Some tmpKey =>
                  let data := decrypt tmpKey data in
                  if isEmptyB data then
                    (None, data, LoadToxDataError.DECRYPTION_FAILED)
                  else (Some tmpKey, data, LoadToxDataError.OK)
              end
          else (None, data, LoadToxDataError.OK)
    end.

(** [createToxData]: result is (returned key, final error, world). *)
Definition createToxData (name password filePath : QString) (w : World)
  : option ToxEncrypt * CreateToxDataError.t * World :=
  let derived :=
    if negb (isEmptyS password) then
      match makeToxEncrypt password with
      | None => None
      | Some k => Some (Some k)
      end
    else Some None in
  match derived with
  | None => (None, CreateToxDataError.COULD_NOT_DERIVE_KEY, w)
  | Some newKey =>
      if ProfileLocker.hasLock w then
        (None, CreateToxDataError.PROFILE_LOCKED, w)
      else if QFile.exists_ filePath w then
        (None, CreateToxDataError.ALREADY_EXISTS, w)
      else
        let '(ok, w) := ProfileLocker.lock name w in
        if negb ok then (None, CreateToxDataError.LOCK_FAILED, w)
        else (newKey, CreateToxDataError.OK, w)
  end.

Definition logLoadToxDataError (error : LoadToxDataError.t) (path : QString)
    (w : World) : bool * World :=
  match error with
  | LoadToxDataError.OK => (false, w)
  | e => (true, emit (LogLoadError e path) w)
  end.

Definition logCreateToxDataError (error : CreateToxDataError.t) (userName : QString)
    (w : World) : bool * World :=
  match error with
  | CreateToxDataError.OK => (false, w)
  | e => (true, emit (LogCreateError e userName) w)
  end.

(** The constructor [Profile::Profile]. *)
Definition Profile (name_ : QString) (passkey_ : option ToxEncrypt) : t :=
  mk name_ passkey_ false
     (match passkey_ with Some _ => true | None => false end)
     None None None false false.

Definition getDbPath (profileName : QString) (w : World) : QString :=
  settingsDir w +:+ profileName +:+ ".db".

Definition getPasskey (p : t) : option ToxEncrypt := passkey p.

Definition isEncrypted (p : t) : bool := encrypted p.

Definition saveToxSave (data : QByteArray) (p : t) (w : World)
  : Outcome (bool * World) :=
  _ ← assertO (negb (isRemoved p)) "assert(!isRemoved)";
  _ ← ProfileLocker.assertLock w;
  _ ← assertO (bool_decide (ProfileLocker.getCurLockName w = name p))
        "assert(ProfileLocker::getCurLockName() == name)";
  let path := settingsDir w +:+ name p +:+ ".tox" in
  match QSaveFile.open path with
  | None => Done (false, emit (Log "Tox save file couldn't be opened") w)
  | Some saveFile =>
      data ← (if encrypted p then
                key ← deref (passkey p) "passkey->encrypt";
                Done (encrypt key data)
              else Done data);
      if encrypted p && isEmptyB data then
        Done (false, QSaveFile.cancelWriting saveFile
                       (emit (Log "Failed to encrypt, can't save") w))
      else
        let saveFile := QSaveFile.write data saveFile in
        (* check if everything got written *)
        if QSaveFile.flush saveFile then
          Done (true, snd (QSaveFile.commit saveFile w))
        else
          Done (false, emit (Log "Failed to write, can't save")
                         (QSaveFile.cancelWriting saveFile w))
  end.

Definition onSaveToxSave (p : t) (w : World) : Outcome World :=
  c ← deref (core p) "core->getToxSaveData";
  let data := getToxSaveData c in
  _ ← assertO (negb (length data =? 0)%nat) "assert(data.size())";
  '(_, w) ← saveToxSave data p w;
  Done w.

Definition chatLogsDisabled : Event :=
  ShowError "Error" "qTox couldn't open your chat logs, they will be disabled.".

Definition initCore (toxSave : QByteArray) (isNewProfile : bool) (p : t) (w : World)
  : Outcome (t * World) :=
  let w := if isEmptyB toxSave && negb isNewProfile
           then emit SigFailedToStart (emit (Log "Existing toxSave is empty") w)
           else w in
  let w := if negb (isEmptyB toxSave) && isNewProfile
           then emit SigFailedToStart (emit (Log "New profile has toxSave data") w)
           else w in
  match makeToxCore toxSave (settings w) with
  | inr err => Done (p, emit (classify err) w)
  | inl c =>
      let p := set_core (Some c) p in
      match makeCoreAV c (settings w) with
      | None => Done (p, emit SigFailedToStart w)
      | Some av =>
          let p := set_coreAv (Some av) p in
          (* Tell Core that we run with AV before doing anything else *)
          let w := emit EvCoreAvStart (emit EvCoreSetAv w) in
          '(p, w) ← (if isNewProfile then
                       let c := setUsername (name p)
                                  (setStatusMessage "Toxing on qTox" c) in
                       let p := set_core (Some c) p in
                       w ← onSaveToxSave p w;
                       Done (p, w)
                     else Done (p, w));
          let w := emit (EvConnect "Core::saveRequest") w in
          let w := emit (EvConnect "Core::friendAvatarRemoved") w in
          let w := emit (EvConnect "Core::friendAvatarChanged") w in
          let w := emit (EvConnect "Core::fileAvatarOfferReceived") w in
          Done (set_avatarBroadcaster true p, w)
      end
  end.

Definition loadDatabase (password : QString) (p : t) (w : World)
  : Outcome (t * World) :=
  c ← deref (core p) "assert(core)";
  if isRemoved p then Done (p, w)
  else
    let salt := getByteArray (getSelfPublicKey c) in
    let w := if negb (length salt =? TOX_PASS_SALT_LENGTH)%nat
             then emit chatLogsDisabled
                    (emit (Log "Couldn't compute salt from public key") w)
             else w in
    let dbPath := getDbPath (name p) w in
    let '(db, fs) := RawDatabase_new dbPath password salt (files w) in
    let w := emit (EvDbOpen dbPath password salt) (set_files fs w) in
    let p := set_database (Some db) p in
    if db_isOpen db then Done (set_history true p, w)
    else Done (p, emit chatLogsDisabled
                    (emit (Log "Failed to open database for profile") w)).

Definition loadProfile (name password : QString) (w : World)
  : Outcome (option t * World) :=
  if ProfileLocker.hasLock w then
    Done (None, emit (Log "Tried to load profile, but another profile is already locked") w)
  else
    let '(ok, w) := ProfileLocker.lock name w in
    if negb ok then Done (None, emit (Log "Failed to lock profile") w)
    else
      let toxSave := [] in
      let path := settingsDir w +:+ name +:+ ".tox" in
      let '(tmpKey, toxSave, error) := loadToxData password path toxSave w in
      let '(failed, w) := logLoadToxDataError error path w in
      if failed then Done (None, ProfileLocker.unlock w)
      else
        let p := Profile name tmpKey in
        (* Core settings are saved per profile, need to load them before
           starting Core *)
        let isNewProfile := false in
        let w := emit (EvUpdateProfileData name isNewProfile)
                   (set_settings
                      (updateProfileData name isNewProfile (files w) (settings w)) w) in
        '(p, w) ← initCore toxSave isNewProfile p w;
        '(p, w) ← loadDatabase password p w;
        Done (Some p, w).

Definition createProfile (name password : QString) (w : World)
  : Outcome (option t * World) :=
  let path := settingsDir w +:+ name +:+ ".tox" in
  let '(tmpKey, error, w) := createToxData name password path w in
  let '(failed, w) := logCreateToxDataError error name w in
  if failed then Done (None, w)
  else
    let w := emit (EvCreatePersonal name)
               (set_files (createPersonal (getPaths (settings w)) name (files w)) w) in
    let p := Profile name tmpKey in
    let isNewProfile := true in
    let w := emit (EvUpdateProfileData name isNewProfile)
               (set_settings
                  (updateProfileData name isNewProfile (files w) (settings w)) w) in
    '(p, w) ← initCore [] isNewProfile p w;
    '(p, w) ← loadDatabase password p w;
    Done (Some p, w).

Definition save (p : t) (w : World) : Outcome World :=
  if isRemoved p then Done w
  else
    w ← onSaveToxSave p w;
    let w := emit EvSettingsSync (emit EvSettingsSavePersonal w) in
    _ ← ProfileLocker.assertLock w;
    _ ← assertO (bool_decide (ProfileLocker.getCurLockName w = name p))
          "assert(ProfileLocker::getCurLockName() == name)";
    Done (ProfileLocker.unlock w).

Definition avatarPath (owner : ToxPk) (forceUnencrypted : bool) (p : t) (w : World)
  : Outcome QString :=
  let ownerStr := ToxPk_toString owner in
  if negb (encrypted p) || forceUnencrypted then
    Done (settingsDir w +:+ "avatars/" +:+ ownerStr +:+ ".png")
  else
    let idData := list_byte_of_string ownerStr in
    c ← deref (core p) "core->getSelfPublicKey";
    let pubkeyData := getByteArray (getSelfPublicKey c) in
    let hashSize := tox_public_key_size in
    _ ← assertO ((crypto_generichash_BYTES_MIN <=? hashSize)%nat
                 && (hashSize <=? crypto_generichash_BYTES_MAX)%nat)
          "Hash size not supported by libsodium";
    _ ← assertO ((crypto_generichash_KEYBYTES_MIN <=? hashSize)%nat
                 && (hashSize <=? crypto_generichash_KEYBYTES_MAX)%nat)
          "Key size not supported by libsodium";
    let hash := crypto_generichash hashSize idData pubkeyData in
    Done (settingsDir w +:+ "avatars/" +:+ toHexUpper hash +:+ ".png").

(** First half of [loadAvatarData]: the file to read and whether its
    content is to be decrypted (the locals [path] and [avatarEncrypted]
    when [QFile file(path)] is reached). *)
Definition loadAvatarData_locate (owner : ToxPk) (p : t) (w : World)
  : Outcome (QString * bool) :=
  path ← avatarPath owner false p w;
  let avatarEncrypted := encrypted p in
  (* If the encrypted avatar isn't found, try loading the unencrypted one
     for the same ID *)
  if avatarEncrypted && negb (QFile.exists_ path w) then
    path ← avatarPath owner true p w;
    Done (path, false)
  else Done (path, avatarEncrypted).

(** Second half of [loadAvatarData]: read, and decrypt if asked to. *)
Definition loadAvatarData_read (path : QString) (avatarEncrypted : bool)
    (p : t) (w : World) : Outcome (QByteArray * World) :=
  match QFile.openRead path w with
  | None => Done ([], w)
  | Some pic =>
      if avatarEncrypted && negb (isEmptyB pic) then
        key ← deref (passkey p) "passkey->decrypt";
        let pic := decrypt key pic in
        if isEmptyB pic
        then Done (pic, emit (Log "Failed to decrypt avatar") w)
        else Done (pic, w)
      else Done (pic, w)
  end.

Definition loadAvatarData (owner : ToxPk) (p : t) (w : World)
  : Outcome (QByteArray * World) :=
  '(path, avatarEncrypted) ← loadAvatarData_locate owner p w;
  loadAvatarData_read path avatarEncrypted p w.

Definition saveAvatar (owner : ToxPk) (avatar : QByteArray) (p : t) (w : World)
  : Outcome World :=
  let needEncrypt := encrypted p && negb (isEmptyB avatar) in
  pic ← (if needEncrypt then
           key ← deref (passkey p) "passkey->encrypt";
           Done (encrypt key avatar)
         else Done avatar);
  path ← avatarPath owner false p w;
  (* mkdir("avatars"): directories are not tracked *)
  if isEmptyB pic then Done (snd (QFile.remove path w))
  else
    match QSaveFile.open path with
    | None => Done (emit (Log "Tox avatar couldn't be saved") w)
    | Some file => Done (snd (QSaveFile.commit (QSaveFile.write pic file) w))
    end.

Definition getAvatarHash (owner : ToxPk) (p : t) (w : World)
  : Outcome (QByteArray * World) :=
  '(pic, w) ← loadAvatarData owner p w;
  let avatarHash := repeat Byte.x00 tox_hash_length in
  let avatarHash := tox_hash_into avatarHash pic in
  Done (avatarHash, w).

Definition onAvatarOfferReceived (friendId fileId : N) (avatarHash : QByteArray)
    (filesize : N) (p : t) (w : World) : Outcome World :=
  c ← deref (core p) "core->getFriendPublicKey";
  '(cached, w) ← getAvatarHash (getFriendPublicKey c friendId) p w;
  (* accept if we don't have it already *)
  let accept := bool_decide (cached ≠ avatarHash) in
  Done (emit (EvHandleAvatarOffer friendId fileId accept filesize) w).

(** The loop of [remove] over the static list: every entry equal to the
    name is taken out. *)
Fixpoint removeAll (n : QString) (l : list QString) : list QString :=
  match l with
  | [] => []
  | x :: rest => if bool_decide (x = n) then removeAll n rest
                 else x :: removeAll n rest
  end.

Definition remove (p : t) (w : World) : t * list QString * World :=
  if isRemoved p then
    (p, [], emit (Log "Profile is already removed") w)
  else
    let p := set_isRemoved true p in
    let w := set_profiles (removeAll (name p) (profiles w)) w in
    let path := settingsDir w +:+ name p in
    let w := ProfileLocker.unlock w in
    let profileMain := path +:+ ".tox" in
    let profileConfig := path +:+ ".ini" in
    let ret := [] in
    let '(removed, w) := QFile.remove profileMain w in
    let '(ret, w) :=
      if negb removed && QFile.exists_ profileMain w
      then ((ret ++ [profileMain])%list, emit (Log "Could not remove file") w)
      else (ret, w) in
    let '(removed, w) := QFile.remove profileConfig w in
    let '(ret, w) :=
      if negb removed && QFile.exists_ profileConfig w
      then ((ret ++ [profileConfig])%list, emit (Log "Could not remove file") w)
      else (ret, w) in
    let dbPath := getDbPath (name p) w in
    let '(ret, w) :=
      match database p with
      | Some db =>
          if db_isOpen db then
            let '(removed, fs) := db_remove db (files w) in
            let w := emit (EvDbRemove removed) (set_files fs w) in
            if negb removed && QFile.exists_ dbPath w
            then ((ret ++ [dbPath])%list, emit (Log "Could not remove file") w)
            else (ret, w)
          else (ret, w)
      | None => (ret, w)
      end in
    let w := emit EvHistoryReset w in
    (set_database None (set_history false p), ret, w).

Definition rename (newName : QString) (p : t) (w : World) : bool * t * World :=
  let path := settingsDir w +:+ name p in
  let newPath := settingsDir w +:+ newName in
  let '(locked, w) := ProfileLocker.lock newName w in
  if negb locked then (false, p, w)
  else
    let w := snd (QFile.rename (path +:+ ".tox") (newPath +:+ ".tox") w) in
    let w := snd (QFile.rename (path +:+ ".ini") (newPath +:+ ".ini") w) in
    let '(p, w) :=
      match database p with
      | Some db =>
          let '(db, fs) := db_rename newName db (files w) in
          (set_database (Some db) p, emit (EvDbRename newName) (set_files fs w))
      | None => (p, w)
      end in
    let resetAutorun := getAutorun (settings w) in
    let setAutorun b w :=
      let s := settings w in
      emit (EvSetAutorun b)
        (set_settings (mkSettings (getPaths s) b (getCurrentProfile s)
                         (getShowIdenticons s) (getEnableLogging s)) w) in
    let setCurrentProfile n w :=
      let s := settings w in
      emit (EvSetCurrentProfile n)
        (set_settings (mkSettings (getPaths s) (getAutorun s) n
                         (getShowIdenticons s) (getEnableLogging s)) w) in
    let w := setAutorun false w in
    let w := setCurrentProfile newName w in
    let w := if resetAutorun then setAutorun true w else w in
    (true, set_name newName p, w).

Definition keyDerivationFailed : QString :=
  "Failed to derive key from password, the profile won't use the new password.".

Definition dbPasswordFailed : QString :=
  "Couldn't change database password, it may be corrupted or use the old password.".

(** The [while (i.hasNext())] loop of [setPassword] over the friend list. *)
Fixpoint resaveFriendAvatars (c : Core) (friendList : list N) (p : t) (w : World)
  : Outcome World :=
  match friendList with
  | [] => Done w
  | i :: rest =>
      let friendPublicKey := getFriendPublicKey c i in
      '(avatar, w) ← loadAvatarData friendPublicKey p w;
      w ← saveAvatar friendPublicKey avatar p w;
      resaveFriendAvatars c rest p w
  end.

Definition setPassword (newPassword : QString) (p : t) (w : World)
  : Outcome (QString * t * World) :=
  let changed :=
    if isEmptyS newPassword then
      (* remove password *)
      Some (set_encrypted false p)
    else
      match makeToxEncrypt newPassword with
      | None => None
      | Some newpasskey =>
          (* apply change *)
          Some (set_encrypted true (set_passkey (Some newpasskey) p))
      end in
  match changed with
  | None =>
      Done (keyDerivationFailed, p,
            emit (Log "Failed to derive key from password, the profile won't use the new password") w)
  | Some p =>
      (* apply new encryption *)
      w ← onSaveToxSave p w;
      let dbSuccess := false in
      let '(dbSuccess, p, w) :=
        match database p with
        | Some db =>
            let '(ok, db, fs) := db_setPassword newPassword db (files w) in
            (ok, set_database (Some db) p,
             emit (EvDbSetPassword newPassword ok) (set_files fs w))
        | None => (dbSuccess, p, w)
        end in
      let error := if negb dbSuccess then dbPasswordFailed else "" in
      c ← deref (core p) "core->getSelfPublicKey";
      '(avatar, w) ← loadAvatarData (getSelfPublicKey c) p w;
      w ← saveAvatar (getSelfPublicKey c) avatar p w;
      let friendList := getFriendList c in
      w ← resaveFriendAvatars c friendList p w;
      Done (error, p, w)
  end.

(** *** The remaining members *)

Context `{!ToxSaveAPI} `{!CoreRunAPI Core} `{!DirEnv}.

(** [Profile::getFilesByExt] *)
Definition getFilesByExt (extension : QString) (w : World) : list QString :=
  let list := entryInfoList (settingsDir w) extension (files w) in
  map completeBaseName list.

(** The loop of [getAllProfileNames] over the tox files. *)
Fixpoint scanProfiles (toxFiles iniFiles : list QString) (w : World) : World :=
  match toxFiles with
  | [] => w
  | toxFile :: rest =>
      let w := if negb (bool_decide (toxFile ∈ iniFiles))
               then emit (EvCreatePersonal toxFile)
                      (set_files (createPersonal (getPaths (settings w)) toxFile
                                    (files w)) w)
               else w in
      let w := set_profiles (profiles w ++ [toxFile])%list w in
      scanProfiles rest iniFiles w
  end.

(** [Profile::getAllProfileNames] *)
Definition getAllProfileNames (w : World) : list QString * World :=
  let w := set_profiles [] w in
  let toxFiles := getFilesByExt "tox" w in
  let iniFiles := getFilesByExt "ini" w in
  let w := scanProfiles toxFiles iniFiles w in
  (profiles w, w).

(** [Profile::getCore] *)
Definition getCore (p : t) : Outcome Core :=
  deref (core p) "assert(c != nullptr)".

Definition getName (p : t) : QString := name p.

(** [Profile::exists] *)
Definition exists_ (name : QString) (w : World) : bool :=
  let path := settingsDir w +:+ name in
  QFile.exists_ (path +:+ ".tox") w.

(** The static [Profile::isEncrypted(name, paths)], which checks the file
    on disk: the first bytes of the file are read into a zeroed buffer. *)
Definition isEncrypted_onDisk (name : QString) (w : World) : bool * World :=
  let path := settingsDir w +:+ name +:+ ".tox" in
  match QFile.openRead path w with
  | None => (false, emit (Log "Couldn't open tox save") w)
  | Some content =>
      let data := take TOX_PASS_ENCRYPTION_EXTRA_LENGTH
                    (content ++ repeat Byte.x00 TOX_PASS_ENCRYPTION_EXTRA_LENGTH)%list in
      (tox_is_data_encrypted data, w)
  end.

(** [Profile::setAvatar] *)
Definition setAvatar (pic : QByteArray) (p : t) (w : World)
  : Outcome (list Signal * World) :=
  c ← deref (core p) "core->getSelfPublicKey";
  let selfPk := getSelfPublicKey c in
  let '(pixmap, avatarData) :=
    if negb (isEmptyB pic) then (Pix_loadFromData pic, pic)
    else if getShowIdenticons (settings w)
         then (Pix_identicon (getByteArray selfPk) 32, [])
         else (Pix_load ":/img/contact_dark.svg", []) in
  w ← saveAvatar selfPk avatarData p w;
  _ ← assertO (avatarBroadcaster p) "avatarBroadcaster->setAvatar";
  Done ([selfAvatarChanged pixmap; BroadcasterSetAvatar avatarData;
         BroadcasterEnableAutoBroadcast], w).

(** [Profile::setFriendAvatar] *)
Definition setFriendAvatar (owner : ToxPk) (pic : QByteArray) (p : t) (w : World)
  : Outcome (list Signal * World) :=
  let '(pixmap, avatarData, signal) :=
    if negb (isEmptyB pic) then
      (Pix_loadFromData pic, pic, friendAvatarSet owner (Pix_loadFromData pic))
    else if getShowIdenticons (settings w) then
      (Pix_identicon (getByteArray owner) 32, [],
       friendAvatarSet owner (Pix_identicon (getByteArray owner) 32))
    else
      (Pix_load ":/img/contact_dark.svg", [], friendAvatarRemoved owner) in
  w ← saveAvatar owner avatarData p w;
  Done ([signal; friendAvatarChanged owner pixmap], w).

(** [Profile::loadAvatar(owner)] *)
Definition loadAvatar (owner : ToxPk) (p : t) (w : World)
  : Outcome (QPixmap * World) :=
  if getShowIdenticons (settings w) then
    '(avatarData, w) ← loadAvatarData owner p w;
    if isEmptyB avatarData
    then Done (Pix_identicon (getByteArray owner) 16, w)
    else Done (Pix_loadFromData avatarData, w)
  else
    '(avatarData, w) ← loadAvatarData owner p w;
    Done (Pix_loadFromData avatarData, w).

(** [Profile::loadAvatar()] *)
Definition loadSelfAvatar (p : t) (w : World) : Outcome (QPixmap * World) :=
  c ← deref (core p) "core->getSelfPublicKey";
  loadAvatar (getSelfPublicKey c) p w.

(** [Profile::removeAvatar] *)
Definition removeAvatar (owner : ToxPk) (p : t) (w : World)
  : Outcome (list Signal * World) :=
  path ← avatarPath owner false p w;
  let w := snd (QFile.remove path w) in
  c ← deref (core p) "core->getSelfPublicKey";
  if bool_decide (owner = getSelfPublicKey c)
  then setAvatar [] p w
  else setFriendAvatar owner [] p w.

Definition removeSelfAvatar (p : t) (w : World) : Outcome (list Signal * World) :=
  c ← deref (core p) "core->getSelfPublicKey";
  removeAvatar (getSelfPublicKey c) p w.

Definition removeFriendAvatar (owner : ToxPk) (p : t) (w : World)
  : Outcome (list Signal * World) :=
  removeAvatar owner p w.

(** [Profile::startCore] *)
Definition startCore (p : t) (w : World) : Outcome (list Signal * t * World) :=
  c ← deref (core p) "emit coreChanged";
  let c := Core_start c in
  let p := set_core (Some c) p in
  let selfPk := getSelfPublicKey c in
  '(data, w) ← loadAvatarData selfPk p w;
  '(signals, w) ← setAvatar data p w;
  Done (([ConnectRequestSent; coreChanged; CoreStarted] ++ signals)%list, p, w).

(** [Profile::isHistoryEnabled] *)
Definition isHistoryEnabled (p : t) (w : World) : bool :=
  getEnableLogging (settings w) && history p.

(** [Profile::getHistory]: whether the pointer handed out is non-null. *)
Definition getHistory (p : t) : bool := history p.

(** The text of the history entry: the translated template with the
    message put between double quotes in place of %1. *)
Definition inviteStr (message : QString) : QString :=
  let quote := String (Ascii.ascii_of_nat 34) EmptyString in
  "/me offers friendship, " +:+ quote +:+ message +:+ quote.

(** [Profile::onRequestSent]; [now] is [QDateTime::currentDateTime()]. *)
Definition onRequestSent (friendPk : ToxPk) (message : QString) (now : N)
    (p : t) (w : World) : Outcome (list Signal) :=
  if negb (isHistoryEnabled p w) then Done []
  else
    c ← deref (core p) "core->getSelfPublicKey";
    let selfPk := getSelfPublicKey c in
    let selfName := getUsername c in
    Done [HistoryAddNewMessage friendPk (inviteStr message) selfPk now true selfName].
End Model.
End Profile.

(** ** The profile choice of [AppManager::run] *)

Module AppManager.
Section Model.
Context {ToxEncrypt Core CoreAV RawDatabase : Type}.
Context `{!ToxEncryptAPI ToxEncrypt} `{!CoreAPI Core CoreAV}
        `{!RawDatabaseAPI RawDatabase} `{!SettingsAPI} `{!ToxAPI} `{!FileEnv}
        `{!ToxSaveAPI}.
Context `{LP : !LockerPolicy}.

(** The options of the command line that bear on the profile. *)
Record Parser := mkParser {
  value_p : option QString;              (* -p <profile> *)
  isSet_l : bool;                        (* -l *)
  positionalArguments : list QString
}.

(** What the option handling settles: the profile name, whether to log in
    automatically, whether to use IPC, and the profile whose id is the IPC
    destination (none for destination 0). *)
Record Choice := mkChoice {
  profileName : QString;
  autoLogin : bool;
  doIpc : bool;
  ipcDest : option QString
}.

(** The [if (parser.isSet("p")) ... else if (parser.isSet("l")) ... else]
    of [run]; [getAutoLogin] and [isAttached] are the values of
    [settings->getAutoLogin()] and [ipc->isAttached()]. *)
Definition chooseProfile (parser : Parser) (getAutoLogin isAttached : bool)
    (w : World) : Choice * World :=
  match value_p parser with
  | Some name =>
      if negb (Profile.exists_ name w) then
        (mkChoice name false false None,
         emit (Log "-p profile doesn't exist, opening login screen") w)
      else (mkChoice name true isAttached (Some name), w)
  | None =>
      if isSet_l parser then (mkChoice "" false false None, w)
      else (mkChoice (getCurrentProfile (settings w)) getAutoLogin isAttached None, w)
  end.

(** What [run] goes on with after the autologin step. *)
Inductive Next :=
| bootstrapWithProfile (p : @Profile.t ToxEncrypt Core CoreAV RawDatabase)
| showLogin (profileName : QString).

(** The autologin step of [run]; the flag tells whether the message box
    "Failed to load profile automatically." was shown. *)
Definition autoLoginStep (c : Choice) (w : World) : Outcome (Next * bool * World) :=
  if autoLogin c && Profile.exists_ (profileName c) w then
    let '(encrypted, w) := Profile.isEncrypted_onDisk (profileName c) w in
    if negb encrypted then
      '(profile, w) ← Profile.loadProfile (profileName c) "" w;
      match profile with
      | Some p => Done (bootstrapWithProfile p, false, w)
      | None => Done (showLogin (profileName c), true, w)
      end
    else Done (showLogin (profileName c), false, w)
  else Done (showLogin (profileName c), false, w).

(** What [run] asks of the IPC object between the choice of the profile
    and the autologin step.  The shared memory of IPC is no part of the
    [World]: [waitUntilAccepted eventType firstParam dest] is the answer of
    [ipc->waitUntilAccepted(event, 2)] for the event that
    [ipc->postEvent(eventType, firstParam.toUtf8(), dest)] has posted. *)
Record IPC := mkIPC {
  isAttached : bool;
  isCurrentOwner : bool;
  waitUntilAccepted : QString → QString → option QString → bool
}.

Definition anotherInstance : QString :=
  "Another qTox instance is already running. If you want to start a second "
  +:+ "instance, please open login screen (qtox -l) or start with a profile (qtox "
  +:+ "-p <profile name>).".

Definition EXIT_SUCCESS : Z := 0.
Definition EXIT_FAILURE : Z := 1.

(** [QString::endsWith]. *)
Definition endsWith (s suffix : QString) : bool :=
  (String.length suffix <=? String.length s)%nat
  && String.eqb
       (substring (String.length s - String.length suffix)
                  (String.length suffix) s)
       suffix.

(** The event type and the first parameter that [run] reads off the
    positional arguments; [None] is the invalid argument.
    [eventHandlerKey] is [ToxSave::eventHandlerKey]. *)
Definition eventTypeOf (eventHandlerKey : QString) (positional : list QString)
  : option (QString * QString) :=
  match positional with
  | [] => Some ("activate", "")
  | firstParam :: _ =>
      (* Tox URIs. If there's already another qTox instance running, we ask
         it to handle the URI and we exit *)
      if String.prefix "tox:" firstParam then Some ("uri", firstParam)
      else if endsWith firstParam ".tox" then Some (eventHandlerKey, firstParam)
      else None
  end.

(** How far [run] gets from the options to the autologin step: it returns
    an exit code early, or it goes on with a profile or the login screen. *)
Inductive Stage :=
| Return (code : Z)
| GoOn (next : Next) (messageBoxShown : bool).

(** [run] from the choice of the profile up to the call of
    [bootstrapWithProfile] or [showLogin]; [getAutoLogin] and
    [verifyProxySettings] are the values of [settings->getAutoLogin()] and
    [Settings::verifyProxySettings(parser)]. *)
Definition profileStage (parser : Parser) (getAutoLogin : bool) (ipc : IPC)
    (verifyProxySettings : bool) (eventHandlerKey : QString) (w : World)
  : Outcome (Stage * World) :=
  let '(c, w) := chooseProfile parser getAutoLogin (isAttached ipc) w in
  match eventTypeOf eventHandlerKey (positionalArguments parser) with
  | None => Done (Return EXIT_FAILURE, emit (Log "Invalid argument") w)
  | Some (eventType, firstParam) =>
      (* If someone else processed it, we're done here, no need to
         actually start qTox *)
      let handled :=
        if doIpc c && negb (isCurrentOwner ipc)
        then waitUntilAccepted ipc eventType firstParam (ipcDest c)
        else false in
      if handled then
        if bool_decide (eventType = "activate") then
          Done (Return EXIT_SUCCESS,
                emit (Log anotherInstance) w)
        else
          Done (Return EXIT_SUCCESS,
                emit (Log "Event was handled by other client.") w)
      else if negb verifyProxySettings then Done (Return (-1)%Z, w)
      else
        '(next, shown, w) ← autoLoginStep c w;
        Done (GoOn next shown, w)
  end.
End Model.
End AppManager.

(** ** A concrete set of collaborators

    Small executable stand-ins, used to run the operations on concrete
    inputs. *)
Module Demo.
(** A key is the password it was derived from; the password ["weak"] is
    rejected by key derivation.  Ciphertext is the plaintext behind a
    one-byte header; the key ["mute"] fails to encrypt and the key
    ["wrong"] fails to decrypt. *)
Definition magic : byte := "E"%byte.

#[export] Instance toxEncrypt : ToxEncryptAPI QString := {|
  isEncryptedData d := match d with b :: _ => bool_decide (b = magic) | [] => false end;
  makeToxEncrypt pw := if bool_decide (pw = "weak") then None else Some pw;
  makeToxEncryptFor pw _ := if bool_decide (pw = "weak") then None else Some pw;
  encrypt k d := if bool_decide (k = "mute") then [] else magic :: d;
  decrypt k d := match d with
                 | b :: rest => if bool_decide (b = magic) && negb (bool_decide (k = "wrong"))
                                then rest else []
                 | [] => []
                 end
|}.

Record Core := mkCore {
  selfPk : ToxPk;
  friends : list (N * ToxPk);
  saveData : QByteArray;
  username : QString;
  statusMessage : QString
}.

Definition lookupFriend (c : Core) (i : N) : ToxPk :=
  match List.find (fun e => N.eqb (fst e) i) (friends c) with
  | Some e => snd e
  | None => mkToxPk []
  end.

Definition pk32 (b : byte) : ToxPk := mkToxPk (repeat b 32).

(** The first byte of a save selects the outcome of starting the core:
    ["P"] is a bad proxy, ["I"] an invalid save, ["S"] a core whose public
    key is three bytes long; anything else starts a core with one
    friend. *)
Definition startCore (pk : ToxPk) (save : QByteArray) : Core + ToxCoreErrors.t :=
  match save with
  | "P"%byte :: _ => inr ToxCoreErrors.BAD_PROXY
  | "I"%byte :: _ => inr ToxCoreErrors.INVALID_SAVE
  | "S"%byte :: _ => inl (mkCore (mkToxPk ["a"; "b"; "c"]%byte) [] save "" "")
  | _ => inl (mkCore pk [(0%N, pk32 "f"%byte)] ("s"%byte :: save) "" "")
  end.

#[export] Instance core : CoreAPI Core unit := {|
  makeToxCore save _ := startCore (pk32 "k"%byte) save;
  makeCoreAV _ _ := Some tt;
  getSelfPublicKey := selfPk;
  getFriendList c := map fst (friends c);
  getFriendPublicKey := lookupFriend;
  getToxSaveData := saveData;
  setStatusMessage m c := mkCore (selfPk c) (friends c) (saveData c) (username c) m;
  setUsername n c := mkCore (selfPk c) (friends c) (saveData c) n (statusMessage c)
|}.

(** A database handle: whether it is open, and whether it lets itself be
    re-keyed.  Opening never fails and leaves the filesystem alone. *)
Record Db := mkDb { dbOpen : bool; dbRekey : bool }.

#[export] Instance rawDatabase : RawDatabaseAPI Db := {|
  RawDatabase_new _ _ _ fs := (mkDb true true, fs);
  db_isOpen := dbOpen;
  db_remove _ fs := (false, fs);
  db_rename _ db fs := (db, fs);
  db_setPassword _ db fs := (dbRekey db, db, fs)
|}.

#[export] Instance settingsApi : SettingsAPI := {|
  updateProfileData _ _ _ s := s;
  createPersonal _ _ fs := fs
|}.

#[export] Instance tox : ToxAPI := {|
  ToxPk_toString pk := toHexUpper (getByteArray pk);
  TOX_PASS_SALT_LENGTH := 32;
  tox_public_key_size := 32;
  tox_hash_length := 32;
  tox_hash d := d;
  crypto_generichash n input key := take n (input ++ key)%list;
  crypto_generichash_BYTES_MIN := 16;
  crypto_generichash_BYTES_MAX := 64;
  crypto_generichash_KEYBYTES_MIN := 16;
  crypto_generichash_KEYBYTES_MAX := 64
|}.

(** Every file operation goes through, except on paths that contain
    ["ro.tox"], which can be neither opened for writing nor removed, and
    flushing a buffer that starts with ["!"]. *)
Definition stuck (path : QString) : bool :=
  match String.index 0 "ro.tox" path with Some _ => true | None => false end.

#[export] Instance fileEnv : FileEnv := {|
  canOpenRead _ := true;
  canOpenWrite p := negb (stuck p);
  flushOk _ buf := match buf with "!"%byte :: _ => false | _ => true end;
  commitOk _ := true;
  canRemove p := negb (stuck p);
  canRename _ _ := true
|}.

(** The header check looks for the same first byte as the check of
    loaded data, in a buffer of eight bytes. *)
#[export] Instance toxSave : ToxSaveAPI := {|
  TOX_PASS_ENCRYPTION_EXTRA_LENGTH := 8;
  tox_is_data_encrypted d :=
    match d with b :: _ => bool_decide (b = magic) | [] => false end
|}.

(** The locker hands the lock over from one name to another. *)
#[export] Instance lockerPolicy : LockerPolicy := {| handsOver := true |}.

(** Starting the core thread leaves the core as it is. *)
#[export] Instance coreRun : CoreRunAPI Core := {|
  Core_start c := c;
  getUsername := username
|}.

Definition demoSettings : Settings :=
  mkSettings (mkPaths "/cfg/") true "alice" true true.

Definition world (fs : FS) (held : option QString) : World :=
  mkWorld fs held {["bob"]} ["alice"; "carol"; "alice"] demoSettings [].

Definition bytes (s : string) : QByteArray := list_byte_of_string s.

(** A settings directory with five profiles: alice (encrypted), carol
    (plain), pat (plain, its core rejects the proxy), sam (plain, its
    core reports a three-byte public key) and ro (plain, its save file is
    write-protected); and one cached avatar, stored under the plaintext
    name of the friend. *)
Definition friendAvatar : QString :=
  "/cfg/avatars/" +:+ toHexUpper (repeat "f"%byte 32) +:+ ".png".

Definition disk : FS :=
  {[ "/cfg/alice.tox" := bytes "Ehello";
     "/cfg/carol.tox" := bytes "plain";
     "/cfg/carol.ini" := bytes "[General]";
     "/cfg/pat.tox" := bytes "Pxx";
     "/cfg/sam.tox" := bytes "Sxx";
     "/cfg/ro.tox" := bytes "plain";
     "/cfg/ro.ini" := bytes "[General]";
     friendAvatar := bytes "png" ]}.

Definition w0 : World := world disk None.

(** Where an encrypted profile keeps the avatar of the friend. *)
Definition hashedFriendAvatar : QString :=
  Eval vm_compute in
    "/cfg/avatars/"
    +:+ toHexUpper (crypto_generichash 32
                      (bytes (toHexUpper (repeat "f"%byte 32)))
                      (repeat "k"%byte 32))
    +:+ ".png".

Abbreviation T := (@Profile.t QString Core unit Db).

(** A started profile (core and AV running) without a database handle. *)
Definition loaded (name : QString) (key : option QString) : T :=
  Profile.mk name key false (match key with Some _ => true | None => false end)
    (Some (mkCore (pk32 "k"%byte) [(0%N, pk32 "f"%byte)] (bytes "state") "" ""))
    (Some tt) None false true.

(** The same without friends. *)
Definition lonely (name : QString) (key : option QString) : T :=
  Profile.mk name key false (match key with Some _ => true | None => false end)
    (Some (mkCore (pk32 "k"%byte) [] (bytes "state") "me" ""))
    (Some tt) None false true.

(** Where our own avatar is cached: under the plaintext name, and under
    the hashed name an encrypted profile uses. *)
Definition selfAvatar : QString :=
  "/cfg/avatars/" +:+ toHexUpper (repeat "k"%byte 32) +:+ ".png".

Definition hashedSelfAvatar : QString :=
  Eval vm_compute in
    "/cfg/avatars/"
    +:+ toHexUpper (crypto_generichash 32
                      (bytes (toHexUpper (repeat "k"%byte 32)))
                      (repeat "k"%byte 32))
    +:+ ".png".

(** The settings directory with our own avatar cached in plaintext, and
    with our own avatar cached encrypted. *)
Definition diskPlainAvatar : FS := <[selfAvatar := bytes "me"]> disk.


(** Collaborators that fail where the ones above do not: a core whose AV
    never starts, and a filesystem on which no commit goes through. *)
Definition coreNoAv : CoreAPI Core unit := {|
  makeToxCore save _ := startCore (pk32 "k"%byte) save;
  makeCoreAV _ _ := None;
  getSelfPublicKey := selfPk;
  getFriendList c := map fst (friends c);
  getFriendPublicKey := lookupFriend;
  getToxSaveData := saveData;
  setStatusMessage m c := mkCore (selfPk c) (friends c) (saveData c) (username c) m;
  setUsername n c := mkCore (selfPk c) (friends c) (saveData c) n (statusMessage c)
|}.

(** What a run that returns has returned. *)
Definition outcome {A} (d : A) (o : Outcome A) : A :=
  match o with Done a => a | Fatal _ => d end.

Definition fileEnvNoCommit : FileEnv := {|
  canOpenRead _ := true;
  canOpenWrite _ := true;
  flushOk _ _ := true;
  commitOk _ := false;
  canRemove _ := true;
  canRename _ _ := true
|}.
End Demo.

(** * Properties *)

Section Properties.
Context {ToxEncrypt Core CoreAV RawDatabase : Type}.
Context `{!ToxEncryptAPI ToxEncrypt} `{!CoreAPI Core CoreAV}
        `{!RawDatabaseAPI RawDatabase} `{!SettingsAPI} `{!ToxAPI} `{!FileEnv}.
Context `{LP : !LockerPolicy}.

Abbreviation Profile_t := (@Profile.t ToxEncrypt Core CoreAV RawDatabase).

(** ** Loading *)

(** [loadToxData] reads nothing but the files. *)
Lemma loadToxData_files password path data (w1 w2 : World) :
  files w1 = files w2 →
  Profile.loadToxData password path data w1 = Profile.loadToxData password path data w2.
Proof.
  intros Hfs. unfold Profile.loadToxData, QFile.exists_, QFile.openRead.
  by rewrite Hfs.
Qed.

(** A successful [loadToxData] hands back a non-empty save. *)
Lemma loadToxData_OK_nonempty password path data w key toxSave :
  data = [] →
  Profile.loadToxData password path data w = (key, toxSave, LoadToxDataError.OK) →
  toxSave ≠ [].
Proof.
  intros -> Hload. unfold Profile.loadToxData in Hload.
  destruct (negb _); [done|].
  destruct (QFile.openRead path w) as [content|]; [|done].
  destruct content as [|b content]; [done|]. simpl in Hload.
  destruct (isEncryptedData _).
  - destruct (isEmptyS password); [done|].
    destruct (makeToxEncryptFor _ _) as [k|]; [|done].
    destruct (decrypt k _) eqn:Hdec; simpl in Hload; [done|].
    by inversion Hload.
  - by inversion Hload.
Qed.

(** With the lock free, every error of [loadToxData] makes [loadProfile]
    log it, release the lock and return no profile. *)
Lemma loadProfile_error name password w err :
  ProfileLocker.hasLock w = false →
  name ∉ foreignLocks w →
  snd (Profile.loadToxData password (settingsDir w +:+ name +:+ ".tox") [] w) = err →
  err ≠ LoadToxDataError.OK →
  ∃ w', Profile.loadProfile name password w = Done (None, w')
        ∧ trace w' = (trace w ++ [EvLock name true;
                                  LogLoadError err (settingsDir w +:+ name +:+ ".tox");
                                  EvUnlock])%list
        ∧ curLockName w' = None
        ∧ files w' = files w.
Proof.
  intros Hfree Hforeign Herr Hne.
  unfold Profile.loadProfile. rewrite Hfree.
  unfold ProfileLocker.hasLock in Hfree.
  unfold ProfileLocker.lock.
  destruct (curLockName w) eqn:Hcur; [done|].
  rewrite bool_decide_eq_false_2 by done. cbn [negb].
  set (w1 := emit _ (set_curLockName _ w)).
  change (settingsDir w1) with (settingsDir w).
  rewrite (loadToxData_files _ _ _ w1 w) by done.
  destruct (Profile.loadToxData _ _ _ w) as [[key toxSave] error].
  simpl in Herr. subst error.
  destruct err; [done|..]; cbn;
    (eexists; split; [reflexivity|]; subst w1; cbn;
     rewrite <- !app_assoc; done).
Qed.

(** C1.  [loadProfile] under a held lock returns no profile and leaves the
    files and the lock alone; so it does when another instance holds the
    lock of the name.  With the lock free and an encrypted save on disk, an empty password ends in ENCRYPTED_NO_PASSWORD, a failed key
    derivation in COULD_NOT_DERIVE_KEY and an empty decryption in
    DECRYPTION_FAILED; in each of these cases the error is logged, the lock
    taken by [loadProfile] is released again and no profile is returned. *)
Theorem loadProfile_failure_modes (name password : QString) (w : World) :
  let path := settingsDir w +:+ name +:+ ".tox" in
  let fails_with err :=
    snd (Profile.loadToxData password path [] w) = err
    ∧ ∃ w', Profile.loadProfile name password w = Done (None, w')
            ∧ trace w' = (trace w ++ [EvLock name true; LogLoadError err path;
                                      EvUnlock])%list
            ∧ curLockName w' = None
            ∧ files w' = files w in
  (ProfileLocker.hasLock w = true →
     ∃ w', Profile.loadProfile name password w = Done (None, w')
           ∧ files w' = files w ∧ curLockName w' = curLockName w)
  ∧ (ProfileLocker.hasLock w = false → name ∈ foreignLocks w →
     ∃ w', Profile.loadProfile name password w = Done (None, w')
           ∧ files w' = files w ∧ curLockName w' = None)
  ∧ (ProfileLocker.hasLock w = false → name ∉ foreignLocks w →
     ∀ blob : QByteArray, files w !! path = Some blob → canOpenRead path = true →
             blob ≠ [] → isEncryptedData blob = true →
       (isEmptyS password = true →
          fails_with LoadToxDataError.ENCRYPTED_NO_PASSWORD)
       ∧ (isEmptyS password = false → makeToxEncryptFor password blob = None →
          fails_with LoadToxDataError.COULD_NOT_DERIVE_KEY)
       ∧ (∀ key, isEmptyS password = false →
                 makeToxEncryptFor password blob = Some key →
                 decrypt key blob = [] →
          fails_with LoadToxDataError.DECRYPTION_FAILED)).
Proof.
  intros path fails_with. split; [|split].
  - intros Hheld. unfold Profile.loadProfile. rewrite Hheld.
    eexists. split; [reflexivity|]. done.
  - intros Hfree Hforeign. unfold Profile.loadProfile. rewrite Hfree.
    unfold ProfileLocker.hasLock in Hfree. unfold ProfileLocker.lock.
    destruct (curLockName w) eqn:Hcur; [done|].
    rewrite bool_decide_eq_true_2 by done. cbn.
    eexists. split; [reflexivity|]. done.
  - intros Hfree Hforeign blob Hblob Hread Hnonempty Henc.
    assert (Hblob_load : ∀ err,
      snd (Profile.loadToxData password path [] w) = err →
      err ≠ LoadToxDataError.OK → fails_with err).
    { intros err Herr Hne. split; [done|].
      by apply loadProfile_error. }
    assert (Hstart : ∀ r,
      (if isEmptyS password
       then (None, blob, LoadToxDataError.ENCRYPTED_NO_PASSWORD)
       else match makeToxEncryptFor password blob with
            | None => (None, blob, LoadToxDataError.COULD_NOT_DERIVE_KEY)
            | Some tmpKey =>
                if isEmptyB (decrypt tmpKey blob)
                then (None, decrypt tmpKey blob, LoadToxDataError.DECRYPTION_FAILED)
                else (Some tmpKey, decrypt tmpKey blob, LoadToxDataError.OK)
            end) = r →
      Profile.loadToxData password path [] w = r).
    { intros r <-. unfold Profile.loadToxData, QFile.exists_, QFile.openRead.
      rewrite Hread, Hblob. rewrite bool_decide_eq_true_2 by eauto. cbn [negb].
      destruct blob; [done|]. cbn [length Nat.eqb]. by rewrite Henc. }
    split; [|split].
    + intros Hpw. apply Hblob_load; [|done].
      erewrite Hstart by reflexivity. by rewrite Hpw.
    + intros Hpw Hkey. apply Hblob_load; [|done].
      erewrite Hstart by reflexivity. by rewrite Hpw, Hkey.
    + intros key Hpw Hkey Hdec. apply Hblob_load; [|done].
      erewrite Hstart by reflexivity. by rewrite Hpw, Hkey, Hdec.
Qed.

(** ** Saving *)

(** C2.  On a profile that is not removed and holds its lock,
    [saveToxSave] returns.  When encryption yields an empty buffer the
    write is cancelled and the result is false.  A commit happens only
    after a successful flush.  On every failure (the save file cannot be
    opened, encryption fails, the flush fails) the result is false and the
    files are exactly what they were; if the files changed at all, nothing
    failed and the save path now holds the written bytes. *)
Theorem saveToxSave_atomic (data : QByteArray) (p : Profile_t) (w : World) :
  Profile.isRemoved p = false →
  curLockName w = Some (Profile.name p) →
  (Profile.encrypted p = true → is_Some (Profile.passkey p)) →
  let path := settingsDir w +:+ Profile.name p +:+ ".tox" in
  let written :=
    if Profile.encrypted p
    then match Profile.passkey p with Some k => encrypt k data | None => data end
    else data in
  let failure :=
    negb (canOpenWrite path)
    || (Profile.encrypted p && isEmptyB written)
    || negb (flushOk path written) in
  ∃ b w' evs,
    Profile.saveToxSave data p w = Done (b, w')
    ∧ trace w' = (trace w ++ evs)%list
    ∧ (Profile.encrypted p = true → canOpenWrite path = true → written = [] →
       b = false ∧ EvSaveCancel path ∈ evs)
    ∧ (∀ ok, EvSaveCommit path ok ∈ evs → flushOk path written = true)
    ∧ (failure = true → b = false ∧ files w' = files w)
    ∧ (files w' ≠ files w →
       failure = false ∧ files w' = <[path := written]> (files w)).
Proof.
  intros Hlive Hlock Hkey path written failure.
  unfold Profile.saveToxSave, ProfileLocker.assertLock, ProfileLocker.hasLock,
    ProfileLocker.getCurLockName.
  rewrite Hlive, Hlock. rewrite bool_decide_eq_true_2 by done. cbn.
  fold path. unfold QSaveFile.open.
  subst failure.
  destruct (canOpenWrite path) eqn:Hopen; cbn.
  2:{ eexists _, _, _. split; [reflexivity|]. split; [reflexivity|].
      repeat split; try done.
      intros ok Hin. apply list_elem_of_singleton in Hin. done. }
  assert (Hdata :
    (if Profile.encrypted p
     then key ← deref (Profile.passkey p) "passkey->encrypt"; Done (encrypt key data)
     else Done data) = Done written).
  { subst written. destruct (Profile.encrypted p); [|done].
    destruct Hkey as [k Hk]; [done|]. by rewrite Hk. }
  rewrite Hdata. cbn.
  destruct (Profile.encrypted p && isEmptyB written) eqn:Hempty; cbn.
  - eexists _, _, _. split; [reflexivity|].
    split; [cbn; rewrite <- app_assoc; reflexivity|].
    repeat split; try done.
    + apply list_elem_of_In. cbn. auto.
    + intros ok Hin. apply list_elem_of_In in Hin. cbn in Hin.
      destruct Hin as [|[|]]; done.
  - assert (Hnot : Profile.encrypted p = true → written = [] → False).
    { intros He Hw. by rewrite He, Hw in Hempty. }
    unfold QSaveFile.flush, QSaveFile.commit. cbn.
    destruct (flushOk path written) eqn:Hflush; cbn.
    + destruct (commitOk path) eqn:Hcommit; cbn;
        (eexists _, _, _; split; [reflexivity|]; split; [reflexivity|]);
        repeat split; try done; intros; exfalso; eauto.
    + eexists _, _, _. split; [reflexivity|].
      split; [cbn; rewrite <- app_assoc; reflexivity|].
      repeat split; try done.
      * intros; exfalso; eauto.
      * intros ok Hin. apply list_elem_of_In in Hin. cbn in Hin.
        destruct Hin as [|[|]]; done.
Qed.

(** ** Removing *)

Lemma removeAll_not_in (n : QString) (l : list QString) :
  n ∉ Profile.removeAll n l.
Proof.
  induction l as [|x l IH]; cbn.
  - apply not_elem_of_nil.
  - case_bool_decide; [done|]. apply not_elem_of_cons. split; [congruence|done].
Qed.

Lemma suffix_distinct (base ext1 ext2 : QString) :
  ext1 ≠ ext2 → base +:+ ext1 ≠ base +:+ ext2.
Proof. intros Hne Heq. by apply String.app_inj in Heq. Qed.

(** [QFile::remove] on one path does not change whether another exists. *)
Lemma exists_after_remove (path other : QString) (w : World) :
  path ≠ other →
  QFile.exists_ other (QFile.remove path w).2 = QFile.exists_ other w.
Proof.
  intros Hne. unfold QFile.remove, QFile.exists_.
  destruct (_ && _); cbn; [|done]. by rewrite lookup_delete_ne.
Qed.

(** One deletion attempt of [remove]: the path joins the failure list
    exactly when the file is there and cannot be deleted; the lock, the
    profile list and every other path are left as they were. *)
Lemma remove_attempt_spec (path : QString) (ret : list QString) (w : World) :
  ∃ ok evs w'',
    (let '(removed, w') := QFile.remove path w in
     if negb removed && QFile.exists_ path w'
     then ((ret ++ [path])%list, emit (Log "Could not remove file") w')
     else (ret, w'))
    = ((ret ++ (if QFile.exists_ path w && negb (canRemove path)
                then [path] else []))%list, w'')
    ∧ trace w'' = (trace w ++ EvFileRemove path ok :: evs)%list
    ∧ curLockName w'' = curLockName w
    ∧ profiles w'' = profiles w
    ∧ settings w'' = settings w
    ∧ (∀ other, other ≠ path → QFile.exists_ other w'' = QFile.exists_ other w).
Proof.
  unfold QFile.remove.
  destruct (QFile.exists_ path w) eqn:Hex; cbn [andb negb].
  - destruct (canRemove path); cbn [andb negb].
    + eexists true, [], _. rewrite app_nil_r. repeat split; try done.
      intros other Hne. unfold QFile.exists_. cbn. by rewrite lookup_delete_ne.
    + change (QFile.exists_ path (emit (EvFileRemove path false) w))
        with (QFile.exists_ path w). rewrite Hex.
      eexists false, [_], _. split; [reflexivity|]. cbn.
      rewrite <- app_assoc. repeat split; done.
  - change (QFile.exists_ path (emit (EvFileRemove path false) w))
      with (QFile.exists_ path w). rewrite Hex.
    eexists false, [], _. rewrite app_nil_r. repeat split; done.
Qed.

(** One deletion attempt of [remove], in full: the trace entry of the
    deletion tells whether it went through, the warning follows exactly
    when the file is there and cannot be deleted, and the file is gone
    whenever it can be removed. *)
Lemma remove_attempt_exact (path : QString) (ret : list QString) (w : World) :
  let ok := QFile.exists_ path w && canRemove path in
  let failed := QFile.exists_ path w && negb (canRemove path) in
  ∃ w'',
    (let '(removed, w') := QFile.remove path w in
     if negb removed && QFile.exists_ path w'
     then ((ret ++ [path])%list, emit (Log "Could not remove file") w')
     else (ret, w'))
    = ((ret ++ (if failed then [path] else []))%list, w'')
    ∧ trace w''
      = (trace w ++ EvFileRemove path ok
                    :: (if failed then [Log "Could not remove file"] else []))%list
    ∧ files w'' = (if canRemove path then delete path (files w) else files w)
    ∧ settings w'' = settings w
    ∧ curLockName w'' = curLockName w
    ∧ profiles w'' = profiles w
    ∧ foreignLocks w'' = foreignLocks w.
Proof.
  unfold QFile.remove.
  destruct (QFile.exists_ path w) eqn:Hex; cbn.
  - destruct (canRemove path); cbn.
    + eexists. rewrite app_nil_r. by repeat split.
    + change (QFile.exists_ path (emit (EvFileRemove path false) w))
        with (QFile.exists_ path w).
      rewrite Hex. eexists. split; [done|]. cbn.
      rewrite <- app_assoc. by repeat split.
  - change (QFile.exists_ path (emit (EvFileRemove path false) w))
      with (QFile.exists_ path w).
    rewrite Hex. eexists. rewrite app_nil_r. split; [done|]. cbn.
    repeat split.
    unfold QFile.exists_ in Hex. apply bool_decide_eq_false in Hex.
    destruct (canRemove path); [|done]. symmetry. apply delete_id.
    destruct (files w !! path) eqn:Hl; [|done]. exfalso. eauto.
Qed.

(** C6.  On a removed profile [remove] returns an empty list and does
    nothing but log a warning: files, lock and profile list stay.  On a
    live profile it marks the profile removed and drops its history and
    database, releases the lock before anything is deleted, takes the name
    out of the profile list, and then attempts the save file, the settings
    file and, if the database is open, the database, each whatever the
    outcome of the others: each of the two files is gone afterwards if it
    can be removed, the database is asked to remove itself exactly when it
    is open, and the result lists exactly the paths that were found and
    could not be deleted (the database path when its removal failed and
    the file is still there).  A second call then returns an empty list
    and only logs the warning. *)
Theorem remove_idempotent (p : Profile_t) (w : World) :
  let tox := (settingsDir w +:+ Profile.name p) +:+ ".tox" in
  let ini := (settingsDir w +:+ Profile.name p) +:+ ".ini" in
  let dbPath := Profile.getDbPath (Profile.name p) w in
  let stuck path :=
    if QFile.exists_ path w && negb (canRemove path) then [path] else [] in
  let attempt path :=
    EvFileRemove path (QFile.exists_ path w && canRemove path)
    :: (if QFile.exists_ path w && negb (canRemove path)
        then [Log "Could not remove file"] else []) in
  let gone path (fs : FS) := if canRemove path then delete path fs else fs in
  let fs2 := gone ini (gone tox (files w)) in
  (Profile.isRemoved p = true →
     ∃ w', Profile.remove p w = (p, [], w')
           ∧ w' = emit (Log "Profile is already removed") w
           ∧ files w' = files w ∧ curLockName w' = curLockName w
           ∧ profiles w' = profiles w)
  ∧ (Profile.isRemoved p = false →
     ∃ p1 ret w1 evs dbret dbevs,
       Profile.remove p w = (p1, ret, w1)
       ∧ p1 = Profile.set_database None
                (Profile.set_history false (Profile.set_isRemoved true p))
       ∧ Profile.isRemoved p1 = true
       ∧ trace w1 = (trace w ++ EvUnlock :: evs)%list
       ∧ evs = (attempt tox ++ attempt ini ++ dbevs ++ [EvHistoryReset])%list
       ∧ curLockName w1 = None
       ∧ profiles w1 = Profile.removeAll (Profile.name p) (profiles w)
       ∧ (Profile.name p ∉ profiles w1)
       ∧ (∃ ok, EvFileRemove tox ok ∈ evs)
       ∧ (∃ ok, EvFileRemove ini ok ∈ evs)
       ∧ ret = (stuck tox ++ stuck ini ++ dbret)%list
       ∧ match Profile.database p with
         | Some db =>
             if db_isOpen db then
               let removed := (db_remove db fs2).1 in
               let failed := negb removed && QFile.exists_ dbPath w1 in
               files w1 = (db_remove db fs2).2
               ∧ dbevs = EvDbRemove removed
                         :: (if failed then [Log "Could not remove file"] else [])
               ∧ dbret = (if failed then [dbPath] else [])
             else files w1 = fs2 ∧ dbevs = [] ∧ dbret = []
         | None => files w1 = fs2 ∧ dbevs = [] ∧ dbret = []
         end
       ∧ (dbret = [] ∨
          dbret = [dbPath]
          ∧ QFile.exists_ dbPath w1 = true
          ∧ ∃ db fs, Profile.database p = Some db ∧ db_isOpen db = true
                     ∧ (db_remove db fs).1 = false)
       ∧ ∃ w2, Profile.remove p1 w1 = (p1, [], w2)
               ∧ w2 = emit (Log "Profile is already removed") w1
               ∧ files w2 = files w1 ∧ curLockName w2 = curLockName w1
               ∧ profiles w2 = profiles w1).
Proof.
  intros tox ini dbPath stuck attempt gone fs2. split.
  - intros Hgone. unfold Profile.remove. rewrite Hgone. eauto 10.
  - intros Hlive. unfold Profile.remove at 1. rewrite Hlive.
    cbn [Profile.set_isRemoved Profile.name Profile.database].
    set (w0 := ProfileLocker.unlock _).
    change (settingsDir (set_profiles _ w)) with (settingsDir w).
    fold tox ini.
    destruct (remove_attempt_exact tox [] w0)
      as (wa & Hstep1 & Htr1 & Hf1 & Hst1 & Hlk1 & Hps1 & _).
    destruct (QFile.remove tox w0) as [removed1 wa'] eqn:Hrm1.
    rewrite Hstep1. clear Hstep1 Hrm1 removed1 wa'.
    destruct (remove_attempt_exact ini
                ([] ++ (if QFile.exists_ tox w0 && negb (canRemove tox)
                        then [tox] else []))%list wa)
      as (wb & Hstep2 & Htr2 & Hf2 & Hst2 & Hlk2 & Hps2 & _).
    destruct (QFile.remove ini wa) as [removed2 wb'] eqn:Hrm2.
    rewrite Hstep2. clear Hstep2 Hrm2 removed2 wb'.
    assert (Hex2 : QFile.exists_ ini wa = QFile.exists_ ini w).
    { unfold QFile.exists_. rewrite Hf1. subst w0. cbn.
      destruct (canRemove tox); [|done].
      rewrite lookup_delete_ne; [done|]. by apply suffix_distinct. }
    rewrite Hex2 in Htr2 |- *.
    change (QFile.exists_ tox w0) with (QFile.exists_ tox w) in Htr1 |- *.
    fold (stuck tox) (stuck ini). cbn [app].
    assert (Hdb : Profile.getDbPath (Profile.name p) wb = dbPath).
    { unfold dbPath, Profile.getDbPath, settingsDir. by rewrite Hst2, Hst1. }
    rewrite Hdb.
    assert (Hfiles : files wb = fs2).
    { rewrite Hf2, Hf1. by subst w0. }
    assert (Htrace : trace wb
                     = (trace w ++ EvUnlock :: attempt tox ++ attempt ini)%list).
    { rewrite Htr2, Htr1. subst w0. cbn. by rewrite <- !app_assoc. }
    assert (Hlock : curLockName wb = None) by (by rewrite Hlk2, Hlk1).
    assert (Hprofiles : profiles wb
                        = Profile.removeAll (Profile.name p) (profiles w)).
    { rewrite Hps2, Hps1. by subst w0. }
    assert (Hnotin : Profile.name p
                     ∉ Profile.removeAll (Profile.name p) (profiles w))
      by apply removeAll_not_in.
    assert (Hin1 : ∀ tl, ∃ ok, EvFileRemove tox ok
                               ∈ (attempt tox ++ attempt ini ++ tl)%list).
    { intros tl. eexists. apply list_elem_of_here. }
    assert (Hin2 : ∀ tl, ∃ ok, EvFileRemove ini ok
                               ∈ (attempt tox ++ attempt ini ++ tl)%list).
    { intros tl. eexists. apply elem_of_app. right. apply list_elem_of_here. }
    assert (Hagain : ∀ (q : Profile_t) w1, Profile.isRemoved q = true →
              ∃ w2, Profile.remove q w1 = (q, [], w2)
                    ∧ w2 = emit (Log "Profile is already removed") w1
                    ∧ files w2 = files w1 ∧ curLockName w2 = curLockName w1
                    ∧ profiles w2 = profiles w1).
    { intros q w1 Hq. unfold Profile.remove. rewrite Hq. eauto 10. }
    assert (Hfinish : ∀ (w1 : World) (dbevs : list Event),
              trace w1 = (trace wb ++ dbevs ++ [EvHistoryReset])%list →
              curLockName w1 = curLockName wb → profiles w1 = profiles wb →
              trace w1 = (trace w ++ EvUnlock :: attempt tox ++ attempt ini
                                  ++ dbevs ++ [EvHistoryReset])%list
              ∧ (attempt tox ++ attempt ini ++ dbevs ++ [EvHistoryReset])%list
                = (attempt tox ++ attempt ini ++ dbevs ++ [EvHistoryReset])%list
              ∧ curLockName w1 = None
              ∧ profiles w1 = Profile.removeAll (Profile.name p) (profiles w)
              ∧ (Profile.name p ∉ profiles w1)
              ∧ (∃ ok, EvFileRemove tox ok
                       ∈ (attempt tox ++ attempt ini ++ dbevs
                            ++ [EvHistoryReset])%list)
              ∧ (∃ ok, EvFileRemove ini ok
                       ∈ (attempt tox ++ attempt ini ++ dbevs
                            ++ [EvHistoryReset])%list)).
    { intros w1 dbevs Htr Hl Hp. rewrite Htr, Htrace, Hl, Hp, Hprofiles.
      split; [by rewrite <- app_assoc, <- app_comm_cons, <- app_assoc|].
      repeat split; done || apply Hin1 || apply Hin2. }
    destruct (Profile.database p) as [db|] eqn:Hdbp.
    2:{ eexists _, _, _, _, [], [].
        split; [reflexivity|]. split; [reflexivity|]. split; [done|].
        destruct (Hfinish (emit EvHistoryReset wb) [] eq_refl eq_refl eq_refl)
          as (? & ? & ? & ? & ? & ? & ?).
        do 7 (split; [eassumption|]).
        split; [by rewrite app_nil_r|]. split; [done|].
        split; [by left|]. by apply Hagain. }
    destruct (db_isOpen db) eqn:Hopen.
    2:{ eexists _, _, _, _, [], [].
        split; [reflexivity|]. split; [reflexivity|]. split; [done|].
        destruct (Hfinish (emit EvHistoryReset wb) [] eq_refl eq_refl eq_refl)
          as (? & ? & ? & ? & ? & ? & ?).
        do 7 (split; [eassumption|]).
        split; [by rewrite app_nil_r|]. split; [done|].
        split; [by left|]. by apply Hagain. }
    rewrite Hfiles.
    destruct (db_remove db fs2) as [removed3 fs3] eqn:Hrm3.
    match goal with |- context [negb removed3 && QFile.exists_ dbPath ?ww] =>
      change (QFile.exists_ dbPath ww)
        with (bool_decide (is_Some (fs3 !! dbPath)))
    end.
    destruct (negb removed3 && bool_decide (is_Some (fs3 !! dbPath))) eqn:Hstuck3.
    + eexists _, _, _, _, [dbPath],
        [EvDbRemove removed3; Log "Could not remove file"].
      split; [reflexivity|]. split; [reflexivity|]. split; [done|].
      match goal with |- trace ?w1 = _ ∧ _ =>
        destruct (Hfinish w1 [EvDbRemove removed3; Log "Could not remove file"])
          as (? & ? & ? & ? & ? & ? & ?); [by cbn; rewrite <- !app_assoc|done..|]
      end.
      do 7 (split; [eassumption|]).
      split; [by rewrite <- app_assoc|].
      replace (QFile.exists_ dbPath _)
        with (bool_decide (is_Some (fs3 !! dbPath))) by reflexivity.
      cbn [fst snd]. rewrite Hstuck3.
      split; [done|]. split; [|by apply Hagain].
      right. apply andb_true_iff in Hstuck3 as [Hneg Hex3].
      apply negb_true_iff in Hneg. subst removed3.
      split; [done|]. split; [done|].
      exists db, fs2. by rewrite Hrm3.
    + eexists _, _, _, _, [], [EvDbRemove removed3].
      split; [reflexivity|]. split; [reflexivity|]. split; [done|].
      match goal with |- trace ?w1 = _ ∧ _ =>
        destruct (Hfinish w1 [EvDbRemove removed3])
          as (? & ? & ? & ? & ? & ? & ?); [by cbn; rewrite <- !app_assoc|done..|]
      end.
      do 7 (split; [eassumption|]).
      split; [by rewrite app_nil_r|].
      replace (QFile.exists_ dbPath _)
        with (bool_decide (is_Some (fs3 !! dbPath))) by reflexivity.
      cbn [fst snd]. rewrite Hstuck3.
      split; [done|]. split; [by left|]. by apply Hagain.
Qed.

(** ** Avatars *)

Lemma bind_Done {A B} (m : Outcome A) (k : A → Outcome B) (r : B) :
  m ≫= k = Done r → ∃ a, m = Done a ∧ k a = Done r.
Proof. destruct m as [why|a]; [done|]. cbn. eauto. Qed.

(** *** The avatar operations return

    On a profile with a core, a supported hash size and a key whenever it is
    marked encrypted, no assertion of the avatar code fails. *)

Lemma avatarPath_returns (owner : ToxPk) (force : bool) (p : Profile_t) (w : World) :
  is_Some (Profile.core p) → hashSizeSupported = true →
  ∃ path, Profile.avatarPath owner force p w = Done path.
Proof.
  intros [c Hc] Hsize. unfold hashSizeSupported in Hsize.
  apply andb_true_iff in Hsize as [Hbytes Hkeybytes].
  unfold Profile.avatarPath. destruct (negb _ || _); [eauto|].
  rewrite Hc. cbn. rewrite Hbytes. cbn. rewrite Hkeybytes. cbn. eauto.
Qed.

Lemma loadAvatarData_read_returns (path : QString) (marked : bool)
    (p : Profile_t) (w : World) :
  (marked = true → is_Some (Profile.passkey p)) →
  ∃ pic w', Profile.loadAvatarData_read path marked p w = Done (pic, w').
Proof.
  intros Hkey. unfold Profile.loadAvatarData_read.
  destruct (QFile.openRead path w) as [pic|]; [|eauto].
  destruct (marked && negb (isEmptyB pic)) eqn:Hdec; [|eauto].
  apply andb_true_iff in Hdec as [-> _].
  destruct Hkey as [key ->]; [done|]. cbn.
  destruct (isEmptyB (decrypt key pic)); eauto.
Qed.

Lemma loadAvatarData_returns (owner : ToxPk) (p : Profile_t) (w : World) :
  is_Some (Profile.core p) → hashSizeSupported = true →
  (Profile.encrypted p = true → is_Some (Profile.passkey p)) →
  ∃ pic w', Profile.loadAvatarData owner p w = Done (pic, w').
Proof.
  intros Hcore Hsize Hkey. unfold Profile.loadAvatarData, Profile.loadAvatarData_locate.
  destruct (avatarPath_returns owner false p w Hcore Hsize) as [path ->].
  destruct (avatarPath_returns owner true p w Hcore Hsize) as [plain ->]. cbn.
  destruct (Profile.encrypted p && negb (QFile.exists_ path w)); cbn.
  - by apply loadAvatarData_read_returns.
  - by apply loadAvatarData_read_returns.
Qed.

Lemma saveAvatar_returns (owner : ToxPk) (avatar : QByteArray) (p : Profile_t)
    (w : World) :
  is_Some (Profile.core p) → hashSizeSupported = true →
  (Profile.encrypted p = true → is_Some (Profile.passkey p)) →
  ∃ w', Profile.saveAvatar owner avatar p w = Done w'.
Proof.
  intros Hcore Hsize Hkey. unfold Profile.saveAvatar.
  destruct (avatarPath_returns owner false p w Hcore Hsize) as [path ->].
  destruct (Profile.encrypted p && negb (isEmptyB avatar)) eqn:Hneed.
  - apply andb_true_iff in Hneed as [Henc _].
    destruct (Hkey Henc) as [key ->]. cbn.
    destruct (isEmptyB (encrypt key avatar)); [eauto|].
    destruct (QSaveFile.open path); eauto.
  - cbn. destruct (isEmptyB avatar); [eauto|].
    destruct (QSaveFile.open path); eauto.
Qed.

Lemma resaveFriendAvatars_returns (c : Core) (friendList : list N) (p : Profile_t)
    (w : World) :
  is_Some (Profile.core p) → hashSizeSupported = true →
  (Profile.encrypted p = true → is_Some (Profile.passkey p)) →
  ∃ w', Profile.resaveFriendAvatars c friendList p w = Done w'.
Proof.
  intros Hcore Hsize Hkey. revert w.
  induction friendList as [|i rest IH]; intros w; cbn; [eauto|].
  destruct (loadAvatarData_returns (getFriendPublicKey c i) p w Hcore Hsize Hkey)
    as (avatar & wa & ->). cbn.
  destruct (saveAvatar_returns (getFriendPublicKey c i) avatar p wa Hcore Hsize Hkey)
    as (wb & ->). cbn.
  apply IH.
Qed.

(** C7.  On a profile whose avatar code runs without a failed assertion,
    the cached avatar of the friend is read and hashed into a zeroed buffer
    of [tox_hash_length] bytes, and the offer is handed to the file layer
    with [accept] set exactly when that buffer differs from the offered
    hash; equal hashes are rejected.  The buffer is the hash computed by
    toxcore whenever that has [tox_hash_length] bytes. *)
Theorem avatar_offer_accept_iff (friendId fileId filesize : N)
    (avatarHash : QByteArray) (p : Profile_t) (w : World) (c : Core) :
  Profile.core p = Some c →
  hashSizeSupported = true →
  (Profile.encrypted p = true → is_Some (Profile.passkey p)) →
  ∃ pic w1 accept cached,
    Profile.loadAvatarData (getFriendPublicKey c friendId) p w = Done (pic, w1)
    ∧ cached = tox_hash_into (repeat Byte.x00 tox_hash_length) pic
    ∧ length cached = tox_hash_length
    ∧ (length (tox_hash pic) = tox_hash_length → cached = tox_hash pic)
    ∧ Profile.getAvatarHash (getFriendPublicKey c friendId) p w
      = Done (cached, w1)
    ∧ Profile.onAvatarOfferReceived friendId fileId avatarHash filesize p w
      = Done (emit (EvHandleAvatarOffer friendId fileId accept filesize) w1)
    ∧ (accept = true ↔ cached ≠ avatarHash)
    ∧ (cached = avatarHash → accept = false)
    ∧ (length avatarHash ≠ tox_hash_length → accept = true).
Proof.
  intros Hcore Hsize Hkey.
  destruct (loadAvatarData_returns (getFriendPublicKey c friendId) p w)
    as (pic & w1 & Hload); [by rewrite Hcore|done..|].
  set (cached := tox_hash_into (repeat Byte.x00 tox_hash_length) pic).
  assert (Hlen : length cached = tox_hash_length).
  { unfold cached, tox_hash_into.
    rewrite length_take, length_app, length_drop, !repeat_length. lia. }
  exists pic, w1, (bool_decide (cached ≠ avatarHash)), cached.
  unfold Profile.onAvatarOfferReceived, Profile.getAvatarHash.
  rewrite Hcore. cbn. rewrite Hload. cbn. fold cached.
  repeat split; try done.
  - intros Hfull. unfold cached, tox_hash_into.
    rewrite repeat_length, <- Hfull, drop_ge by (rewrite repeat_length; lia).
    rewrite app_nil_r. apply take_ge. lia.
  - apply bool_decide_eq_true.
  - apply bool_decide_eq_true.
  - intros Heq. apply bool_decide_eq_false_2. intros Hne. by apply Hne.
  - intros Hother. apply bool_decide_eq_true_2. intros Heq.
    apply Hother. by rewrite <- Heq.
Qed.

(** C9.  On an encrypted profile whose hashed avatar file is missing,
    [loadAvatarData] returns the bytes of the plaintext-path file as they
    are (nothing if it cannot be opened).  The content is marked for
    decryption only if the profile is encrypted and the file at the hashed
    path exists; unmarked content is returned as read, marked non-empty
    content is decrypted with the profile key. *)
Theorem loadAvatarData_fallback (owner : ToxPk) (p : Profile_t) (w : World) :
  let plain := settingsDir w +:+ "avatars/" +:+ ToxPk_toString owner +:+ ".png" in
  let raw path := match QFile.openRead path w with Some pic => pic | None => [] end in
  (∀ hashed, Profile.encrypted p = true →
     Profile.avatarPath owner false p w = Done hashed →
     QFile.exists_ hashed w = false →
     Profile.loadAvatarData_locate owner p w = Done (plain, false)
     ∧ Profile.loadAvatarData owner p w = Done (raw plain, w))
  ∧ (∀ path, Profile.loadAvatarData_locate owner p w = Done (path, true) →
     Profile.encrypted p = true
     ∧ Profile.avatarPath owner false p w = Done path
     ∧ QFile.exists_ path w = true)
  ∧ (∀ path, Profile.loadAvatarData_read path false p w = Done (raw path, w))
  ∧ (∀ path key, Profile.passkey p = Some key → raw path ≠ [] →
     ∃ w', Profile.loadAvatarData_read path true p w
           = Done (decrypt key (raw path), w')).
Proof.
  intros plain raw.
  assert (Hplain : Profile.avatarPath owner true p w = Done plain).
  { unfold Profile.avatarPath. by rewrite orb_true_r. }
  split; [|split; [|split]].
  - intros hashed Henc Hhashed Hmissing.
    assert (Hlocate : Profile.loadAvatarData_locate owner p w = Done (plain, false)).
    { unfold Profile.loadAvatarData_locate. rewrite Hhashed, Henc. cbn.
      rewrite Hmissing. cbn. by rewrite Hplain. }
    split; [done|].
    unfold Profile.loadAvatarData. rewrite Hlocate. cbn.
    unfold Profile.loadAvatarData_read, raw.
    by destruct (QFile.openRead plain w).
  - intros path Hlocate. unfold Profile.loadAvatarData_locate in Hlocate.
    apply bind_Done in Hlocate as (path0 & Hpath & Hk).
    destruct (Profile.encrypted p); cbn in Hk; [|by inversion Hk].
    destruct (QFile.exists_ path0 w) eqn:Hex; cbn in Hk.
    + by inversion Hk; subst.
    + apply bind_Done in Hk as (? & _ & Hk). by inversion Hk.
  - intros path. unfold Profile.loadAvatarData_read, raw.
    by destruct (QFile.openRead path w).
  - intros path key Hkey Hraw. unfold Profile.loadAvatarData_read.
    unfold raw in *.
    destruct (QFile.openRead path w) as [[|b pic]|]; [done| |done].
    cbn. rewrite Hkey. cbn.
    destruct (decrypt key (b :: pic)); cbn; eauto.
Qed.

(** ** Renaming *)

Lemma QFile_rename_spec (from to : QString) (w : World) :
  ∃ ok w', QFile.rename from to w = (ok, w')
           ∧ trace w' = (trace w ++ [EvFileRename from to ok])%list
           ∧ curLockName w' = curLockName w
           ∧ settings w' = settings w.
Proof.
  unfold QFile.rename. destruct (files w !! from); [destruct (_ && _)|]; eauto 10.
Qed.

(** What [ProfileLocker::lock] leaves behind: one trace entry; the new
    holder on success, the old state on failure. *)
Lemma lock_spec (name : QString) (w : World) :
  ∃ locked w', ProfileLocker.lock name w = (locked, w')
               ∧ trace w' = (trace w ++ [EvLock name locked])%list
               ∧ files w' = files w
               ∧ settings w' = settings w
               ∧ curLockName w' = (if locked then Some name else curLockName w).
Proof.
  unfold ProfileLocker.lock. destruct (curLockName w) as [held|] eqn:Hheld.
  - case_bool_decide; subst; [eauto 10|].
    destruct (handsOver && _); eauto 10.
  - case_bool_decide; eauto 10.
Qed.

Lemma lock_frame (name : QString) (w : World) :
  ∃ locked w', ProfileLocker.lock name w = (locked, w')
               ∧ files w' = files w ∧ settings w' = settings w
               ∧ foreignLocks w' = foreignLocks w ∧ profiles w' = profiles w
               ∧ curLockName w' = (if locked then Some name else curLockName w)
               ∧ (locked = true ↔
                  curLockName w = Some name
                  ∨ (name ∉ foreignLocks w)
                    ∧ (curLockName w = None ∨ handsOver = true))
               ∧ (locked = false → curLockName w = None → name ∈ foreignLocks w).
Proof.
  unfold ProfileLocker.lock. destruct (curLockName w) as [held|] eqn:Hheld.
  - case_bool_decide as Hsame; [subst held|].
    { eexists _, _. repeat split; eauto; done. }
    destruct handsOver eqn:Hpolicy; cbn [andb].
    + case_bool_decide as Hforeign; cbn [negb];
        eexists _, _; (repeat split; try done).
      * intros [[= ->]|[Hfree _]]; done.
      * intros _. right. split; [done|]. by right.
    + eexists _, _. repeat split; try done.
      intros [[= ->]|[_ [?|?]]]; done.
  - case_bool_decide as Hforeign; eexists _, _; (repeat split; try done).
    + intros [?|[Hfree _]]; done.
    + intros _. right. split; [done|]. by left.
Qed.

(** C8.  [rename] starts by asking for the lock of the new name.  If that
    fails it returns false, nothing else is attempted and profile, files,
    lock and settings are unchanged.  If it succeeds, both file renames
    come after the lock in the trace, [rename] performs no further lock
    or unlock, the new name is the lock holder at the end, and the profile
    carries the new name.  A lock held at the start is held at the end:
    the lock of the old name is given up only inside [lock], once the
    lock of the new name is taken.  The lock is taken exactly when no
    other instance holds it and this process holds no lock, holds the one
    of the new name already, or the locker hands over. *)
Theorem rename_locks_first (newName : QString) (p : Profile_t) (w : World) :
  let old := settingsDir w +:+ Profile.name p in
  let new := settingsDir w +:+ newName in
  ∃ locked p' w' evs,
    Profile.rename newName p w = (locked, p', w')
    ∧ trace w' = (trace w ++ EvLock newName locked :: evs)%list
    ∧ (∀ e, e ∈ evs → e ≠ EvUnlock ∧ ∀ n ok, e ≠ EvLock n ok)
    ∧ (locked = false →
       evs = [] ∧ p' = p ∧ files w' = files w
       ∧ curLockName w' = curLockName w ∧ settings w' = settings w)
    ∧ (locked = true →
       curLockName w' = Some newName
       ∧ Profile.name p' = newName
       ∧ (∃ ok, EvFileRename (old +:+ ".tox") (new +:+ ".tox") ok ∈ evs)
       ∧ (∃ ok, EvFileRename (old +:+ ".ini") (new +:+ ".ini") ok ∈ evs))
    ∧ (ProfileLocker.hasLock w = true → ProfileLocker.hasLock w' = true)
    ∧ (locked = true ↔
       curLockName w = Some newName
       ∨ (newName ∉ foreignLocks w)
         ∧ (curLockName w = None ∨ handsOver = true)).
Proof.
  intros old new. unfold Profile.rename. fold old new.
  destruct (lock_frame newName w)
    as (locked' & wl' & Hlf & _ & _ & _ & _ & _ & Hiff & _).
  destruct (lock_spec newName w) as (locked & wl & Hls & Htl & Hfl & Hsl & Hcl).
  rewrite Hls in Hlf. injection Hlf as <- <-. rewrite Hls. clear Hls.
  destruct locked; cbn [negb].
  2:{ eexists false, p, wl, []. split; [done|]. split; [done|].
      split; [intros e He; by apply elem_of_nil in He|].
      repeat split; try done.
      - unfold ProfileLocker.hasLock. by rewrite Hcl.
      - apply Hiff. }
  destruct (QFile_rename_spec (old +:+ ".tox") (new +:+ ".tox") wl)
    as (ok1 & w1 & -> & Ht1 & Hc1 & Hs1).
  cbn [snd].
  destruct (QFile_rename_spec (old +:+ ".ini") (new +:+ ".ini") w1)
    as (ok2 & w2 & -> & Ht2 & Hc2 & Hs2).
  cbn [snd].
  assert (Hquiet : ∀ (evs : list Event),
    Forall (λ e, e ≠ EvUnlock ∧ ∀ n ok, e ≠ EvLock n ok) evs →
    ∀ e, e ∈ evs → e ≠ EvUnlock ∧ ∀ n ok, e ≠ EvLock n ok).
  { intros evs HF e He. by eapply Forall_forall in HF. }
  assert (Hin1 : ∀ tl, EvFileRename (old +:+ ".tox") (new +:+ ".tox") ok1
                       ∈ EvFileRename (old +:+ ".tox") (new +:+ ".tox") ok1
                         :: EvFileRename (old +:+ ".ini") (new +:+ ".ini") ok2 :: tl)
    by (intros; apply list_elem_of_here).
  assert (Hin2 : ∀ tl, EvFileRename (old +:+ ".ini") (new +:+ ".ini") ok2
                       ∈ EvFileRename (old +:+ ".tox") (new +:+ ".tox") ok1
                         :: EvFileRename (old +:+ ".ini") (new +:+ ".ini") ok2 :: tl)
    by (intros; apply list_elem_of_further, list_elem_of_here).
  assert (Hyes : curLockName w = Some newName
                 ∨ (newName ∉ foreignLocks w)
                   ∧ (curLockName w = None ∨ handsOver = true))
    by (by apply Hiff).
  clear Hiff.
  destruct (Profile.database p) as [db|];
    [destruct (db_rename newName db (files w2)) as [db' fs']|];
    cbn [settings emit set_files set_settings];
    destruct (getAutorun (settings w2));
    (eexists true, _, _, _; split; [reflexivity|];
     unfold ProfileLocker.hasLock; cbn;
     rewrite ?Ht2, ?Ht1, ?Htl, ?Hc2, ?Hc1, ?Hcl, <- ?app_assoc; cbn;
     split; [reflexivity|];
     split; [apply Hquiet; repeat constructor; done|];
     repeat split; eauto; done).
Qed.

(** ** Changing the password *)

Lemma saveToxSave_returns (data : QByteArray) (p : Profile_t) (w : World) :
  Profile.isRemoved p = false →
  curLockName w = Some (Profile.name p) →
  (Profile.encrypted p = true → is_Some (Profile.passkey p)) →
  ∃ b w', Profile.saveToxSave data p w = Done (b, w').
Proof.
  intros Hlive Hlock Hkey.
  unfold Profile.saveToxSave, ProfileLocker.assertLock, ProfileLocker.hasLock,
    ProfileLocker.getCurLockName.
  rewrite Hlive, Hlock. rewrite bool_decide_eq_true_2 by done. cbn.
  destruct (QSaveFile.open _) as [saveFile|]; [|eauto].
  destruct (Profile.encrypted p) eqn:Henc.
  - destruct (Hkey eq_refl) as [key ->]. cbn.
    destruct (isEmptyB (encrypt key data)); [eauto|].
    destruct (QSaveFile.flush _); eauto.
  - cbn. destruct (QSaveFile.flush _); eauto.
Qed.

Lemma onSaveToxSave_returns (p : Profile_t) (w : World) (c : Core) :
  Profile.isRemoved p = false →
  curLockName w = Some (Profile.name p) →
  Profile.core p = Some c →
  getToxSaveData c ≠ [] →
  (Profile.encrypted p = true → is_Some (Profile.passkey p)) →
  ∃ w', Profile.onSaveToxSave p w = Done w'.
Proof.
  intros Hlive Hlock Hcore Hdata Hkey. unfold Profile.onSaveToxSave.
  rewrite Hcore. cbn.
  destruct (getToxSaveData c) as [|b data] eqn:Hsave; [done|]. cbn.
  destruct (saveToxSave_returns (b :: data) p w Hlive Hlock Hkey) as (ok & w' & ->).
  cbn. eauto.
Qed.

(** The error string of [setPassword], whenever it returns. *)
Lemma setPassword_error_cases (newPassword : QString) (p : Profile_t) (w : World)
    (err : QString) (p' : Profile_t) (w' : World) :
  Profile.setPassword newPassword p w = Done (err, p', w') →
  (Profile.database p = None →
     err ≠ ""
     ∧ (isEmptyS newPassword = true ∨ is_Some (makeToxEncrypt newPassword) →
        err = Profile.dbPasswordFailed
        ∧ Profile.encrypted p' = negb (isEmptyS newPassword)
        ∧ (isEmptyS newPassword = false →
           Profile.passkey p' = makeToxEncrypt newPassword)
        ∧ ∃ w1, Profile.onSaveToxSave p' w = Done w1))
  ∧ (err = "" →
     ∃ db fs, Profile.database p = Some db
              ∧ (db_setPassword newPassword db fs).1.1 = true).
Proof.
  intros Hrun. unfold Profile.setPassword in Hrun.
  destruct (isEmptyS newPassword) eqn:Hempty.
  - apply bind_Done in Hrun as (w1 & Hsave & Hrun).
    cbn [Profile.set_encrypted Profile.database] in Hrun.
    destruct (Profile.database p) as [db|] eqn:Hdb.
    + split; [done|]. intros ->.
      destruct (db_setPassword newPassword db (files w1)) as [[ok db'] fs'] eqn:Hrekey.
      destruct ok.
      * exists db, (files w1). by rewrite Hrekey.
      * cbn in Hrun. apply bind_Done in Hrun as (c & _ & Hrun).
        apply bind_Done in Hrun as ([avatar wa] & _ & Hrun).
        apply bind_Done in Hrun as (wb & _ & Hrun).
        apply bind_Done in Hrun as (wc & _ & Hrun). by inversion Hrun.
    + cbn in Hrun. apply bind_Done in Hrun as (c & _ & Hrun).
      apply bind_Done in Hrun as ([avatar wa] & _ & Hrun).
      apply bind_Done in Hrun as (wb & _ & Hrun).
      apply bind_Done in Hrun as (wc & _ & Hrun).
      inversion Hrun; subst. split; [|done]. intros _. split; [done|].
      intros _. repeat split; eauto. done.
  - destruct (makeToxEncrypt newPassword) as [newpasskey|] eqn:Hkey.
    2:{ inversion Hrun; subst. split; [|done]. intros _. split; [done|].
        intros [|[? ?]]; done. }
    apply bind_Done in Hrun as (w1 & Hsave & Hrun).
    cbn [Profile.set_encrypted Profile.set_passkey Profile.database] in Hrun.
    destruct (Profile.database p) as [db|] eqn:Hdb.
    + split; [done|]. intros ->.
      destruct (db_setPassword newPassword db (files w1)) as [[ok db'] fs'] eqn:Hrekey.
      destruct ok.
      * exists db, (files w1). by rewrite Hrekey.
      * cbn in Hrun. apply bind_Done in Hrun as (c & _ & Hrun).
        apply bind_Done in Hrun as ([avatar wa] & _ & Hrun).
        apply bind_Done in Hrun as (wb & _ & Hrun).
        apply bind_Done in Hrun as (wc & _ & Hrun). by inversion Hrun.
    + cbn in Hrun. apply bind_Done in Hrun as (c & _ & Hrun).
      apply bind_Done in Hrun as ([avatar wa] & _ & Hrun).
      apply bind_Done in Hrun as (wb & _ & Hrun).
      apply bind_Done in Hrun as (wc & _ & Hrun).
      inversion Hrun; subst. split; [|done]. intros _. split; [done|].
      intros _. repeat split; eauto.
Qed.

(** On a live profile that holds its lock and has a core with a non-empty
    save, [setPassword] returns. *)
Lemma setPassword_returns (newPassword : QString) (p : Profile_t) (w : World)
    (c : Core) :
  Profile.isRemoved p = false →
  curLockName w = Some (Profile.name p) →
  Profile.core p = Some c →
  getToxSaveData c ≠ [] →
  hashSizeSupported = true →
  ∃ err p' w', Profile.setPassword newPassword p w = Done (err, p', w').
Proof.
  intros Hlive Hlock Hcore Hdata Hsize.
  assert (Hrest : ∀ p1 : Profile_t,
    Profile.isRemoved p1 = false → Profile.name p1 = Profile.name p →
    Profile.core p1 = Some c →
    (Profile.encrypted p1 = true → is_Some (Profile.passkey p1)) →
    ∃ r,
      (w ← Profile.onSaveToxSave p1 w;
       let '(dbSuccess, p, w) :=
         match Profile.database p1 with
         | Some db =>
             let '(ok, db, fs) := db_setPassword newPassword db (files w) in
             (ok, Profile.set_database (Some db) p1,
              emit (EvDbSetPassword newPassword ok) (set_files fs w))
         | None => (false, p1, w)
         end in
       let error := if negb dbSuccess then Profile.dbPasswordFailed else "" in
       c ← deref (Profile.core p) "core->getSelfPublicKey";
       '(avatar, w) ← Profile.loadAvatarData (getSelfPublicKey c) p w;
       w ← Profile.saveAvatar (getSelfPublicKey c) avatar p w;
       let friendList := getFriendList c in
       w ← Profile.resaveFriendAvatars c friendList p w;
       Done (error, p, w)) = Done r).
  { intros p1 Hlive1 Hname1 Hcore1 Hkey1.
    destruct (onSaveToxSave_returns p1 w c) as (w1 & ->); try done.
    { by rewrite Hname1. }
    cbn.
    assert (Hafter : ∀ (q : Profile_t) (wq : World) (error : QString),
      Profile.core q = Some c →
      (Profile.encrypted q = true → is_Some (Profile.passkey q)) →
      ∃ r,
        (c ← deref (Profile.core q) "core->getSelfPublicKey";
         '(avatar, w) ← Profile.loadAvatarData (getSelfPublicKey c) q wq;
         w ← Profile.saveAvatar (getSelfPublicKey c) avatar q w;
         let friendList := getFriendList c in
         w ← Profile.resaveFriendAvatars c friendList q w;
         Done (error, q, w)) = Done r).
    { intros q wq error Hcq Hkq. rewrite Hcq. cbn.
      destruct (loadAvatarData_returns (getSelfPublicKey c) q wq)
        as (avatar & wa & ->); [by rewrite Hcq|done..|]. cbn.
      destruct (saveAvatar_returns (getSelfPublicKey c) avatar q wa)
        as (wb & ->); [by rewrite Hcq|done..|]. cbn.
      destruct (resaveFriendAvatars_returns c (getFriendList c) q wb)
        as (wc & ->); [by rewrite Hcq|done..|]. cbn. eauto. }
    destruct (Profile.database p1) as [db|].
    - destruct (db_setPassword newPassword db (files w1)) as [[ok db'] fs'].
      by apply Hafter.
    - by apply Hafter. }
  unfold Profile.setPassword.
  destruct (isEmptyS newPassword).
  - destruct (Hrest (Profile.set_encrypted false p)) as [[[err p'] w'] Hrun];
      try done. eauto.
  - destruct (makeToxEncrypt newPassword) as [key|]; [|eauto].
    destruct (Hrest (Profile.set_encrypted true (Profile.set_passkey (Some key) p)))
      as [[[err p'] w'] Hrun]; try done; cbn; eauto.
Qed.

(** C10.  On a live profile that holds its lock and has a core,
    [setPassword] returns.  Without a database handle the error it returns
    is never empty; if the new password is empty or its key was derived,
    the error is the database-password message, even though the key was
    replaced and the save file and the avatars were written again.  An
    empty error is returned only if a database handle exists and its re-key
    succeeded. *)
Theorem setPassword_db_absent (newPassword : QString) (p : Profile_t) (w : World)
    (c : Core) :
  Profile.isRemoved p = false →
  curLockName w = Some (Profile.name p) →
  Profile.core p = Some c →
  getToxSaveData c ≠ [] →
  hashSizeSupported = true →
  ∃ err p' w',
    Profile.setPassword newPassword p w = Done (err, p', w')
    ∧ (Profile.database p = None →
       err ≠ ""
       ∧ (isEmptyS newPassword = true ∨ is_Some (makeToxEncrypt newPassword) →
          err = Profile.dbPasswordFailed
          ∧ Profile.encrypted p' = negb (isEmptyS newPassword)
          ∧ (isEmptyS newPassword = false →
             Profile.passkey p' = makeToxEncrypt newPassword)
          ∧ ∃ w1, Profile.onSaveToxSave p' w = Done w1))
    ∧ (err = "" →
       ∃ db fs, Profile.database p = Some db
                ∧ (db_setPassword newPassword db fs).1.1 = true).
Proof.
  intros Hlive Hlock Hcore Hdata Hsize.
  destruct (setPassword_returns newPassword p w c) as (err & p' & w' & Hrun);
    try done.
  exists err, p', w'. split; [done|].
  by apply (setPassword_error_cases newPassword p w err p' w').
Qed.

(** The constructor ties the flag to the key. *)
Lemma Profile_ctor_invariant (name : QString) (key : option ToxEncrypt) :
  Profile.encrypted (Profile.Profile name key : Profile_t) = true ↔ is_Some key.
Proof.
  destruct key; cbn; split; try done; eauto.
Qed.

(** A non-empty password that yields a key sets both the flag and the
    key. *)
Lemma setPassword_nonempty_sets_both (newPassword : QString) (p : Profile_t)
    (w : World) (key : ToxEncrypt) (err : QString) (p' : Profile_t) (w' : World) :
  isEmptyS newPassword = false →
  makeToxEncrypt newPassword = Some key →
  Profile.setPassword newPassword p w = Done (err, p', w') →
  Profile.encrypted p' = true ∧ Profile.passkey p' = Some key.
Proof.
  intros Hne Hkey Hrun. unfold Profile.setPassword in Hrun.
  rewrite Hne, Hkey in Hrun.
  apply bind_Done in Hrun as (w1 & _ & Hrun).
  cbn [Profile.set_encrypted Profile.set_passkey Profile.database] in Hrun.
  destruct (Profile.database p) as [db|];
    [destruct (db_setPassword _ _ _) as [[ok db'] fs']|];
    cbn in Hrun;
    apply bind_Done in Hrun as (c & _ & Hrun);
    apply bind_Done in Hrun as ([avatar wa] & _ & Hrun);
    apply bind_Done in Hrun as (wb & _ & Hrun);
    apply bind_Done in Hrun as (wc & _ & Hrun);
    by inversion Hrun.
Qed.

(** An empty password clears the flag and leaves the key where it was. *)
Lemma setPassword_empty_keeps_key (p : Profile_t) (w : World)
    (err : QString) (p' : Profile_t) (w' : World) :
  Profile.setPassword "" p w = Done (err, p', w') →
  Profile.encrypted p' = false ∧ Profile.passkey p' = Profile.passkey p.
Proof.
  intros Hrun. unfold Profile.setPassword in Hrun. cbn [isEmptyS] in Hrun.
  apply bind_Done in Hrun as (w1 & _ & Hrun).
  cbn [Profile.set_encrypted Profile.database] in Hrun.
  destruct (Profile.database p) as [db|];
    [destruct (db_setPassword _ _ _) as [[ok db'] fs']|];
    cbn in Hrun;
    apply bind_Done in Hrun as (c & _ & Hrun);
    apply bind_Done in Hrun as ([avatar wa] & _ & Hrun);
    apply bind_Done in Hrun as (wb & _ & Hrun);
    apply bind_Done in Hrun as (wc & _ & Hrun);
    by inversion Hrun.
Qed.

(** ** Starting the core and opening the database *)

(** When the save respects the contract (empty exactly for a new profile)
    and the core does not start, [initCore] emits the signal of the error
    and returns with the profile as it was. *)
Lemma initCore_failure_signal (toxSave : QByteArray) (isNewProfile : bool)
    (p : Profile_t) (w : World) (err : ToxCoreErrors.t) :
  isEmptyB toxSave = isNewProfile →
  makeToxCore toxSave (settings w) = inr err →
  Profile.initCore toxSave isNewProfile p w = Done (p, emit (classify err) w).
Proof.
  intros Hc Herr. unfold Profile.initCore. rewrite Hc.
  destruct isNewProfile; cbn [negb andb]; rewrite Herr; by destruct err.
Qed.

(** Without a core, [loadDatabase] stops at its first assertion. *)
Lemma loadDatabase_without_core (password : QString) (p : Profile_t) (w : World) :
  Profile.core p = None →
  Profile.loadDatabase password p w = Fatal "assert(core)".
Proof. intros Hc. unfold Profile.loadDatabase. by rewrite Hc. Qed.

(** A load that gets as far as starting the core, with a core that does not
    start, ends in the assertion of [loadDatabase]. *)
Lemma loadProfile_after_core_failure (name password : QString) (w : World)
    (key : option ToxEncrypt) (toxSave : QByteArray) (err : ToxCoreErrors.t) :
  ProfileLocker.hasLock w = false →
  name ∉ foreignLocks w →
  Profile.loadToxData password (settingsDir w +:+ name +:+ ".tox") [] w
  = (key, toxSave, LoadToxDataError.OK) →
  makeToxCore toxSave (updateProfileData name false (files w) (settings w)) = inr err →
  Profile.loadProfile name password w = Fatal "assert(core)".
Proof.
  intros Hfree Hforeign Hload Herr.
  pose proof (loadToxData_OK_nonempty _ _ _ _ _ _ eq_refl Hload) as Hne.
  unfold Profile.loadProfile. rewrite Hfree.
  unfold ProfileLocker.hasLock in Hfree. unfold ProfileLocker.lock.
  destruct (curLockName w) eqn:Hcur; [done|].
  rewrite bool_decide_eq_false_2 by done. cbn [negb].
  set (w1 := emit _ (set_curLockName _ w)).
  change (settingsDir w1) with (settingsDir w).
  rewrite (loadToxData_files _ _ _ w1 w), Hload by done. cbn.
  rewrite (initCore_failure_signal _ _ _ _ err); [|by destruct toxSave|done].
  done.
Qed.

(** So does a create whose core does not start. *)
Lemma createProfile_after_core_failure (name password : QString) (w w1 : World)
    (key : option ToxEncrypt) (err : ToxCoreErrors.t) :
  Profile.createToxData name password (settingsDir w +:+ name +:+ ".tox") w
  = (key, CreateToxDataError.OK, w1) →
  makeToxCore []
    (updateProfileData name true
       (createPersonal (getPaths (settings w1)) name (files w1)) (settings w1))
  = inr err →
  Profile.createProfile name password w = Fatal "assert(core)".
Proof.
  intros Hcreate Herr. unfold Profile.createProfile. rewrite Hcreate. cbn.
  rewrite (initCore_failure_signal _ _ _ _ err); [|done..].
  done.
Qed.

(** With a core, [loadDatabase] always returns; on a live profile the
    database is constructed whatever the length of the salt. *)
Lemma loadDatabase_opens (password : QString) (p : Profile_t) (w : World) (c : Core) :
  Profile.core p = Some c →
  Profile.isRemoved p = false →
  let salt := getByteArray (getSelfPublicKey c) in
  ∃ p' w' w1,
    Profile.loadDatabase password p w = Done (p', w')
    ∧ files w1 = files w
    ∧ Profile.database p'
      = Some (RawDatabase_new (Profile.getDbPath (Profile.name p) w)
                password salt (files w1)).1
    ∧ EvDbOpen (Profile.getDbPath (Profile.name p) w) password salt ∈ trace w'
    ∧ Profile.history p'
      = (db_isOpen (RawDatabase_new (Profile.getDbPath (Profile.name p) w)
                      password salt (files w1)).1
         || Profile.history p).
Proof.
  intros Hc Hlive salt. unfold Profile.loadDatabase. rewrite Hc, Hlive. cbn.
  fold salt.
  set (w1 := if negb _ then _ else w).
  assert (Hfs : files w1 = files w) by (subst w1; by destruct (negb _)).
  change (Profile.getDbPath (Profile.name p) w1)
    with (settingsDir w1 +:+ Profile.name p +:+ ".db").
  replace (settingsDir w1) with (settingsDir w)
    by (subst w1; by destruct (negb _)).
  fold (Profile.getDbPath (Profile.name p) w).
  destruct (RawDatabase_new _ password salt (files w1)) as [db fs] eqn:Hnew.
  destruct (db_isOpen db) eqn:Hopen.
  - eexists _, _, w1. split; [reflexivity|]. rewrite Hnew. cbn.
    rewrite Hopen. repeat split; try done.
    apply elem_of_app. right. apply list_elem_of_here.
  - eexists _, _, w1. split; [reflexivity|]. rewrite Hnew. cbn.
    rewrite Hopen. repeat split; try done.
    rewrite <- !app_assoc. apply elem_of_app. right. apply list_elem_of_here.
Qed.


(** * Further properties of the Profile code *)

Context `{!ToxSaveAPI} `{!CoreRunAPI Core} `{!DirEnv}.

(** ** Strings and frames *)


Lemma str_length_app (a b : QString) :
  String.length (a +:+ b) = String.length a + String.length b.
Proof.
  induction a as [|x a IH]; [done|].
  change (S (String.length (a +:+ b)) = S (String.length a + String.length b)).
  by rewrite IH.
Qed.

(** Two paths with different extensions of the same length differ. *)
Lemma str_suffix_eq (a b e1 e2 : QString) :
  String.length e1 = String.length e2 → a +:+ e1 = b +:+ e2 → e1 = e2.
Proof.
  revert b. induction a as [|x a IH]; intros [|y b] Hlen Heq.
  - done.
  - apply (f_equal String.length) in Heq.
    change (String.length e1 = S (String.length (b +:+ e2))) in Heq.
    rewrite str_length_app in Heq. lia.
  - apply (f_equal String.length) in Heq.
    change (S (String.length (a +:+ e1)) = String.length e2) in Heq.
    rewrite str_length_app in Heq. lia.
  - change (String x (a +:+ e1) = String y (b +:+ e2)) in Heq.
    injection Heq as _ Heq. by apply (IH b).
Qed.


Lemma quiet_refl (w : World) : quiet_step w w.
Proof. done. Qed.

Lemma quiet_emit (e : Event) (w : World) : quiet_step w (emit e w).
Proof. done. Qed.

Lemma quiet_trans (w1 w2 w3 : World) :
  quiet_step w1 w2 → quiet_step w2 w3 → quiet_step w1 w3.
Proof.
  intros (? & ? & ? & ? & ?) (? & ? & ? & ? & ?).
  repeat split; congruence.
Qed.




(** The avatar path reads the profile and the settings directory only. *)
Lemma avatarPath_settings (owner : ToxPk) (force : bool) (p : Profile_t)
    (w w' : World) :
  settings w' = settings w →
  Profile.avatarPath owner force p w' = Profile.avatarPath owner force p w.
Proof. intros Hs. unfold Profile.avatarPath, settingsDir. by rewrite Hs. Qed.





(** ** Reading the save file *)

(** What a successful [loadToxData] read. *)
Lemma loadToxData_OK_inv (password path : QString) (data : QByteArray) (w : World)
    (key : option ToxEncrypt) (out : QByteArray) :
  Profile.loadToxData password path data w = (key, out, LoadToxDataError.OK) →
  ∃ blob : QByteArray,
    files w !! path = Some blob ∧ canOpenRead path = true ∧ blob ≠ [] ∧ out ≠ []
    ∧ match key with
      | Some k => isEncryptedData blob = true ∧ isEmptyS password = false
                  ∧ makeToxEncryptFor password blob = Some k
                  ∧ out = decrypt k blob
      | None => isEncryptedData blob = false ∧ out = blob
      end.
Proof.
  unfold Profile.loadToxData, QFile.openRead. intros Hload.
  destruct (negb _); [done|].
  destruct (canOpenRead path); [|done].
  destruct (files w !! path) as [blob|]; [|done].
  exists blob. split; [done|]. split; [done|].
  destruct blob as [|b blob]; [done|]. cbn in Hload.
  destruct (isEncryptedData (b :: blob)).
  - destruct (isEmptyS password); [done|].
    destruct (makeToxEncryptFor password (b :: blob)) as [k|]; [|done].
    destruct (decrypt k (b :: blob)) as [|d plain] eqn:Hdec; cbn in Hload; [done|].
    injection Hload as <- <-. by rewrite Hdec.
  - by injection Hload as <- <-.
Qed.

(** X1.  A successful [loadToxData] hands back a non-empty save read from an
    existing, readable, non-empty file: the file content itself and no key
    if the content is not encrypted; otherwise the key derived from the
    non-empty password against the content, and the content decrypted with
    it.  Whenever the result is an error, no key is returned. *)
Theorem loadToxData_outcome (password path : QString) (data : QByteArray)
    (w : World) (key : option ToxEncrypt) (out : QByteArray)
    (err : LoadToxDataError.t) :
  Profile.loadToxData password path data w = (key, out, err) →
  (err = LoadToxDataError.OK →
     ∃ blob : QByteArray,
       files w !! path = Some blob ∧ canOpenRead path = true ∧ blob ≠ [] ∧ out ≠ []
       ∧ match key with
         | Some k => isEncryptedData blob = true ∧ isEmptyS password = false
                     ∧ makeToxEncryptFor password blob = Some k
                     ∧ out = decrypt k blob
         | None => isEncryptedData blob = false ∧ out = blob
         end)
  ∧ (err ≠ LoadToxDataError.OK → key = None).
Proof.
  intros Hload. split.
  - intros ->. by eapply loadToxData_OK_inv.
  - intros Hne. unfold Profile.loadToxData in Hload.
    destruct (negb _); [by injection Hload as <- _ _|].
    destruct (QFile.openRead path w) as [blob|]; [|by injection Hload as <- _ _].
    destruct (length blob =? 0)%nat; [by injection Hload as <- _ _|].
    destruct (isEncryptedData blob).
    + destruct (isEmptyS password); [by injection Hload as <- _ _|].
      destruct (makeToxEncryptFor password blob) as [k|];
        [|by injection Hload as <- _ _].
      destruct (isEmptyB (decrypt k blob)); [by injection Hload as <- _ _|].
      by injection Hload as _ _ <-.
    + by injection Hload as _ _ <-.
Qed.

(** X2.  [loadToxData] never reports DECRYPT_UNENCRYPTED_FILE: a readable,
    non-empty save that is not encrypted loads with OK and without a key,
    whatever password is given. *)
Theorem loadToxData_password_on_plain_save (password path : QString)
    (data : QByteArray) (w : World) :
  (Profile.loadToxData password path data w).2 ≠ LoadToxDataError.DECRYPT_UNENCRYPTED_FILE
  ∧ ∀ blob : QByteArray,
      files w !! path = Some blob → canOpenRead path = true → blob ≠ [] →
      isEncryptedData blob = false →
      Profile.loadToxData password path data w = (None, blob, LoadToxDataError.OK).
Proof.
  split.
  - unfold Profile.loadToxData.
    destruct (negb _); [done|].
    destruct (QFile.openRead path w) as [blob|]; [|done].
    destruct (length blob =? 0)%nat; [done|].
    destruct (isEncryptedData blob); [|done].
    destruct (isEmptyS password); [done|].
    destruct (makeToxEncryptFor password blob) as [k|]; [|done].
    by destruct (isEmptyB (decrypt k blob)).
  - intros blob Hblob Hread Hne Hplain.
    unfold Profile.loadToxData, QFile.exists_, QFile.openRead.
    rewrite Hread, Hblob. rewrite bool_decide_eq_true_2 by eauto. cbn [negb].
    destruct blob; [done|]. cbn [length Nat.eqb]. by rewrite Hplain.
Qed.

(** X3.  The file errors of [loadToxData] come before any look at the
    password, and leave the caller's buffer as it was: a missing file is
    FILE_NOT_FOUND, an existing file that cannot be opened is
    COULD_NOT_READ_FILE, an empty file is FILE_IS_EMPTY. *)
Theorem loadToxData_file_errors (password path : QString) (data : QByteArray)
    (w : World) :
  (files w !! path = None →
     Profile.loadToxData password path data w
     = (None, data, LoadToxDataError.FILE_NOT_FOUND))
  ∧ (is_Some (files w !! path) → canOpenRead path = false →
     Profile.loadToxData password path data w
     = (None, data, LoadToxDataError.COULD_NOT_READ_FILE))
  ∧ (files w !! path = Some [] → canOpenRead path = true →
     Profile.loadToxData password path data w
     = (None, data, LoadToxDataError.FILE_IS_EMPTY)).
Proof.
  unfold Profile.loadToxData, QFile.exists_, QFile.openRead.
  split; [|split].
  - intros ->. rewrite bool_decide_eq_false_2; [done|]. by intros [? ?].
  - intros Hsome ->. by rewrite bool_decide_eq_true_2.
  - intros Hblob ->. rewrite Hblob. by rewrite bool_decide_eq_true_2.
Qed.

(** ** Frames of the start-up steps *)

Lemma saveToxSave_frame (data : QByteArray) (p : Profile_t) (w w' : World) (b : bool) :
  Profile.saveToxSave data p w = Done (b, w') →
  Profile.isRemoved p = false
  ∧ curLockName w = Some (Profile.name p)
  ∧ curLockName w' = curLockName w ∧ foreignLocks w' = foreignLocks w
  ∧ profiles w' = profiles w ∧ settings w' = settings w
  ∧ ∀ path, path ≠ settingsDir w +:+ Profile.name p +:+ ".tox" →
            files w' !! path = files w !! path.
Proof.
  unfold Profile.saveToxSave, ProfileLocker.assertLock, ProfileLocker.hasLock,
    ProfileLocker.getCurLockName.
  intros Hrun.
  apply bind_Done in Hrun as ([] & Hlive & Hrun).
  apply bind_Done in Hrun as ([] & Hheld & Hrun).
  apply bind_Done in Hrun as ([] & Hname & Hrun).
  split; [by destruct (Profile.isRemoved p)|].
  split.
  { destruct (curLockName w) as [held|]; [|done].
    unfold assertO in Hname. case_bool_decide; [by subst held|done]. }
  clear Hlive Hheld Hname.
  destruct (QSaveFile.open _) as [saveFile|] eqn:Hopen;
    [|injection Hrun as _ <-; repeat split; done].
  unfold QSaveFile.open in Hopen. destruct (canOpenWrite _); [|done].
  injection Hopen as <-.
  apply bind_Done in Hrun as (written & _ & Hrun).
  destruct (Profile.encrypted p && isEmptyB written);
    [injection Hrun as _ <-; repeat split; done|].
  destruct (QSaveFile.flush _); [|injection Hrun as _ <-; repeat split; done].
  injection Hrun as _ <-. unfold QSaveFile.commit. cbn.
  destruct (commitOk _); cbn; repeat split; try done.
  intros path Hpath. by rewrite lookup_insert_ne.
Qed.

Lemma onSaveToxSave_frame (p : Profile_t) (w w' : World) :
  Profile.onSaveToxSave p w = Done w' →
  Profile.isRemoved p = false
  ∧ curLockName w = Some (Profile.name p)
  ∧ curLockName w' = curLockName w ∧ foreignLocks w' = foreignLocks w
  ∧ profiles w' = profiles w ∧ settings w' = settings w
  ∧ ∀ path, path ≠ settingsDir w +:+ Profile.name p +:+ ".tox" →
            files w' !! path = files w !! path.
Proof.
  unfold Profile.onSaveToxSave. intros Hrun.
  apply bind_Done in Hrun as (c & _ & Hrun).
  apply bind_Done in Hrun as ([] & _ & Hrun).
  apply bind_Done in Hrun as ([b w1] & Hsave & Hrun).
  injection Hrun as <-. by eapply saveToxSave_frame.
Qed.

(** [initCore] leaves name, key, flags and database handle of the profile
    alone; so it does with the lock and the settings. *)
Lemma initCore_frame (toxSave : QByteArray) (isNewProfile : bool)
    (p p' : Profile_t) (w w' : World) :
  Profile.initCore toxSave isNewProfile p w = Done (p', w') →
  Profile.name p' = Profile.name p
  ∧ Profile.passkey p' = Profile.passkey p
  ∧ Profile.encrypted p' = Profile.encrypted p
  ∧ Profile.isRemoved p' = Profile.isRemoved p
  ∧ Profile.database p' = Profile.database p
  ∧ Profile.history p' = Profile.history p
  ∧ curLockName w' = curLockName w
  ∧ settings w' = settings w
  ∧ (isNewProfile = false → quiet_step w w').
Proof.
  unfold Profile.initCore. intros Hrun.
  set (wa := if isEmptyB toxSave && negb isNewProfile then _ else w) in Hrun.
  set (wb := if negb (isEmptyB toxSave) && isNewProfile then _ else wa) in Hrun.
  assert (Hq : quiet_step w wb).
  { subst wa wb. destruct (_ && _), (_ && _); done. }
  destruct Hq as (Hf & Hl & Hfo & Hp & Hs).
  destruct (makeToxCore toxSave (settings wb)) as [c|err].
  2:{ injection Hrun as <- <-. repeat split; done. }
  destruct (makeCoreAV c (settings wb)) as [av|].
  2:{ injection Hrun as <- <-. repeat split; done. }
  apply bind_Done in Hrun as ([p1 w1] & Hnew & Hrun).
  injection Hrun as <- <-.
  destruct isNewProfile.
  - apply bind_Done in Hnew as (w2 & Hsave & Hnew). injection Hnew as <- <-.
    apply onSaveToxSave_frame in Hsave as (_ & _ & Hl2 & _ & _ & Hs2 & _).
    cbn in *. repeat split; try done; congruence.
  - injection Hnew as <- <-. repeat split; done.
Qed.

(** A [loadDatabase] that returns had a core to read the salt from; it
    leaves name, key, flags and core of the profile alone, and sets the
    database handle unless the profile is removed. *)
Lemma loadDatabase_frame (password : QString) (p p' : Profile_t) (w w' : World) :
  Profile.loadDatabase password p w = Done (p', w') →
  is_Some (Profile.core p)
  ∧ Profile.name p' = Profile.name p
  ∧ Profile.passkey p' = Profile.passkey p
  ∧ Profile.encrypted p' = Profile.encrypted p
  ∧ Profile.isRemoved p' = Profile.isRemoved p
  ∧ Profile.core p' = Profile.core p
  ∧ Profile.coreAv p' = Profile.coreAv p
  ∧ curLockName w' = curLockName w
  ∧ settings w' = settings w
  ∧ (Profile.isRemoved p = false → is_Some (Profile.database p'))
  ∧ (Profile.isRemoved p = true → p' = p ∧ w' = w).
Proof.
  unfold Profile.loadDatabase. intros Hrun.
  apply bind_Done in Hrun as (c & Hcore & Hrun).
  assert (is_Some (Profile.core p)) by (destruct (Profile.core p); [eauto|done]).
  destruct (Profile.isRemoved p) eqn:Hgone.
  { injection Hrun as <- <-. repeat split; done. }
  set (w1 := if negb _ then _ else w) in Hrun.
  assert (Hq : quiet_step w w1) by (subst w1; destruct (negb _); done).
  destruct Hq as (_ & Hl & _ & _ & Hs).
  destruct (RawDatabase_new _ _ _ _) as [db fs].
  destruct (db_isOpen db); injection Hrun as <- <-; cbn;
    repeat split; eauto; done.
Qed.

(** ** Loading and creating *)

(** X4.  A [loadProfile] that returns no profile has changed nothing but
    the trace: files, lock, profile list and settings are what they were,
    whichever step failed. *)
Theorem loadProfile_failure_is_clean (name password : QString) (w w' : World) :
  Profile.loadProfile name password w = Done (None, w') → quiet_step w w'.
Proof.
  unfold Profile.loadProfile. intros Hrun.
  destruct (ProfileLocker.hasLock w) eqn:Hfree; [by injection Hrun as <-|].
  unfold ProfileLocker.hasLock in Hfree.
  destruct (curLockName w) eqn:Hcur; [done|].
  destruct (lock_frame name w) as (locked & wl & Hlock & Hf & Hs & Hfo & Hp & Hl & _).
  rewrite Hlock in Hrun. destruct locked; cbn [negb] in Hrun.
  2:{ injection Hrun as <-. repeat split; try done; cbn; congruence. }
  destruct (Profile.loadToxData _ _ _ wl) as [[key toxSave] error].
  destruct error; cbn in Hrun;
    try (injection Hrun as <-; repeat split; try done; cbn; congruence).
  apply bind_Done in Hrun as ([p1 w1] & _ & Hrun).
  apply bind_Done in Hrun as ([p2 w2] & _ & Hrun). done.
Qed.

(** X5.  A [loadProfile] that returns a profile found no lock held, now
    holds the lock under the profile name, and read a non-empty save file.
    The profile carries that name, is not removed, has a core and a
    database handle, and is marked encrypted exactly when the save on disk
    is, in which case it holds the key. *)
Theorem loadProfile_success_state (name password : QString) (w w' : World)
    (p : Profile_t) :
  Profile.loadProfile name password w = Done (Some p, w') →
  ProfileLocker.hasLock w = false
  ∧ curLockName w' = Some name
  ∧ Profile.name p = name
  ∧ Profile.isRemoved p = false
  ∧ is_Some (Profile.core p)
  ∧ is_Some (Profile.database p)
  ∧ (Profile.encrypted p = true ↔ is_Some (Profile.passkey p))
  ∧ ∃ blob : QByteArray,
      files w !! (settingsDir w +:+ name +:+ ".tox") = Some blob ∧ blob ≠ []
      ∧ Profile.encrypted p = isEncryptedData blob.
Proof.
  unfold Profile.loadProfile. intros Hrun.
  destruct (ProfileLocker.hasLock w) eqn:Hfree; [done|].
  split; [done|].
  destruct (lock_frame name w) as (locked & wl & Hlock & Hf & Hs & Hfo & Hp & Hl & _).
  rewrite Hlock in Hrun. destruct locked; cbn [negb] in Hrun; [|done].
  replace (settingsDir wl) with (settingsDir w) in Hrun
    by (unfold settingsDir; by rewrite Hs).
  destruct (Profile.loadToxData _ _ _ wl) as [[key toxSave] error] eqn:Hload.
  destruct error; cbn in Hrun; try done.
  apply loadToxData_OK_inv in Hload as (blob & Hblob & _ & Hne & _ & Hkey).
  rewrite Hf in Hblob.
  apply bind_Done in Hrun as ([p1 w1] & Hinit & Hrun).
  apply bind_Done in Hrun as ([p2 w2] & Hdb & Hrun).
  injection Hrun as <- <-.
  apply initCore_frame in Hinit as (Hn1 & Hk1 & He1 & Hr1 & _ & _ & Hl1 & _ & _).
  apply loadDatabase_frame
    in Hdb as (Hcore & Hn2 & Hk2 & He2 & Hr2 & Hc2 & _ & Hl2 & _ & Hdb2 & _).
  cbn in Hn1, Hk1, He1, Hr1, Hl1.
  repeat split.
  - by rewrite Hl2, Hl1.
  - by rewrite Hn2, Hn1.
  - by rewrite Hr2, Hr1.
  - by rewrite Hc2.
  - apply Hdb2. by rewrite Hr1.
  - rewrite He2, He1, Hk2, Hk1. by destruct key.
  - rewrite He2, He1, Hk2, Hk1. destruct key; [done|]. by intros [? ?].
  - exists blob. repeat split; try done.
    rewrite He2, He1. destruct key; [by destruct Hkey as (-> & _)|].
    by destruct Hkey as (-> & _).
Qed.

(** What [createToxData] checks, in its order, and what it leaves behind. *)
Lemma createToxData_inv (name password filePath : QString) (w w' : World)
    (key : option ToxEncrypt) (err : CreateToxDataError.t) :
  Profile.createToxData name password filePath w = (key, err, w') →
  files w' = files w ∧ settings w' = settings w
  ∧ foreignLocks w' = foreignLocks w ∧ profiles w' = profiles w
  ∧ match err with
    | CreateToxDataError.COULD_NOT_DERIVE_KEY =>
        isEmptyS password = false ∧ makeToxEncrypt password = None
        ∧ key = None ∧ w' = w
    | CreateToxDataError.PROFILE_LOCKED =>
        ProfileLocker.hasLock w = true ∧ key = None ∧ w' = w
    | CreateToxDataError.ALREADY_EXISTS =>
        ProfileLocker.hasLock w = false ∧ QFile.exists_ filePath w = true
        ∧ key = None ∧ w' = w
    | CreateToxDataError.LOCK_FAILED =>
        ProfileLocker.hasLock w = false ∧ QFile.exists_ filePath w = false
        ∧ (name ∈ foreignLocks w) ∧ key = None ∧ curLockName w' = None
    | CreateToxDataError.OK =>
        ProfileLocker.hasLock w = false ∧ QFile.exists_ filePath w = false
        ∧ (name ∉ foreignLocks w) ∧ curLockName w' = Some name
        ∧ key = (if isEmptyS password then None else makeToxEncrypt password)
        ∧ (isEmptyS password = false → is_Some key)
    end.
Proof.
  unfold Profile.createToxData. intros Hrun.
  assert (Hkey : ∀ newKey,
    (if negb (isEmptyS password)
     then match makeToxEncrypt password with
          | Some k => Some (Some k)
          | None => None
          end
     else Some None) = Some newKey →
    newKey = (if isEmptyS password then None else makeToxEncrypt password)
    ∧ (isEmptyS password = false → is_Some newKey)).
  { intros newKey. destruct (isEmptyS password); cbn.
    - intros [= <-]. done.
    - destruct (makeToxEncrypt password); [|done]. intros [= <-]. eauto. }
  destruct (if negb (isEmptyS password) then _ else _) as [newKey|] eqn:Hderived.
  2:{ injection Hrun as <- <- <-. repeat split; try done.
      - by destruct (isEmptyS password).
      - destruct (isEmptyS password); [done|].
        by destruct (makeToxEncrypt password). }
  destruct (Hkey newKey eq_refl) as [-> Hsome]. clear Hkey Hderived.
  destruct (ProfileLocker.hasLock w) eqn:Hfree.
  { injection Hrun as <- <- <-. repeat split; done. }
  destruct (QFile.exists_ filePath w) eqn:Hex.
  { injection Hrun as <- <- <-. repeat split; done. }
  destruct (lock_frame name w)
    as (locked & wl & Hlock & Hf & Hs & Hfo & Hp & Hl & Hyes & Hno).
  rewrite Hlock in Hrun. unfold ProfileLocker.hasLock in Hfree.
  destruct (curLockName w) eqn:Hcur; [done|].
  destruct locked; cbn [negb] in Hrun; injection Hrun as <- <- <-.
  - repeat split; try done. destruct (proj1 Hyes eq_refl) as [?|[? _]]; done.
  - repeat split; try done. by apply Hno.
Qed.

(** X6.  A [createProfile] that returns no profile has logged one error and
    changed nothing else.  The error tells the first check that failed, in
    this order: the key cannot be derived from the non-empty password; this
    process already holds a lock; the save file already exists; the lock of
    the name cannot be taken. *)
Theorem createProfile_failure_is_clean (name password : QString) (w w' : World) :
  Profile.createProfile name password w = Done (None, w') →
  quiet_step w w'
  ∧ ∃ err,
      last (trace w') = Some (LogCreateError err name)
      ∧ match err with
        | CreateToxDataError.COULD_NOT_DERIVE_KEY =>
            isEmptyS password = false ∧ makeToxEncrypt password = None
        | CreateToxDataError.PROFILE_LOCKED => ProfileLocker.hasLock w = true
        | CreateToxDataError.ALREADY_EXISTS =>
            ProfileLocker.hasLock w = false
            ∧ is_Some (files w !! (settingsDir w +:+ name +:+ ".tox"))
        | CreateToxDataError.LOCK_FAILED =>
            ProfileLocker.hasLock w = false
            ∧ files w !! (settingsDir w +:+ name +:+ ".tox") = None
            ∧ name ∈ foreignLocks w
        | CreateToxDataError.OK => False
        end.
Proof.
  unfold Profile.createProfile. intros Hrun.
  destruct (Profile.createToxData _ _ _ w) as [[key err] w1] eqn:Hcreate.
  apply createToxData_inv in Hcreate as (Hf & Hs & Hfo & Hp & Herr).
  destruct err; cbn in Hrun.
  - apply bind_Done in Hrun as ([p1 wa] & _ & Hrun).
    apply bind_Done in Hrun as ([p2 wb] & _ & Hrun). done.
  - injection Hrun as <-. destruct Herr as (? & ? & _ & ->).
    split; [done|]. eexists. split; [apply last_snoc|]. done.
  - injection Hrun as <-. destruct Herr as (? & _ & ->).
    split; [done|]. eexists. split; [apply last_snoc|]. done.
  - injection Hrun as <-. destruct Herr as (? & Hex & _ & ->).
    split; [done|]. eexists. split; [apply last_snoc|]. split; [done|].
    unfold QFile.exists_ in Hex. by apply bool_decide_eq_true in Hex.
  - injection Hrun as <-. destruct Herr as (Hfree & Hex & ? & _ & Hl).
    split.
    { repeat split; try done. cbn. rewrite Hl. unfold ProfileLocker.hasLock in Hfree.
      by destruct (curLockName w). }
    eexists. split; [apply last_snoc|]. repeat split; try done.
    unfold QFile.exists_ in Hex. apply bool_decide_eq_false in Hex.
    destruct (files w !! _); [|done]. exfalso. eauto.
Qed.

(** X7.  A [createProfile] that returns a profile found no lock held and no
    save file under the name, and now holds the lock under that name.  The
    profile carries the name, is not removed, has a core and a database
    handle, and is encrypted exactly when the password is not empty, in
    which case it holds the key derived from the password. *)
Theorem createProfile_success_state (name password : QString) (w w' : World)
    (p : Profile_t) :
  Profile.createProfile name password w = Done (Some p, w') →
  ProfileLocker.hasLock w = false
  ∧ files w !! (settingsDir w +:+ name +:+ ".tox") = None
  ∧ curLockName w' = Some name
  ∧ Profile.name p = name
  ∧ Profile.isRemoved p = false
  ∧ is_Some (Profile.core p)
  ∧ is_Some (Profile.database p)
  ∧ Profile.encrypted p = negb (isEmptyS password)
  ∧ Profile.passkey p = (if isEmptyS password then None
                         else makeToxEncrypt password)
  ∧ (Profile.encrypted p = true → is_Some (Profile.passkey p)).
Proof.
  unfold Profile.createProfile. intros Hrun.
  destruct (Profile.createToxData _ _ _ w) as [[key err] w1] eqn:Hcreate.
  apply createToxData_inv in Hcreate as (Hf & Hs & Hfo & Hp & Herr).
  destruct err; cbn in Hrun; try done.
  destruct Herr as (Hfree & Hex & Hforeign & Hl & -> & Hsome).
  apply bind_Done in Hrun as ([p1 wa] & Hinit & Hrun).
  apply bind_Done in Hrun as ([p2 wb] & Hdb & Hrun).
  injection Hrun as <- <-.
  apply initCore_frame in Hinit as (Hn1 & Hk1 & He1 & Hr1 & _ & _ & Hl1 & _ & _).
  apply loadDatabase_frame
    in Hdb as (Hcore & Hn2 & Hk2 & He2 & Hr2 & Hc2 & _ & Hl2 & _ & Hdb2 & _).
  cbn in Hn1, Hk1, He1, Hr1, Hl1.
  assert (Henc : Profile.encrypted p2 = negb (isEmptyS password)).
  { rewrite He2, He1. destruct (isEmptyS password); [done|].
    destruct (Hsome eq_refl) as [k Hk]. by rewrite Hk. }
  repeat split.
  - done.
  - unfold QFile.exists_ in Hex. apply bool_decide_eq_false in Hex.
    destruct (files w !! _); [|done]. exfalso. eauto.
  - by rewrite Hl2, Hl1.
  - by rewrite Hn2, Hn1.
  - by rewrite Hr2, Hr1.
  - by rewrite Hc2.
  - apply Hdb2. by rewrite Hr1.
  - done.
  - by rewrite Hk2, Hk1.
  - rewrite Henc, Hk2, Hk1. destruct (isEmptyS password); [done|].
    intros _. by apply Hsome.
Qed.

(** ** Starting the core *)

(** X8.  [initCore] on a new profile whose core and AV start: the core gets
    the status message and then the profile name as user name, and the
    state of that core is what goes to the save file.  When the file can be
    opened, flushed and committed (and encryption yields something), the
    save path holds that state, encrypted if the profile is; nothing else
    on disk changes. *)
Theorem initCore_first_save (p : Profile_t) (w : World) (c : Core) (av : CoreAV) :
  Profile.isRemoved p = false →
  curLockName w = Some (Profile.name p) →
  (Profile.encrypted p = true → is_Some (Profile.passkey p)) →
  makeToxCore [] (settings w) = inl c →
  makeCoreAV c (settings w) = Some av →
  let named := setUsername (Profile.name p) (setStatusMessage "Toxing on qTox" c) in
  let path := settingsDir w +:+ Profile.name p +:+ ".tox" in
  let written :=
    if Profile.encrypted p
    then match Profile.passkey p with
         | Some k => encrypt k (getToxSaveData named)
         | None => getToxSaveData named
         end
    else getToxSaveData named in
  getToxSaveData named ≠ [] →
  ∃ p' w',
    Profile.initCore [] true p w = Done (p', w')
    ∧ Profile.core p' = Some named
    ∧ Profile.coreAv p' = Some av
    ∧ Profile.avatarBroadcaster p' = true
    ∧ (∀ other, other ≠ path → files w' !! other = files w !! other)
    ∧ (canOpenWrite path = true → written ≠ [] → flushOk path written = true →
       commitOk path = true → files w' !! path = Some written).
Proof.
  intros Hlive Hlock Hkey Hcore Hav named path written Hdata.
  unfold Profile.initCore. cbn [isEmptyB negb andb]. rewrite Hcore, Hav.
  cbn [settings emit].
  match goal with
  | |- context [Profile.onSaveToxSave ?q ?ww] =>
      destruct (onSaveToxSave_returns q ww named) as [w2 Hsave]; try done;
      pose proof Hsave as Hsave'; rewrite Hsave
  end.
  cbn.
  eexists _, _. split; [reflexivity|]. cbn.
  repeat split.
  - intros other Hother.
    apply onSaveToxSave_frame in Hsave as (_ & _ & _ & _ & _ & _ & Hframe).
    by rewrite (Hframe other).
  - intros Hopen Hwritten Hflush Hcommit.
    unfold Profile.onSaveToxSave in Hsave'. cbn in Hsave'.
    fold named in Hsave'.
    destruct (getToxSaveData named) as [|b data] eqn:Hsaved; [done|]. cbn in Hsave'.
    unfold Profile.saveToxSave, ProfileLocker.assertLock, ProfileLocker.hasLock,
      ProfileLocker.getCurLockName in Hsave'.
    cbn in Hsave'. rewrite Hlive, Hlock in Hsave'.
    rewrite bool_decide_eq_true_2 in Hsave' by done. cbn in Hsave'.
    change (settingsDir (emit _ (emit _ w))) with (settingsDir w) in Hsave'.
    unfold QSaveFile.open in Hsave'. fold path in Hsave'. rewrite Hopen in Hsave'.
    assert (Hw : (if Profile.encrypted p
                  then key ← deref (Profile.passkey p) "passkey->encrypt";
                       Done (encrypt key (b :: data))
                  else Done (b :: data)) = Done written).
    { subst written. destruct (Profile.encrypted p); [|done].
      destruct Hkey as [k Hk]; [done|]. by rewrite Hk. }
    rewrite Hw in Hsave'. cbn in Hsave'.
    replace (Profile.encrypted p && isEmptyB written) with false in Hsave'
      by (destruct written; [done|]; by rewrite andb_false_r).
    unfold QSaveFile.flush, QSaveFile.commit in Hsave'. cbn in Hsave'.
    rewrite Hflush, Hcommit in Hsave'. cbn in Hsave'.
    injection Hsave' as <-. cbn. by rewrite lookup_insert_eq.
Qed.

(** X9.  [initCore] on an existing profile always returns and writes
    nothing: files, lock, profile list and settings are what they were, and
    name, key, flags and database handle of the profile stay.  If the core
    does not start, the profile is returned as it was. *)
Theorem initCore_existing_is_quiet (toxSave : QByteArray) (p : Profile_t)
    (w : World) :
  ∃ p' w',
    Profile.initCore toxSave false p w = Done (p', w')
    ∧ quiet_step w w'
    ∧ Profile.name p' = Profile.name p
    ∧ Profile.passkey p' = Profile.passkey p
    ∧ Profile.encrypted p' = Profile.encrypted p
    ∧ Profile.isRemoved p' = Profile.isRemoved p
    ∧ Profile.database p' = Profile.database p
    ∧ (∀ w0, w0 = (if isEmptyB toxSave
                   then emit SigFailedToStart (emit (Log "Existing toxSave is empty") w)
                   else w) →
       is_Some (Profile.core p') ∨
       (∃ err, makeToxCore toxSave (settings w0) = inr err) ∧ p' = p).
Proof.
  destruct (Profile.initCore toxSave false p w) as [why|[p' w']] eqn:Hrun.
  { exfalso. unfold Profile.initCore in Hrun.
    destruct (makeToxCore _ _); [|done].
    by destruct (makeCoreAV _ _). }
  exists p', w'. split; [done|].
  pose proof (initCore_frame _ _ _ _ _ _ Hrun)
    as (Hn & Hk & He & Hr & Hd & _ & _ & _ & Hq).
  repeat split; try done; try by apply Hq.
  intros w0 ->. unfold Profile.initCore in Hrun.
  rewrite andb_true_r, andb_false_r in Hrun.
  destruct (makeToxCore _ _) as [c|err].
  - left. destruct (makeCoreAV _ _); injection Hrun as <- _; cbn; eauto.
  - right. injection Hrun as <- _. eauto.
Qed.

(** X10.  When the core starts and AV does not, [initCore] emits
    failedToStart as its last effect and returns: the profile keeps the
    core, no save is written even for a new profile, and no avatar
    broadcaster is created.  On that profile [setAvatar] and [startCore]
    do not return: they stop at the missing broadcaster, if not before. *)
Theorem initCore_av_failure (toxSave : QByteArray) (isNewProfile : bool)
    (p : Profile_t) (w : World) (c : Core) :
  isEmptyB toxSave = isNewProfile →
  makeToxCore toxSave (settings w) = inl c →
  makeCoreAV c (settings w) = None →
  Profile.avatarBroadcaster p = false →
  Profile.initCore toxSave isNewProfile p w
  = Done (Profile.set_core (Some c) p, emit SigFailedToStart w)
  ∧ (∀ pic w2 r, Profile.setAvatar pic (Profile.set_core (Some c) p) w2 ≠ Done r)
  ∧ (∀ w2 r, Profile.startCore (Profile.set_core (Some c) p) w2 ≠ Done r).
Proof.
  intros Hcontract Hcore Hav Hnone.
  assert (Hset : ∀ (q : Profile_t) pic w2 r,
            Profile.avatarBroadcaster q = false →
            Profile.setAvatar pic q w2 ≠ Done r).
  { intros q pic w2 r Hq Hrun. unfold Profile.setAvatar in Hrun.
    apply bind_Done in Hrun as (c0 & _ & Hrun).
    destruct (if negb (isEmptyB pic) then _ else _) as [pixmap avatarData].
    apply bind_Done in Hrun as (w3 & _ & Hrun).
    rewrite Hq in Hrun. done. }
  split; [|split].
  - unfold Profile.initCore. rewrite Hcontract.
    destruct isNewProfile; cbn [negb andb]; by rewrite Hcore, Hav.
  - intros pic w2 r. by apply Hset.
  - intros w2 r Hrun. unfold Profile.startCore in Hrun.
    apply bind_Done in Hrun as (c0 & _ & Hrun).
    apply bind_Done in Hrun as ([data w3] & _ & Hrun).
    apply bind_Done in Hrun as ([signals w4] & Hrun & _).
    by eapply Hset in Hrun.
Qed.

(** ** Saving *)

(** What a [saveToxSave] that reports success did. *)
Lemma saveToxSave_true_inv (data : QByteArray) (p : Profile_t) (w w' : World) :
  Profile.saveToxSave data p w = Done (true, w') →
  let path := settingsDir w +:+ Profile.name p +:+ ".tox" in
  ∃ written,
    (if Profile.encrypted p
     then ∃ k, Profile.passkey p = Some k ∧ written = encrypt k data ∧ written ≠ []
     else written = data)
    ∧ canOpenWrite path = true
    ∧ flushOk path written = true
    ∧ w' = (QSaveFile.commit (QSaveFile.mk path written) w).2.
Proof.
  intros Hrun path. pose proof Hrun as Hrun'.
  unfold Profile.saveToxSave in Hrun.
  apply bind_Done in Hrun as ([] & _ & Hrun).
  apply bind_Done in Hrun as ([] & _ & Hrun).
  apply bind_Done in Hrun as ([] & _ & Hrun).
  fold path in Hrun. unfold QSaveFile.open in Hrun.
  destruct (canOpenWrite path); [|done].
  apply bind_Done in Hrun as (written & Hw & Hrun).
  exists written.
  destruct (Profile.encrypted p).
  - apply bind_Done in Hw as (k & Hk & Hw). injection Hw as <-.
    destruct (Profile.passkey p) as [k'|]; [|done]. injection Hk as ->.
    cbn in Hrun. destruct (isEmptyB (encrypt k data)) eqn:He; [done|].
    unfold QSaveFile.flush in Hrun. cbn in Hrun.
    destruct (flushOk path (encrypt k data)); [|done].
    injection Hrun as <-. repeat split; try done.
    exists k. repeat split; try done. by destruct (encrypt k data).
  - injection Hw as <-. cbn in Hrun.
    unfold QSaveFile.flush in Hrun. cbn in Hrun.
    destruct (flushOk path data); [|done].
    by injection Hrun as <-.
Qed.

(** X11.  [onSaveToxSave] returns only with a core and while this process
    holds a lock: the two checks of it that are not C assertions (the null
    core and [ProfileLocker::assertLock]).  Under what its assertions ask
    for (the profile is not removed, the lock is held under its name, the
    state of the core is not empty) and with a key for an encrypted
    profile, it returns, and it has changed no file but the save file of
    the profile and neither the lock nor the settings. *)
Theorem onSaveToxSave_guards (p : Profile_t) (w : World) :
  (∀ w', Profile.onSaveToxSave p w = Done w' →
     is_Some (Profile.core p) ∧ ProfileLocker.hasLock w = true)
  ∧ (Profile.isRemoved p = false →
     curLockName w = Some (Profile.name p) →
     (∃ c, Profile.core p = Some c ∧ getToxSaveData c ≠ []) →
     (Profile.encrypted p = true → is_Some (Profile.passkey p)) →
     ∃ w', Profile.onSaveToxSave p w = Done w'
           ∧ curLockName w' = curLockName w
           ∧ settings w' = settings w
           ∧ ∀ path, path ≠ settingsDir w +:+ Profile.name p +:+ ".tox" →
                     files w' !! path = files w !! path).
Proof.
  split.
  - intros w' Hrun.
    destruct (onSaveToxSave_frame _ _ _ Hrun) as (_ & Hlock & _).
    split; [|unfold ProfileLocker.hasLock; by rewrite Hlock].
    unfold Profile.onSaveToxSave in Hrun.
    apply bind_Done in Hrun as (c & Hc & _).
    destruct (Profile.core p); [eauto|done].
  - intros Hlive Hlock (c & Hc & Hdata) Hkey.
    destruct (onSaveToxSave_returns p w c Hlive Hlock Hc Hdata Hkey) as [w' Hrun].
    exists w'. split; [done|].
    destruct (onSaveToxSave_frame _ _ _ Hrun) as (_ & _ & ? & _ & _ & ? & ?).
    done.
Qed.

(** X12.  [saveToxSave] does not look at the result of the commit: when
    the file was opened and flushed but the commit fails, it returns true
    although the files are what they were. *)
Theorem saveToxSave_ignores_commit (data : QByteArray) (p : Profile_t) (w : World) :
  Profile.isRemoved p = false →
  curLockName w = Some (Profile.name p) →
  Profile.encrypted p = false →
  let path := settingsDir w +:+ Profile.name p +:+ ".tox" in
  canOpenWrite path = true →
  flushOk path data = true →
  commitOk path = false →
  ∃ w', Profile.saveToxSave data p w = Done (true, w')
        ∧ files w' = files w
        ∧ last (trace w') = Some (EvSaveCommit path false).
Proof.
  intros Hlive Hlock Hplain path Hopen Hflush Hcommit.
  unfold Profile.saveToxSave, ProfileLocker.assertLock, ProfileLocker.hasLock,
    ProfileLocker.getCurLockName.
  rewrite Hlive, Hlock, Hplain. rewrite bool_decide_eq_true_2 by done. cbn.
  fold path. unfold QSaveFile.open. rewrite Hopen. cbn.
  unfold QSaveFile.flush, QSaveFile.commit. cbn. rewrite Hflush, Hcommit. cbn.
  eexists. split; [reflexivity|]. split; [done|]. apply last_snoc.
Qed.

(** X13.  Save, then load: after a [saveToxSave] that reported success and
    whose commit went through, [loadToxData] on the same path gives back
    the saved bytes with OK, provided the collaborators behave: plain data
    is not taken for ciphertext; ciphertext is recognised, the password
    yields a key against it, and that key decrypts it to the data.  A key
    comes back exactly for an encrypted profile. *)
Theorem save_then_load (data : QByteArray) (password : QString) (p : Profile_t)
    (w w' : World) :
  Profile.saveToxSave data p w = Done (true, w') →
  let path := settingsDir w +:+ Profile.name p +:+ ".tox" in
  commitOk path = true →
  canOpenRead path = true →
  data ≠ [] →
  (Profile.encrypted p = false → isEncryptedData data = false) →
  (∀ k, Profile.encrypted p = true → Profile.passkey p = Some k →
     isEncryptedData (encrypt k data) = true
     ∧ isEmptyS password = false
     ∧ ∃ k', makeToxEncryptFor password (encrypt k data) = Some k'
             ∧ decrypt k' (encrypt k data) = data) →
  ∃ key, Profile.loadToxData password path [] w' = (key, data, LoadToxDataError.OK)
         ∧ (is_Some key ↔ Profile.encrypted p = true).
Proof.
  intros Hrun path Hcommit Hread Hdata Hplain Hcipher.
  destruct (saveToxSave_true_inv _ _ _ _ Hrun) as (written & Hw & _ & _ & ->).
  fold path. unfold QSaveFile.commit. cbn. rewrite Hcommit. cbn.
  unfold Profile.loadToxData, QFile.exists_, QFile.openRead. cbn.
  rewrite Hread, lookup_insert_eq. rewrite bool_decide_eq_true_2 by eauto. cbn.
  destruct (Profile.encrypted p) eqn:Henc.
  - destruct Hw as (k & Hk & -> & Hne).
    destruct (Hcipher k eq_refl Hk) as (Hrec & Hpw & k' & Hk' & Hdec).
    destruct (encrypt k data) as [|b cipher] eqn:Hc; [done|]. cbn.
    rewrite Hrec, Hpw, Hk', Hdec.
    destruct data as [|d data]; [done|]. cbn.
    eexists. split; [reflexivity|]. split; eauto.
  - subst written. destruct data as [|d data]; [done|]. cbn.
    rewrite (Hplain eq_refl). eexists. split; [reflexivity|].
    split; [by intros [? ?]|done].
Qed.

(** X14.  [save] on a removed profile does nothing.  On a live profile a
    [save] that returns was called while this process held a lock and has
    released it, so that neither a further [save] nor any [saveToxSave] on
    that profile returns: they stop at [ProfileLocker::assertLock]. *)
Theorem save_releases_lock (p : Profile_t) (w : World) :
  (Profile.isRemoved p = true → Profile.save p w = Done w)
  ∧ (Profile.isRemoved p = false → ∀ w',
     Profile.save p w = Done w' →
     ProfileLocker.hasLock w = true
     ∧ curLockName w' = None
     ∧ ProfileLocker.assertLock w' = Fatal "ProfileLocker::assertLock"
     ∧ last (trace w') = Some EvUnlock
     ∧ (∀ data r, Profile.saveToxSave data p w' ≠ Done r)
     ∧ (∀ r, Profile.save p w' ≠ Done r)).
Proof.
  split.
  - intros Hrem. unfold Profile.save. by rewrite Hrem.
  - intros Hlive w' Hrun. unfold Profile.save in Hrun. rewrite Hlive in Hrun.
    apply bind_Done in Hrun as (w1 & Hsave & Hrun).
    apply bind_Done in Hrun as ([] & _ & Hrun).
    apply bind_Done in Hrun as ([] & _ & Hrun).
    injection Hrun as <-.
    destruct (onSaveToxSave_frame _ _ _ Hsave) as (_ & Hlock & _).
    split; [unfold ProfileLocker.hasLock; by rewrite Hlock|].
    split; [done|]. split; [done|]. split; [apply last_snoc|].
    split.
    + intros data [b w2] Hagain.
      destruct (saveToxSave_frame _ _ _ _ _ Hagain) as (_ & Hl & _).
      cbn in Hl. done.
    + intros r Hagain. unfold Profile.save in Hagain. rewrite Hlive in Hagain.
      apply bind_Done in Hagain as (w2 & Hs2 & _).
      destruct (onSaveToxSave_frame _ _ _ Hs2) as (_ & Hl & _).
      cbn in Hl. done.
Qed.

(** ** Avatars *)

(** X15.  Save, then load an avatar: after [saveAvatar] with a non-empty
    picture, on a path that can be written, committed and read back,
    [loadAvatarData] returns that picture, provided that for an encrypted
    profile the key decrypts what it encrypted. *)
Theorem saveAvatar_then_load (owner : ToxPk) (avatar : QByteArray) (p : Profile_t)
    (w w' : World) (path : QString) :
  Profile.saveAvatar owner avatar p w = Done w' →
  Profile.avatarPath owner false p w = Done path →
  avatar ≠ [] →
  canOpenWrite path = true → commitOk path = true → canOpenRead path = true →
  (∀ k, Profile.encrypted p = true → Profile.passkey p = Some k →
     encrypt k avatar ≠ [] ∧ decrypt k (encrypt k avatar) = avatar) →
  Profile.loadAvatarData owner p w' = Done (avatar, w').
Proof.
  intros Hsave Hpath Hne Hopen Hcommit Hread Hcrypt.
  unfold Profile.saveAvatar in Hsave.
  apply bind_Done in Hsave as (pic & Hpic & Hsave).
  rewrite Hpath in Hsave. cbn in Hsave.
  destruct avatar as [|a0 avatar]; [done|]. cbn in Hpic. rewrite andb_true_r in Hpic.
  assert (Hstored : pic ≠ []
    ∧ (if Profile.encrypted p
       then ∃ k, Profile.passkey p = Some k ∧ decrypt k pic = a0 :: avatar
       else pic = a0 :: avatar)).
  { destruct (Profile.encrypted p) eqn:Henc.
    - apply bind_Done in Hpic as (k & Hk & Hpic).
      destruct (Profile.passkey p) as [k'|] eqn:Hkey; [|done].
      injection Hk as ->. injection Hpic as <-.
      destruct (Hcrypt k eq_refl eq_refl) as [? ?]. eauto.
    - by injection Hpic as <-. }
  destruct Hstored as [Hpicne Hstored].
  destruct pic as [|b0 pic]; [done|]. cbn in Hsave.
  unfold QSaveFile.open in Hsave. rewrite Hopen in Hsave.
  unfold QSaveFile.commit in Hsave. cbn in Hsave. rewrite Hcommit in Hsave.
  cbn in Hsave. injection Hsave as <-.
  match goal with |- context [Done (_, ?ww)] => set (w1 := ww) end.
  unfold Profile.loadAvatarData, Profile.loadAvatarData_locate.
  rewrite (avatarPath_settings owner false p w w1) by done. rewrite Hpath. cbn.
  unfold QFile.exists_. cbn. rewrite lookup_insert_eq.
  rewrite bool_decide_eq_true_2 by eauto. rewrite andb_false_r. cbn.
  unfold Profile.loadAvatarData_read, QFile.openRead. rewrite Hread. cbn.
  rewrite lookup_insert_eq.
  destruct (Profile.encrypted p); cbn.
  - destruct Hstored as (k & -> & Hdec). cbn. by rewrite Hdec.
  - by rewrite Hstored.
Qed.

(** X16.  When there is nothing to store (an empty picture, or a picture
    whose encryption comes out empty), [saveAvatar] deletes the cached
    avatar instead of writing it.  A later [loadAvatarData] then finds
    nothing on a profile that is not encrypted, and on an encrypted one
    falls back to whatever is at the plaintext path. *)
Theorem saveAvatar_nothing_to_store (owner : ToxPk) (avatar : QByteArray)
    (p : Profile_t) (w w' : World) (path : QString) :
  Profile.saveAvatar owner avatar p w = Done w' →
  Profile.avatarPath owner false p w = Done path →
  (avatar = []
   ∨ ∃ k, Profile.encrypted p = true ∧ Profile.passkey p = Some k
          ∧ encrypt k avatar = []) →
  canRemove path = true →
  let plain := settingsDir w +:+ "avatars/" +:+ ToxPk_toString owner +:+ ".png" in
  let raw := match QFile.openRead plain w' with Some pic => pic | None => [] end in
  files w' = delete path (files w)
  ∧ Profile.loadAvatarData owner p w' = Done (raw, w')
  ∧ (Profile.encrypted p = false → raw = []).
Proof.
  intros Hsave Hpath Hnothing Hrm plain raw.
  unfold Profile.saveAvatar in Hsave.
  apply bind_Done in Hsave as (pic & Hpic & Hsave).
  rewrite Hpath in Hsave. cbn in Hsave.
  assert (pic = []) as ->.
  { destruct Hnothing as [->|(k & Henc & Hkey & Hempty)].
    - cbn in Hpic. rewrite andb_false_r in Hpic. by injection Hpic.
    - rewrite Henc, Hkey in Hpic. destruct avatar; cbn in Hpic.
      + by injection Hpic.
      + injection Hpic as <-. done. }
  cbn in Hsave. injection Hsave as <-.
  assert (Hfiles : files (QFile.remove path w).2 = delete path (files w)).
  { unfold QFile.remove, QFile.exists_. rewrite Hrm, andb_true_r.
    case_bool_decide as Hex; [done|]. cbn.
    symmetry. apply delete_id.
    destruct (files w !! path) eqn:Hl; [|done]. exfalso. eauto. }
  assert (Hset : settings (QFile.remove path w).2 = settings w).
  { unfold QFile.remove. by destruct (QFile.exists_ path w && canRemove path). }
  split; [done|].
  assert (Hgone : QFile.exists_ path (QFile.remove path w).2 = false).
  { unfold QFile.exists_. rewrite Hfiles, lookup_delete_eq.
    apply bool_decide_eq_false_2. by intros [? ?]. }
  assert (Hplain : Profile.avatarPath owner true p w = Done plain).
  { unfold Profile.avatarPath. by rewrite orb_true_r. }
  assert (Hload : Profile.loadAvatarData owner p (QFile.remove path w).2
                  = Done (raw, (QFile.remove path w).2)).
  { unfold Profile.loadAvatarData, Profile.loadAvatarData_locate.
    rewrite (avatarPath_settings owner false p w (QFile.remove path w).2) by done.
    rewrite (avatarPath_settings owner true p w (QFile.remove path w).2) by done.
    rewrite Hpath, Hplain. cbn.
    rewrite Hgone. cbn. destruct (Profile.encrypted p) eqn:Henc; cbn.
    - unfold Profile.loadAvatarData_read, raw.
      by destruct (QFile.openRead plain _).
    - assert (path = plain) as ->.
      { unfold Profile.avatarPath in Hpath. rewrite Henc in Hpath. cbn in Hpath.
        by injection Hpath. }
      unfold Profile.loadAvatarData_read, raw.
      destruct (QFile.openRead plain _); [|done]. by rewrite andb_false_l. }
  split; [done|].
  intros Henc. unfold raw, QFile.openRead.
  assert (path = plain) as <-.
  { unfold Profile.avatarPath in Hpath. rewrite Henc in Hpath. cbn in Hpath.
    by injection Hpath. }
  rewrite Hfiles, lookup_delete_eq. by destruct (canOpenRead path).
Qed.

(** [QFile::remove] on a path that can be removed leaves no file there. *)
Lemma QFile_remove_removable (path : QString) (w : World) :
  canRemove path = true →
  files (QFile.remove path w).2 = delete path (files w)
  ∧ settings (QFile.remove path w).2 = settings w.
Proof.
  intros Hrm. unfold QFile.remove, QFile.exists_. rewrite Hrm, andb_true_r.
  case_bool_decide as Hex; [done|]. cbn. split; [|done].
  symmetry. apply delete_id.
  destruct (files w !! path) eqn:Hl; [|done]. exfalso. eauto.
Qed.

(** Saving an empty avatar where no file is cached changes no file. *)
Lemma saveAvatar_empty_absent (owner : ToxPk) (p : Profile_t) (w w' : World)
    (path : QString) :
  Profile.saveAvatar owner [] p w = Done w' →
  Profile.avatarPath owner false p w = Done path →
  files w !! path = None →
  files w' = files w ∧ settings w' = settings w.
Proof.
  intros Hsave Hpath Hnone. unfold Profile.saveAvatar in Hsave.
  cbn in Hsave. rewrite andb_false_r in Hsave. cbn in Hsave.
  rewrite Hpath in Hsave. cbn in Hsave. injection Hsave as <-.
  unfold QFile.remove, QFile.exists_. rewrite Hnone.
  rewrite bool_decide_eq_false_2 by (by intros [? ?]). done.
Qed.

(** X17.  [removeAvatar] deletes the cached avatar file (when it can be
    removed) and announces the replacement picture: the identicon of the
    owner if identicons are shown, the stock picture otherwise.  For our
    own key it emits selfAvatarChanged and broadcasts the empty avatar; for
    a friend it emits friendAvatarSet with the identicon, or
    friendAvatarRemoved, and then friendAvatarChanged. *)
Theorem removeAvatar_effect (owner : ToxPk) (p : Profile_t) (w w' : World)
    (sigs : list Signal) (c : Core) (path : QString) :
  Profile.removeAvatar owner p w = Done (sigs, w') →
  Profile.core p = Some c →
  Profile.avatarPath owner false p w = Done path →
  canRemove path = true →
  let pixmap := if getShowIdenticons (settings w)
                then Pix_identicon (getByteArray owner) 32
                else Pix_load ":/img/contact_dark.svg" in
  files w' = delete path (files w)
  ∧ sigs = (if bool_decide (owner = getSelfPublicKey c)
            then [selfAvatarChanged pixmap; BroadcasterSetAvatar [];
                  BroadcasterEnableAutoBroadcast]
            else [if getShowIdenticons (settings w)
                  then friendAvatarSet owner pixmap
                  else friendAvatarRemoved owner;
                  friendAvatarChanged owner pixmap]).
Proof.
  intros Hrun Hcore Hpath Hrm pixmap.
  unfold Profile.removeAvatar in Hrun. rewrite Hpath, Hcore in Hrun. cbn in Hrun.
  destruct (QFile_remove_removable path w Hrm) as [Hfiles Hset].
  set (w1 := (QFile.remove path w).2) in *.
  assert (Hpath1 : Profile.avatarPath owner false p w1 = Done path).
  { by rewrite (avatarPath_settings owner false p w w1). }
  assert (Hnone : files w1 !! path = None).
  { rewrite Hfiles. apply lookup_delete_eq. }
  case_bool_decide as Hself.
  - unfold Profile.setAvatar in Hrun. rewrite Hcore in Hrun. cbn in Hrun.
    rewrite Hset in Hrun. rewrite <- Hself in Hrun. fold pixmap in Hrun.
    destruct (getShowIdenticons (settings w)).
    + apply bind_Done in Hrun as (w2 & Hsave & Hrun).
      apply bind_Done in Hrun as ([] & _ & Hrun). injection Hrun as <- <-.
      destruct (saveAvatar_empty_absent _ _ _ _ _ Hsave Hpath1 Hnone) as [-> _].
      done.
    + apply bind_Done in Hrun as (w2 & Hsave & Hrun).
      apply bind_Done in Hrun as ([] & _ & Hrun). injection Hrun as <- <-.
      destruct (saveAvatar_empty_absent _ _ _ _ _ Hsave Hpath1 Hnone) as [-> _].
      done.
  - unfold Profile.setFriendAvatar in Hrun. cbn in Hrun.
    rewrite Hset in Hrun. fold pixmap in Hrun.
    destruct (getShowIdenticons (settings w)).
    + apply bind_Done in Hrun as (w2 & Hsave & Hrun). injection Hrun as <- <-.
      destruct (saveAvatar_empty_absent _ _ _ _ _ Hsave Hpath1 Hnone) as [-> _].
      done.
    + apply bind_Done in Hrun as (w2 & Hsave & Hrun). injection Hrun as <- <-.
      destruct (saveAvatar_empty_absent _ _ _ _ _ Hsave Hpath1 Hnone) as [-> _].
      done.
Qed.

(** X18.  [startCore] saves again the avatar it has just loaded.  On an
    encrypted profile whose avatar exists only as a file at the plaintext
    path, this stores the picture encrypted at the hashed path; the
    plaintext file stays where it was.  The picture is announced and
    handed to the broadcaster. *)
Theorem startCore_migrates_avatar (p p' : Profile_t) (w w' : World)
    (sigs : list Signal) (c : Core) (k : ToxEncrypt) (hashed : QString)
    (pic : QByteArray) :
  Profile.startCore p w = Done (sigs, p', w') →
  Profile.core p = Some c →
  Profile.encrypted p = true →
  Profile.passkey p = Some k →
  let pk := getSelfPublicKey (Core_start c) in
  let plain := settingsDir w +:+ "avatars/" +:+ ToxPk_toString pk +:+ ".png" in
  Profile.avatarPath pk false (Profile.set_core (Some (Core_start c)) p) w
    = Done hashed →
  files w !! hashed = None →
  files w !! plain = Some pic →
  canOpenRead plain = true →
  pic ≠ [] → encrypt k pic ≠ [] →
  canOpenWrite hashed = true → commitOk hashed = true →
  files w' = <[hashed := encrypt k pic]> (files w)
  ∧ files w' !! plain = Some pic
  ∧ p' = Profile.set_core (Some (Core_start c)) p
  ∧ sigs = [ConnectRequestSent; coreChanged; CoreStarted;
            selfAvatarChanged (Pix_loadFromData pic); BroadcasterSetAvatar pic;
            BroadcasterEnableAutoBroadcast].
Proof.
  intros Hrun Hcore Henc Hkey pk plain Hhashed Hmissing Hplain Hread Hpic Hcipher
    Hopen Hcommit.
  unfold Profile.startCore in Hrun. rewrite Hcore in Hrun. cbn in Hrun.
  fold pk in Hrun.
  set (p1 := Profile.set_core (Some (Core_start c)) p) in *.
  assert (Hload : Profile.loadAvatarData pk p1 w = Done (pic, w)).
  { unfold Profile.loadAvatarData, Profile.loadAvatarData_locate.
    rewrite Hhashed. cbn. rewrite Henc. unfold QFile.exists_. rewrite Hmissing.
    rewrite bool_decide_eq_false_2 by (by intros [? ?]). cbn.
    unfold Profile.avatarPath. cbn. rewrite Henc. cbn.
    unfold Profile.loadAvatarData_read, QFile.openRead. fold plain.
    by rewrite Hread, Hplain. }
  rewrite Hload in Hrun. cbn in Hrun.
  apply bind_Done in Hrun as ([sigs1 w1] & Hset & Hrun).
  injection Hrun as <- <- <-.
  unfold Profile.setAvatar in Hset. cbn in Hset. fold pk in Hset.
  destruct pic as [|b0 pic]; [done|]. cbn in Hset.
  apply bind_Done in Hset as (w2 & Hsave & Hset).
  apply bind_Done in Hset as ([] & _ & Hset). injection Hset as <- <-.
  unfold Profile.saveAvatar in Hsave. cbn in Hsave.
  rewrite Henc, Hkey in Hsave. cbn in Hsave. rewrite Hhashed in Hsave. cbn in Hsave.
  destruct (encrypt k (b0 :: pic)) as [|e0 cipher]; [done|]. cbn in Hsave.
  unfold QSaveFile.open in Hsave. rewrite Hopen in Hsave.
  unfold QSaveFile.commit in Hsave. cbn in Hsave. rewrite Hcommit in Hsave.
  cbn in Hsave. injection Hsave as <-. cbn.
  split; [done|]. split; [|done].
  rewrite lookup_insert_ne; [done|]. intros <-. congruence.
Qed.

(** X19.  [startCore] on a profile with no cached avatar writes no file and
    broadcasts the empty avatar; the picture announced is the identicon of
    our key if identicons are shown, the stock picture otherwise. *)
Theorem startCore_without_avatar (p p' : Profile_t) (w w' : World)
    (sigs : list Signal) (c : Core) (path : QString) :
  Profile.startCore p w = Done (sigs, p', w') →
  Profile.core p = Some c →
  let pk := getSelfPublicKey (Core_start c) in
  let plain := settingsDir w +:+ "avatars/" +:+ ToxPk_toString pk +:+ ".png" in
  Profile.avatarPath pk false (Profile.set_core (Some (Core_start c)) p) w
    = Done path →
  files w !! path = None →
  files w !! plain = None →
  files w' = files w
  ∧ sigs = [ConnectRequestSent; coreChanged; CoreStarted;
            selfAvatarChanged (if getShowIdenticons (settings w)
                               then Pix_identicon (getByteArray pk) 32
                               else Pix_load ":/img/contact_dark.svg");
            BroadcasterSetAvatar []; BroadcasterEnableAutoBroadcast].
Proof.
  intros Hrun Hcore pk plain Hpath Hnone Hnoplain.
  unfold Profile.startCore in Hrun. rewrite Hcore in Hrun. cbn in Hrun.
  fold pk in Hrun.
  set (p1 := Profile.set_core (Some (Core_start c)) p) in *.
  assert (Hload : Profile.loadAvatarData pk p1 w = Done ([], w)).
  { unfold Profile.loadAvatarData, Profile.loadAvatarData_locate.
    rewrite Hpath. cbn. unfold QFile.exists_. rewrite Hnone.
    rewrite bool_decide_eq_false_2 by (by intros [? ?]). cbn.
    destruct (Profile.encrypted p) eqn:Henc; cbn.
    - unfold Profile.avatarPath. cbn. rewrite Henc. cbn.
      unfold Profile.loadAvatarData_read, QFile.openRead. fold plain.
      rewrite Hnoplain. by destruct (canOpenRead plain).
    - unfold Profile.loadAvatarData_read, QFile.openRead.
      rewrite Hnone. by destruct (canOpenRead path). }
  rewrite Hload in Hrun. cbn in Hrun.
  apply bind_Done in Hrun as ([sigs1 w1] & Hset & Hrun).
  injection Hrun as <- <- <-.
  unfold Profile.setAvatar in Hset. cbn in Hset. fold pk in Hset.
  destruct (getShowIdenticons (settings w)).
  - apply bind_Done in Hset as (w2 & Hsave & Hset).
    apply bind_Done in Hset as ([] & _ & Hset). injection Hset as <- <-.
    by destruct (saveAvatar_empty_absent _ _ _ _ _ Hsave Hpath Hnone) as [-> _].
  - apply bind_Done in Hset as (w2 & Hsave & Hset).
    apply bind_Done in Hset as ([] & _ & Hset). injection Hset as <- <-.
    by destruct (saveAvatar_empty_absent _ _ _ _ _ Hsave Hpath Hnone) as [-> _].
Qed.

(** ** Changing the password *)

(** X20.  [setPassword] answers with the key-derivation message exactly
    when the new password is not empty and no key can be derived from it.
    In that case it stops before anything is saved: the profile is
    returned as it was and only a warning is logged, whatever the state of
    the lock and of the core. *)
Theorem setPassword_derivation_failure (newPassword : QString) (p : Profile_t)
    (w : World) :
  (isEmptyS newPassword = false → makeToxEncrypt newPassword = None →
     ∃ w', Profile.setPassword newPassword p w
           = Done (Profile.keyDerivationFailed, p, w')
           ∧ quiet_step w w')
  ∧ (∀ err p' w', Profile.setPassword newPassword p w = Done (err, p', w') →
       err = Profile.keyDerivationFailed →
       isEmptyS newPassword = false ∧ makeToxEncrypt newPassword = None).
Proof.
  split.
  - intros Hne Hnone. unfold Profile.setPassword. rewrite Hne, Hnone.
    eexists. split; [reflexivity|]. apply quiet_emit.
  - intros err p' w' Hrun ->. unfold Profile.setPassword in Hrun.
    destruct (isEmptyS newPassword) eqn:Hempty.
    + apply bind_Done in Hrun as (w1 & _ & Hrun). exfalso.
      cbn [Profile.database Profile.set_encrypted] in Hrun.
      destruct (Profile.database p) as [db|].
      * destruct (db_setPassword newPassword db (files w1)) as [[ok db'] fs].
        apply bind_Done in Hrun as (c & _ & Hrun).
        apply bind_Done in Hrun as ([a wa] & _ & Hrun).
        apply bind_Done in Hrun as (wb & _ & Hrun).
        apply bind_Done in Hrun as (wc & _ & Hrun).
        destruct ok; by injection Hrun.
      * apply bind_Done in Hrun as (c & _ & Hrun).
        apply bind_Done in Hrun as ([a wa] & _ & Hrun).
        apply bind_Done in Hrun as (wb & _ & Hrun).
        apply bind_Done in Hrun as (wc & _ & Hrun).
        by injection Hrun.
    + destruct (makeToxEncrypt newPassword) as [k|]; [|done].
      apply bind_Done in Hrun as (w1 & _ & Hrun). exfalso.
      cbn [Profile.database Profile.set_encrypted Profile.set_passkey] in Hrun.
      destruct (Profile.database p) as [db|].
      * destruct (db_setPassword newPassword db (files w1)) as [[ok db'] fs].
        apply bind_Done in Hrun as (c & _ & Hrun).
        apply bind_Done in Hrun as ([a wa] & _ & Hrun).
        apply bind_Done in Hrun as (wb & _ & Hrun).
        apply bind_Done in Hrun as (wc & _ & Hrun).
        destruct ok; by injection Hrun.
      * apply bind_Done in Hrun as (c & _ & Hrun).
        apply bind_Done in Hrun as ([a wa] & _ & Hrun).
        apply bind_Done in Hrun as (wb & _ & Hrun).
        apply bind_Done in Hrun as (wc & _ & Hrun).
        by injection Hrun.
Qed.


(** What [rename] and [remove] leave of the profile. *)
Lemma rename_fields (newName : QString) (p p' : Profile_t) (w w' : World)
    (ok : bool) :
  Profile.rename newName p w = (ok, p', w') →
  Profile.passkey p' = Profile.passkey p
  ∧ Profile.encrypted p' = Profile.encrypted p
  ∧ Profile.isRemoved p' = Profile.isRemoved p
  ∧ Profile.core p' = Profile.core p
  ∧ Profile.name p' = (if ok then newName else Profile.name p).
Proof.
  unfold Profile.rename. intros Hrun.
  destruct (ProfileLocker.lock newName w) as [locked w1].
  destruct locked; cbn in Hrun; [|by injection Hrun as <- <- _].
  destruct (Profile.database p) as [db|].
  - destruct (db_rename newName db _) as [db' fs]. cbn in Hrun.
    by injection Hrun as <- <- _.
  - by injection Hrun as <- <- _.
Qed.

Lemma remove_fields (p p' : Profile_t) (w w' : World) (ret : list QString) :
  Profile.remove p w = (p', ret, w') →
  Profile.passkey p' = Profile.passkey p
  ∧ Profile.encrypted p' = Profile.encrypted p
  ∧ Profile.isRemoved p' = true
  ∧ Profile.core p' = Profile.core p
  ∧ Profile.name p' = Profile.name p
  ∧ (Profile.isRemoved p = false →
     Profile.database p' = None ∧ Profile.history p' = false
     ∧ curLockName w' = None).
Proof.
  unfold Profile.remove. intros Hrun.
  destruct (Profile.isRemoved p) eqn:Hrem; [by injection Hrun as <- _ _|].
  repeat case_match; simplify_eq; cbn; repeat split; try done;
    repeat match goal with
    | H : QFile.remove _ _ = _ |- _ =>
        unfold QFile.remove in H; repeat case_match; simplify_eq
    end; done.
Qed.

(** X22.  An encrypted profile has a key, and keeps it: the constructor
    marks a profile encrypted exactly when it is given a key, and
    [setPassword], [rename], [remove], [initCore], [loadDatabase] and
    [startCore] all hand back a profile that, if marked encrypted, has a
    key, provided the profile they were given was so. *)
Theorem encrypted_profile_has_key :
  let keyed (p : Profile_t) :=
    Profile.encrypted p = true → is_Some (Profile.passkey p) in
  (∀ name key, keyed (Profile.Profile name key))
  ∧ (∀ pw p w err p' w',
       Profile.setPassword pw p w = Done (err, p', w') → keyed p → keyed p')
  ∧ (∀ newName p w ok p' w',
       Profile.rename newName p w = (ok, p', w') → keyed p → keyed p')
  ∧ (∀ p w p' ret w', Profile.remove p w = (p', ret, w') → keyed p → keyed p')
  ∧ (∀ toxSave isNew p w p' w',
       Profile.initCore toxSave isNew p w = Done (p', w') → keyed p → keyed p')
  ∧ (∀ pw p w p' w',
       Profile.loadDatabase pw p w = Done (p', w') → keyed p → keyed p')
  ∧ (∀ p w sigs p' w',
       Profile.startCore p w = Done (sigs, p', w') → keyed p → keyed p').
Proof.
  intros keyed. unfold keyed. repeat split.
  - intros name key. by apply Profile_ctor_invariant.
  - intros pw p w err p' w' Hrun Hp.
    destruct (isEmptyS pw) eqn:Hempty.
    + unfold Profile.setPassword in Hrun. rewrite Hempty in Hrun.
      destruct pw; [|done].
      destruct (setPassword_empty_keeps_key _ _ _ _ _
                  ltac:(unfold Profile.setPassword; exact Hrun)) as [-> _].
      done.
    + destruct (makeToxEncrypt pw) as [k|] eqn:Hk.
      * destruct (setPassword_nonempty_sets_both _ _ _ _ _ _ _ Hempty Hk Hrun)
          as [_ ->]. eauto.
      * unfold Profile.setPassword in Hrun. rewrite Hempty, Hk in Hrun.
        by injection Hrun as _ <- _.
  - intros newName p w ok p' w' Hrun Hp.
    destruct (rename_fields _ _ _ _ _ _ Hrun) as (-> & -> & _). done.
  - intros p w p' ret w' Hrun Hp.
    destruct (remove_fields _ _ _ _ _ Hrun) as (-> & -> & _). done.
  - intros toxSave isNew p w p' w' Hrun Hp.
    destruct (initCore_frame _ _ _ _ _ _ Hrun) as (_ & -> & -> & _). done.
  - intros pw p w p' w' Hrun Hp.
    destruct (loadDatabase_frame _ _ _ _ _ Hrun) as (_ & _ & -> & -> & _). done.
  - intros p w sigs p' w' Hrun Hp. unfold Profile.startCore in Hrun.
    apply bind_Done in Hrun as (c & _ & Hrun).
    apply bind_Done in Hrun as ([data w1] & _ & Hrun).
    apply bind_Done in Hrun as ([sigs1 w2] & _ & Hrun).
    injection Hrun as _ <- _. done.
Qed.



(** ** Renaming and removing *)

(** [QFile::rename] touches the two paths it is given only. *)
Lemma QFile_rename_files (from to : QString) (w : World) :
  (∀ q, q ≠ from → q ≠ to →
        files (QFile.rename from to w).2 !! q = files w !! q)
  ∧ settings (QFile.rename from to w).2 = settings w
  ∧ curLockName (QFile.rename from to w).2 = curLockName w
  ∧ (∀ content, files w !! from = Some content →
       if QFile.exists_ to w || negb (canRename from to)
       then files (QFile.rename from to w).2 = files w
       else files (QFile.rename from to w).2
            = <[to := content]> (delete from (files w))).
Proof.
  unfold QFile.rename. repeat split.
  - intros q Hfrom Hto. destruct (files w !! from) as [content|]; [|done].
    destruct (negb (QFile.exists_ to w) && canRename from to); [|done]. cbn.
    rewrite lookup_insert_ne by done. by rewrite lookup_delete_ne.
  - destruct (files w !! from); [|done]. by destruct (_ && _).
  - destruct (files w !! from); [|done]. by destruct (_ && _).
  - intros content ->.
    destruct (QFile.exists_ to w); cbn; [done|].
    by destruct (canRename from to).
Qed.

(** X24.  A [rename] that returns true has taken the lock for the new
    name, renamed the profile, made it the current profile and left the
    autorun setting as it found it; saving works under the new name.  The
    result says nothing about the files: with no database, the save file
    has moved to the new name if that name was free and the file could be
    renamed, and otherwise both files are what they were.  Such a rename
    started from a state in which no other instance held the lock of the
    new name, and this process held no lock, or held the one of the new
    name, or the locker hands over (the case of a loaded profile). *)
Theorem rename_success_state (newName : QString) (p p' : Profile_t)
    (w w' : World) :
  Profile.rename newName p w = (true, p', w') →
  let old := (settingsDir w +:+ Profile.name p) +:+ ".tox" in
  let new := (settingsDir w +:+ newName) +:+ ".tox" in
  Profile.name p' = newName
  ∧ curLockName w' = Some newName
  ∧ getCurrentProfile (settings w') = newName
  ∧ getAutorun (settings w') = getAutorun (settings w)
  ∧ getPaths (settings w') = getPaths (settings w)
  ∧ (Profile.isRemoved p = false →
     (Profile.encrypted p = true → is_Some (Profile.passkey p)) →
     ∀ data, ∃ b w'', Profile.saveToxSave data p' w' = Done (b, w''))
  ∧ (Profile.database p = None → ∀ blob, files w !! old = Some blob →
     if QFile.exists_ new w || negb (canRename old new)
     then files w' !! old = Some blob ∧ files w' !! new = files w !! new
     else files w' !! new = Some blob ∧ files w' !! old = None)
  ∧ (curLockName w = Some newName
     ∨ (newName ∉ foreignLocks w)
       ∧ (curLockName w = None ∨ handsOver = true)).
Proof.
  intros Hrun old new.
  destruct (rename_fields _ _ _ _ _ _ Hrun) as (Hk & He & Hr & _ & Hname).
  unfold Profile.rename in Hrun.
  destruct (lock_frame newName w)
    as (locked & w1 & Hlock & Hf1 & Hs1 & _ & _ & Hl1 & Hiff & _).
  rewrite Hlock in Hrun. destruct locked; [|done]. cbn [negb] in Hrun.
  fold old new in Hrun.
  set (oldi := (settingsDir w +:+ Profile.name p) +:+ ".ini") in *.
  set (newi := (settingsDir w +:+ newName) +:+ ".ini") in *.
  destruct (QFile_rename_files old new w1) as (Hfr2 & Hs2 & Hl2 & Hmv2).
  set (w2 := (QFile.rename old new w1).2) in *.
  destruct (QFile_rename_files oldi newi w2) as (Hfr3 & Hs3 & Hl3 & _).
  set (w3 := (QFile.rename oldi newi w2).2) in *.
  assert (Hini : ∀ a b, a +:+ ".tox" ≠ b +:+ ".ini").
  { intros a b Heq. by apply str_suffix_eq in Heq. }
  assert (Hstate : curLockName w' = Some newName
                   ∧ getCurrentProfile (settings w') = newName
                   ∧ getAutorun (settings w') = getAutorun (settings w)
                   ∧ getPaths (settings w') = getPaths (settings w)
                   ∧ (Profile.database p = None → files w' = files w3)).
  { destruct (Profile.database p) as [db|].
    - destruct (db_rename newName db (files w3)) as [db' fs].
      cbn in Hrun.
      destruct (getAutorun (settings w3)) eqn:Hauto;
        injection Hrun as _ <-; cbn;
        rewrite ?Hl3, ?Hl2, ?Hl1, ?Hs3, ?Hs2, ?Hs1;
        rewrite Hs3, Hs2, Hs1 in Hauto; rewrite ?Hauto; repeat split; done.
    - cbn in Hrun.
      destruct (getAutorun (settings w3)) eqn:Hauto;
        injection Hrun as _ <-; cbn;
        rewrite ?Hl3, ?Hl2, ?Hl1, ?Hs3, ?Hs2, ?Hs1;
        rewrite Hs3, Hs2, Hs1 in Hauto; rewrite ?Hauto; repeat split; done. }
  destruct Hstate as (Hlk & Hcur & Hauto & Hpaths & Hfiles).
  split; [done|]. split; [done|]. split; [done|]. split; [done|].
  split; [done|]. split; [|split; [|by apply Hiff]].
  - intros Hlive Hkeyed data. apply saveToxSave_returns.
    + by rewrite Hr.
    + by rewrite Hlk, Hname.
    + by rewrite He, Hk.
  - intros Hdb blob Hblob. rewrite (Hfiles Hdb).
    rewrite !Hfr3 by (unfold old, new, oldi, newi; apply Hini).
    assert (Hblob1 : files w1 !! old = Some blob) by (by rewrite Hf1).
    specialize (Hmv2 blob Hblob1).
    assert (Hex : QFile.exists_ new w1 = QFile.exists_ new w).
    { unfold QFile.exists_. by rewrite Hf1. }
    rewrite Hex in Hmv2.
    destruct (QFile.exists_ new w || negb (canRename old new)) eqn:Hcase.
    + rewrite Hmv2, Hf1. done.
    + rewrite Hmv2. apply orb_false_iff in Hcase as [Hfree _].
      unfold QFile.exists_ in Hfree. apply bool_decide_eq_false in Hfree.
      assert (Hdiff : new ≠ old).
      { intros Heq. apply Hfree. rewrite Heq. eauto. }
      split; [apply lookup_insert_eq|].
      rewrite lookup_insert_ne by done. apply lookup_delete_eq.
Qed.

(** What one removal attempt of [remove] does to the files. *)
Lemma remove_attempt_files (path : QString) (ret : list QString) (w : World) :
  ∃ ret' w'',
    (let '(removed, w') := QFile.remove path w in
     if negb removed && QFile.exists_ path w'
     then ((ret ++ [path])%list, emit (Log "Could not remove file") w')
     else (ret, w'))
    = (ret', w'')
    ∧ files w'' = (if canRemove path then delete path (files w) else files w)
    ∧ settings w'' = settings w
    ∧ curLockName w'' = curLockName w
    ∧ foreignLocks w'' = foreignLocks w.
Proof.
  unfold QFile.remove.
  destruct (QFile.exists_ path w) eqn:Hex; cbn.
  - destruct (canRemove path); cbn.
    + eexists _, _. by split.
    + change (QFile.exists_ path (emit (EvFileRemove path false) w))
        with (QFile.exists_ path w).
      rewrite Hex. eexists _, _. by split.
  - change (QFile.exists_ path (emit (EvFileRemove path false) w))
      with (QFile.exists_ path w).
    rewrite Hex. eexists _, _. split; [done|]. cbn. repeat split.
    unfold QFile.exists_ in Hex. apply bool_decide_eq_false in Hex.
    destruct (canRemove path); [|done]. symmetry. apply delete_id.
    destruct (files w !! path) eqn:Hl; [|done]. exfalso. eauto.
Qed.

(** X25.  After [remove], the profile is spent and the name is free: the
    profile is marked removed, has neither database nor history, [save] on
    it does nothing and its history counts as disabled; with the database
    absent or closed, the files are those from before without the save
    file and the settings file (each if it could be removed); and if the
    save file could be removed, a new profile of the same name can be
    created unless another instance holds the lock for it. *)
Theorem remove_aftermath (p p1 : Profile_t) (w w1 : World) (ret : list QString) :
  Profile.isRemoved p = false →
  Profile.remove p w = (p1, ret, w1) →
  let tox := (settingsDir w +:+ Profile.name p) +:+ ".tox" in
  let ini := (settingsDir w +:+ Profile.name p) +:+ ".ini" in
  Profile.isRemoved p1 = true
  ∧ Profile.database p1 = None
  ∧ Profile.save p1 w1 = Done w1
  ∧ Profile.isHistoryEnabled p1 w1 = false
  ∧ ((∀ db, Profile.database p = Some db → db_isOpen db = false) →
     files w1
     = (if canRemove ini then delete ini else id)
         ((if canRemove tox then delete tox else id) (files w))
     ∧ (canRemove tox = true →
        Profile.exists_ (Profile.name p) w1 = false
        ∧ (Profile.name p ∉ foreignLocks w →
           ∃ w2, Profile.createToxData (Profile.name p) "" tox w1
                 = (None, CreateToxDataError.OK, w2)))).
Proof.
  intros Hlive Hrun tox ini.
  destruct (remove_fields _ _ _ _ _ Hrun) as (_ & _ & Hrem & _ & _ & Hrest).
  destruct (Hrest Hlive) as (Hnodb & Hnohist & Hunlocked).
  split; [done|]. split; [done|].
  split; [unfold Profile.save; by rewrite Hrem|].
  split; [unfold Profile.isHistoryEnabled; rewrite Hnohist; apply andb_false_r|].
  intros Hclosed.
  unfold Profile.remove in Hrun. rewrite Hlive in Hrun.
  cbn [Profile.set_isRemoved Profile.name Profile.database] in Hrun.
  set (w0 := ProfileLocker.unlock _) in Hrun.
  change (settingsDir (set_profiles _ w)) with (settingsDir w) in Hrun.
  fold tox ini in Hrun.
  destruct (remove_attempt_files tox [] w0)
    as (ret1 & wa & Hstep1 & Hfa & Hsa & Hla & Hfla).
  destruct (QFile.remove tox w0) as [removed1 wa'] eqn:Hrm1.
  rewrite Hstep1 in Hrun. clear Hstep1 Hrm1 removed1 wa'.
  destruct (remove_attempt_files ini ret1 wa)
    as (ret2 & wb & Hstep2 & Hfb & Hsb & Hlb & Hflb).
  destruct (QFile.remove ini wa) as [removed2 wb'] eqn:Hrm2.
  rewrite Hstep2 in Hrun. clear Hstep2 Hrm2 removed2 wb'.
  assert (Hw1 : files w1 = files wb ∧ settings w1 = settings wb
                ∧ foreignLocks w1 = foreignLocks wb).
  { destruct (Profile.database p) as [db|] eqn:Hdb.
    - rewrite (Hclosed db eq_refl) in Hrun. by injection Hrun as _ _ <-.
    - by injection Hrun as _ _ <-. }
  destruct Hw1 as (Hf1 & Hs1 & Hfl1).
  assert (Hfiles : files w1
    = (if canRemove ini then delete ini else id)
        ((if canRemove tox then delete tox else id) (files w))).
  { rewrite Hf1, Hfb, Hfa. subst w0. cbn.
    by destruct (canRemove ini), (canRemove tox). }
  split; [done|].
  intros Hrmtox.
  assert (Hgone : files w1 !! tox = None).
  { rewrite Hfiles, Hrmtox.
    destruct (canRemove ini); cbn.
    - rewrite lookup_delete_ne; [apply lookup_delete_eq|].
      intros Heq. by apply str_suffix_eq in Heq.
    - apply lookup_delete_eq. }
  assert (Hdir : settingsDir w1 = settingsDir w).
  { unfold settingsDir. rewrite Hs1, Hsb, Hsa. by subst w0. }
  assert (Hex : QFile.exists_ tox w1 = false).
  { unfold QFile.exists_. rewrite Hgone. apply bool_decide_eq_false_2.
    by intros [? ?]. }
  split.
  - unfold Profile.exists_. rewrite Hdir. done.
  - intros Hfree. unfold Profile.createToxData. cbn.
    unfold ProfileLocker.hasLock, ProfileLocker.lock.
    rewrite Hunlocked, Hex, Hfl1, Hflb, Hfla. subst w0. cbn.
    rewrite bool_decide_eq_false_2 by done. cbn. eauto.
Qed.

(** ** Listing profiles and logging in automatically *)

Lemma scanProfiles_spec (toxFiles iniFiles : list QString) (w : World) :
  profiles (Profile.scanProfiles toxFiles iniFiles w) = (profiles w ++ toxFiles)%list
  ∧ trace (Profile.scanProfiles toxFiles iniFiles w)
    = (trace w ++ map EvCreatePersonal
                    (filter (λ f, f ∉ iniFiles) toxFiles))%list
  ∧ settings (Profile.scanProfiles toxFiles iniFiles w) = settings w
  ∧ curLockName (Profile.scanProfiles toxFiles iniFiles w) = curLockName w
  ∧ ((∀ f, f ∈ toxFiles → f ∈ iniFiles) →
     files (Profile.scanProfiles toxFiles iniFiles w) = files w).
Proof.
  revert w. induction toxFiles as [|f rest IH]; intros w.
  - cbn. by rewrite !app_nil_r.
  - cbn [Profile.scanProfiles]. rewrite filter_cons.
    case_bool_decide as Hin; cbn [negb].
    + rewrite decide_False by (by intros ?).
      destruct (IH (set_profiles (profiles w ++ [f])%list w))
        as (Hp & Ht & Hs & Hl & Hf).
      rewrite Hp, Ht, Hs, Hl. cbn. rewrite <- !app_assoc.
      repeat split; try done.
      intros Hall. rewrite Hf; [done|].
      intros g Hg. apply Hall. by apply list_elem_of_further.
    + rewrite decide_True by done.
      match goal with |- context [Profile.scanProfiles rest iniFiles ?ww] =>
        destruct (IH ww) as (Hp & Ht & Hs & Hl & Hf) end.
      rewrite Hp, Ht, Hs, Hl. cbn. rewrite <- !app_assoc.
      repeat split; try done.
      intros Hall. exfalso. apply Hin, Hall, list_elem_of_here.
Qed.

Lemma completeBaseName_ext (name ext : QString) :
  hasDot ext = false → completeBaseName (name +:+ "." +:+ ext) = name.
Proof.
  intros Hext. induction name as [|c name IH].
  - change (completeBaseName (String "." ext) = ""). cbn. by rewrite Hext.
  - change (completeBaseName (String c (name +:+ "." +:+ ext)) = String c name).
    cbn [completeBaseName].
    assert (Hdot : hasDot (name +:+ "." +:+ ext) = true).
    { clear IH. induction name as [|d name IHn]; [done|].
      change (hasDot (String d (name +:+ "." +:+ ext)) = true).
      cbn [hasDot]. rewrite IHn. apply orb_true_r. }
    by rewrite Hdot, IH.
Qed.

(** X26.  [getAllProfileNames] forgets the old list of profiles and
    returns the names of the tox files of the settings directory, in the
    order of the directory listing; a file [name.tox] is listed as [name],
    dots inside the name included.  Settings are created for exactly the
    names that have no ini file, and when every name has one no file is
    touched. *)
Theorem getAllProfileNames_lists_tox_files (w : World) :
  let toxFiles := Profile.getFilesByExt "tox" w in
  let iniFiles := Profile.getFilesByExt "ini" w in
  (Profile.getAllProfileNames w).1 = toxFiles
  ∧ profiles (Profile.getAllProfileNames w).2 = toxFiles
  ∧ trace (Profile.getAllProfileNames w).2
    = (trace w ++ map EvCreatePersonal
                    (filter (λ f, f ∉ iniFiles) toxFiles))%list
  ∧ ((∀ f, f ∈ toxFiles → f ∈ iniFiles) →
     files (Profile.getAllProfileNames w).2 = files w)
  ∧ (∀ name, (name +:+ ".tox") ∈ entryInfoList (settingsDir w) "tox" (files w) →
             name ∈ toxFiles).
Proof.
  intros toxFiles iniFiles. unfold Profile.getAllProfileNames. cbn [fst snd].
  change (Profile.getFilesByExt "tox" (set_profiles [] w)) with toxFiles.
  change (Profile.getFilesByExt "ini" (set_profiles [] w)) with iniFiles.
  destruct (scanProfiles_spec toxFiles iniFiles (set_profiles [] w))
    as (Hp & Ht & _ & _ & Hf).
  rewrite Hp, Ht. repeat split; try done.
  intros name Hin. unfold toxFiles, Profile.getFilesByExt.
  apply list_elem_of_fmap. exists (name +:+ ".tox"). split; [|done].
  symmetry. by apply (completeBaseName_ext name "tox").
Qed.

Lemma repeat_lookup_lt {A} (x : A) (n i : nat) :
  (i < n)%nat → repeat x n !! i = Some x.
Proof.
  revert i. induction n as [|n IH]; intros [|i] Hi; cbn; try lia; [done|].
  apply IH. lia.
Qed.

(** X27.  The check of the file on disk looks at a buffer of
    TOX_PASS_ENCRYPTION_EXTRA_LENGTH bytes that holds the beginning of the
    file and zeros after it when the file is shorter.  It changes nothing
    but the log, and a save file that is missing or cannot be opened
    counts as not encrypted. *)
Theorem isEncrypted_onDisk_header (name : QString) (w : World) :
  let path := settingsDir w +:+ name +:+ ".tox" in
  quiet_step w (Profile.isEncrypted_onDisk name w).2
  ∧ (files w !! path = None ∨ canOpenRead path = false →
     (Profile.isEncrypted_onDisk name w).1 = false)
  ∧ (∀ blob, files w !! path = Some blob → canOpenRead path = true →
     ∃ header,
       (Profile.isEncrypted_onDisk name w).1 = tox_is_data_encrypted header
       ∧ length header = TOX_PASS_ENCRYPTION_EXTRA_LENGTH
       ∧ (∀ (i : nat) b, blob !! i = Some b →
            (i < TOX_PASS_ENCRYPTION_EXTRA_LENGTH)%nat → header !! i = Some b)
       ∧ (∀ i : nat, (length blob ≤ i)%nat →
            (i < TOX_PASS_ENCRYPTION_EXTRA_LENGTH)%nat →
            header !! i = Some Byte.x00)).
Proof.
  intros path. unfold Profile.isEncrypted_onDisk, QFile.openRead. fold path.
  split; [|split].
  - destruct (canOpenRead path); [|done]. by destruct (files w !! path).
  - intros [Hnone| ->]; [|done]. rewrite Hnone. by destruct (canOpenRead path).
  - intros blob -> ->. eexists. split; [reflexivity|].
    set (n := TOX_PASS_ENCRYPTION_EXTRA_LENGTH). split; [|split].
    + rewrite length_take, length_app, repeat_length. lia.
    + intros i b Hb Hi. rewrite lookup_take_lt by done.
      by apply lookup_app_l_Some.
    + intros i Hge Hi. rewrite lookup_take_lt by done.
      rewrite lookup_app_r by done.
      apply repeat_lookup_lt. lia.
Qed.

(** A profile loaded with the empty password is a plain one. *)
Lemma loadProfile_empty_password (name : QString) (w w' : World) (p : Profile_t) :
  Profile.loadProfile name "" w = Done (Some p, w') →
  Profile.name p = name ∧ Profile.encrypted p = false ∧ Profile.passkey p = None
  ∧ curLockName w' = Some name
  ∧ ∃ blob : QByteArray,
      files w !! (settingsDir w +:+ name +:+ ".tox") = Some blob
      ∧ blob ≠ [] ∧ isEncryptedData blob = false.
Proof.
  unfold Profile.loadProfile. intros Hrun.
  destruct (ProfileLocker.hasLock w) eqn:Hfree; [done|].
  destruct (lock_frame name w) as (locked & wl & Hlock & Hf & Hs & Hfo & Hp & Hl & _).
  rewrite Hlock in Hrun. destruct locked; cbn [negb] in Hrun; [|done].
  replace (settingsDir wl) with (settingsDir w) in Hrun
    by (unfold settingsDir; by rewrite Hs).
  destruct (Profile.loadToxData _ _ _ wl) as [[key toxSave] error] eqn:Hload.
  destruct error; cbn in Hrun; try done.
  apply loadToxData_OK_inv in Hload as (blob & Hblob & _ & Hne & _ & Hkey).
  rewrite Hf in Hblob.
  apply bind_Done in Hrun as ([p1 w1] & Hinit & Hrun).
  apply bind_Done in Hrun as ([p2 w2] & Hdb & Hrun).
  injection Hrun as <- <-.
  apply initCore_frame in Hinit as (Hn1 & Hk1 & He1 & Hr1 & _ & _ & Hl1 & _ & _).
  apply loadDatabase_frame
    in Hdb as (Hcore & Hn2 & Hk2 & He2 & Hr2 & Hc2 & _ & Hl2 & _ & Hdb2 & _).
  cbn in Hn1, Hk1, He1, Hr1, Hl1.
  destruct key as [k|]; [by destruct Hkey as (_ & ? & _)|].
  destruct Hkey as [Hplain _].
  rewrite Hn2, Hn1, He2, He1, Hk2, Hk1, Hl2, Hl1. repeat split; try done.
  by exists blob.
Qed.

(** X28.  The automatic login of [AppManager::run] goes on with a profile
    only if automatic login was chosen, and then with a plain one: loaded
    under the chosen name with the empty password from a save file that
    neither the check on disk nor the loader took for encrypted, without a
    key, and with the lock held.  The message box is shown only after an
    attempt to load, which is made only for an existing save file that the
    check on disk did not take for encrypted. *)
Theorem autoLoginStep_outcome (c : AppManager.Choice) (w w' : World)
    (next : AppManager.Next) (shown : bool) :
  AppManager.autoLoginStep c w = Done (next, shown, w') →
  let n := AppManager.profileName c in
  match next with
  | AppManager.bootstrapWithProfile p =>
      shown = false
      ∧ AppManager.autoLogin c = true
      ∧ (Profile.isEncrypted_onDisk n w).1 = false
      ∧ Profile.name p = n ∧ Profile.encrypted p = false
      ∧ Profile.passkey p = None
      ∧ curLockName w' = Some n
      ∧ ∃ blob : QByteArray,
          files w !! (settingsDir w +:+ n +:+ ".tox") = Some blob
          ∧ blob ≠ [] ∧ isEncryptedData blob = false
  | AppManager.showLogin name =>
      name = n
      ∧ (shown = true →
         AppManager.autoLogin c = true ∧ Profile.exists_ n w = true
         ∧ (Profile.isEncrypted_onDisk n w).1 = false)
      ∧ (AppManager.autoLogin c = false → w' = w)
  end.
Proof.
  intros Hrun n. unfold AppManager.autoLoginStep in Hrun. fold n in Hrun.
  destruct (AppManager.autoLogin c) eqn:Hauto; cbn [andb] in Hrun.
  2:{ by injection Hrun as <- <- <-. }
  destruct (Profile.exists_ n w) eqn:Hex.
  2:{ by injection Hrun as <- <- <-. }
  assert (Hq : quiet_step w (Profile.isEncrypted_onDisk n w).2).
  { unfold Profile.isEncrypted_onDisk.
    by destruct (QFile.openRead _ w). }
  destruct (Profile.isEncrypted_onDisk n w) as [enc w1] eqn:Hdisk.
  cbn [fst snd] in *.
  destruct enc; cbn [negb] in Hrun.
  { by injection Hrun as <- <- <-. }
  apply bind_Done in Hrun as ([[p|] w2] & Hload & Hrun).
  - injection Hrun as <- <- <-.
    destruct (loadProfile_empty_password _ _ _ _ Hload)
      as (Hname & Henc & Hkey & Hlock & blob & Hblob & Hne & Hplain).
    repeat split; try done.
    exists blob. destruct Hq as (Hf & _ & _ & _ & Hs).
    unfold settingsDir in *. rewrite Hs, Hf in Hblob. done.
  - by injection Hrun as <- <- <-.
Qed.

(** [profileStage] spelt out over the choice it starts with. *)
Lemma profileStage_unfold (parser : AppManager.Parser) (getAutoLogin : bool)
    (ipc : AppManager.IPC) (verifyProxySettings : bool)
    (eventHandlerKey : QString) (w : World) :
  let c := (AppManager.chooseProfile parser getAutoLogin
              (AppManager.isAttached ipc) w).1 in
  let w1 := (AppManager.chooseProfile parser getAutoLogin
               (AppManager.isAttached ipc) w).2 in
  AppManager.profileStage parser getAutoLogin ipc verifyProxySettings
    eventHandlerKey w
  = match AppManager.eventTypeOf eventHandlerKey
            (AppManager.positionalArguments parser) with
    | None => Done (AppManager.Return AppManager.EXIT_FAILURE,
                    emit (Log "Invalid argument") w1)
    | Some (eventType, firstParam) =>
        if AppManager.doIpc c && negb (AppManager.isCurrentOwner ipc)
           && AppManager.waitUntilAccepted ipc eventType firstParam
                (AppManager.ipcDest c)
        then Done (AppManager.Return AppManager.EXIT_SUCCESS,
                   emit (Log (if bool_decide (eventType = "activate")
                              then AppManager.anotherInstance
                              else "Event was handled by other client.")) w1)
        else if verifyProxySettings
             then AppManager.autoLoginStep c w1
                  ≫= λ '(next, shown, w'), Done (AppManager.GoOn next shown, w')
             else Done (AppManager.Return (-1)%Z, w1)
    end.
Proof.
  intros c w1. unfold AppManager.profileStage. subst c w1.
  destruct (AppManager.chooseProfile _ _ _ w) as [c w1]. cbn [fst snd].
  destruct (AppManager.eventTypeOf _ _) as [[eventType firstParam]|]; [|done].
  destruct (AppManager.doIpc c && negb (AppManager.isCurrentOwner ipc)); cbn.
  - destruct (AppManager.waitUntilAccepted _ _ _ _).
    + by case_bool_decide.
    + by destruct verifyProxySettings.
  - by destruct verifyProxySettings.
Qed.

(** X29.  [run] from the options to the autologin step.  The choice of
    the profile changes nothing but the log.  With [-p], automatic login
    is chosen exactly when the named profile exists, whatever the
    auto-login setting says; with [-p] on a missing profile, and with [-l]
    and no [-p], IPC is switched off, so that no event is posted: [run]
    then returns EXIT_FAILURE on an invalid positional argument, returns
    -1 when the proxy settings do not verify, and otherwise brings up the
    login screen (for that name, for the empty name) with no attempt to
    load and no message box.  With neither option, the current profile of
    the settings, the auto-login setting and the IPC attachment are taken
    as they are.  In every case [run] reaches the autologin step only
    with a valid positional argument, verified proxy settings and no other
    instance that accepted the event; it then goes on as the autologin
    step on the chosen profile does; and it returns EXIT_SUCCESS exactly
    when another instance accepted the event. *)
Theorem chooseProfile_then_autoLogin (parser : AppManager.Parser)
    (getAutoLogin : bool) (ipc : AppManager.IPC) (verifyProxySettings : bool)
    (eventHandlerKey : QString) (w : World) :
  let c := (AppManager.chooseProfile parser getAutoLogin
              (AppManager.isAttached ipc) w).1 in
  let w1 := (AppManager.chooseProfile parser getAutoLogin
               (AppManager.isAttached ipc) w).2 in
  let event := AppManager.eventTypeOf eventHandlerKey
                 (AppManager.positionalArguments parser) in
  let handled :=
    match event with
    | Some (eventType, firstParam) =>
        AppManager.doIpc c && negb (AppManager.isCurrentOwner ipc)
        && AppManager.waitUntilAccepted ipc eventType firstParam
             (AppManager.ipcDest c)
    | None => false
    end in
  let run := AppManager.profileStage parser getAutoLogin ipc
               verifyProxySettings eventHandlerKey w in
  let loginScreen name :=
    AppManager.doIpc c = false
    ∧ AppManager.autoLoginStep c w1 = Done (AppManager.showLogin name, false, w1)
    ∧ run = Done
              (if bool_decide (event = None)
               then (AppManager.Return AppManager.EXIT_FAILURE,
                     emit (Log "Invalid argument") w1)
               else if verifyProxySettings
                    then (AppManager.GoOn (AppManager.showLogin name) false, w1)
                    else (AppManager.Return (-1)%Z, w1)) in
  quiet_step w w1
  ∧ match AppManager.value_p parser with
    | Some name =>
        AppManager.profileName c = name
        ∧ AppManager.autoLogin c = Profile.exists_ name w
        ∧ (Profile.exists_ name w = false → loginScreen name)
    | None =>
        if AppManager.isSet_l parser
        then loginScreen ""
        else AppManager.profileName c = getCurrentProfile (settings w)
             ∧ AppManager.autoLogin c = getAutoLogin
             ∧ AppManager.doIpc c = AppManager.isAttached ipc
    end
  ∧ (event = None →
     run = Done (AppManager.Return AppManager.EXIT_FAILURE,
                 emit (Log "Invalid argument") w1))
  ∧ (handled = true →
     ∃ message, run = Done (AppManager.Return AppManager.EXIT_SUCCESS,
                            emit (Log message) w1))
  ∧ (is_Some event → handled = false → verifyProxySettings = false →
     run = Done (AppManager.Return (-1)%Z, w1))
  ∧ (is_Some event → handled = false → verifyProxySettings = true →
     run = (AppManager.autoLoginStep c w1
            ≫= λ '(next, shown, w'), Done (AppManager.GoOn next shown, w')))
  ∧ (∀ next shown w',
       run = Done (AppManager.GoOn next shown, w') →
       is_Some event ∧ handled = false ∧ verifyProxySettings = true
       ∧ AppManager.autoLoginStep c w1 = Done (next, shown, w'))
  ∧ (∀ w', run = Done (AppManager.Return AppManager.EXIT_SUCCESS, w') →
       handled = true).
Proof.
  intros c w1 event handled run loginScreen.
  assert (Hchoice : quiet_step w w1
    ∧ match AppManager.value_p parser with
      | Some name =>
          AppManager.profileName c = name
          ∧ AppManager.autoLogin c = Profile.exists_ name w
          ∧ (Profile.exists_ name w = false →
             AppManager.doIpc c = false
             ∧ AppManager.autoLoginStep c w1
               = Done (AppManager.showLogin name, false, w1))
      | None =>
          if AppManager.isSet_l parser
          then AppManager.doIpc c = false
               ∧ AppManager.autoLoginStep c w1
                 = Done (AppManager.showLogin "", false, w1)
          else AppManager.profileName c = getCurrentProfile (settings w)
               ∧ AppManager.autoLogin c = getAutoLogin
               ∧ AppManager.doIpc c = AppManager.isAttached ipc
      end).
  { unfold c, w1, AppManager.chooseProfile.
    destruct (AppManager.value_p parser) as [name|].
    - destruct (Profile.exists_ name w) eqn:Hex; cbn; repeat split; done.
    - destruct (AppManager.isSet_l parser); cbn; repeat split; done. }
  assert (Hrun := profileStage_unfold parser getAutoLogin ipc
                    verifyProxySettings eventHandlerKey w).
  cbv zeta in Hrun. fold c w1 event run in Hrun.
  assert (Hlogin : ∀ name,
            AppManager.doIpc c = false →
            AppManager.autoLoginStep c w1
            = Done (AppManager.showLogin name, false, w1) →
            loginScreen name).
  { intros name Hipc Hstep. unfold loginScreen.
    split; [done|]. split; [done|]. rewrite Hrun.
    destruct event as [[eventType firstParam]|]; cbn; [|done].
    rewrite Hipc, Hstep. cbn. by destruct verifyProxySettings. }
  destruct Hchoice as [Hquiet Hchoice].
  split; [exact Hquiet|]. split.
  { destruct (AppManager.value_p parser) as [name|].
    - destruct Hchoice as (Hn & Ha & Hmiss). split; [done|]. split; [done|].
      intros Hex. destruct (Hmiss Hex). by apply Hlogin.
    - destruct (AppManager.isSet_l parser); [|done].
      destruct Hchoice. by apply Hlogin. }
  subst handled. rewrite Hrun.
  destruct event as [[eventType firstParam]|].
  - set (h := _ && _ && _). destruct h.
    + repeat split; try done; eauto.
    + destruct verifyProxySettings; repeat split; try done.
      * match goal with Hgo : _ ≫= _ = Done _ |- _ => rename Hgo into Hgo' end.
        destruct (AppManager.autoLoginStep c w1) as [?|[[n s] w2]]; [done|].
        cbn in Hgo'. by simplify_eq.
      * intros w' Hr.
        destruct (AppManager.autoLoginStep c w1) as [?|[[n s] w2]]; done.
  - repeat split; try done; intros Hsome; by destruct Hsome.
Qed.

(** X30.  After [loadDatabase] on a live profile the history is enabled
    exactly when logging is switched on in the settings and the database
    has opened; a friend request sent then is written to the history, once,
    as a delivered message from ourselves, and otherwise nothing is
    written. *)
Theorem history_after_loadDatabase (password : QString) (p p' : Profile_t)
    (w w' : World) (c : Core) (friendPk : ToxPk) (message : QString) (now : N) :
  Profile.loadDatabase password p w = Done (p', w') →
  Profile.isRemoved p = false →
  Profile.history p = false →
  Profile.core p = Some c →
  ∃ db, Profile.database p' = Some db
        ∧ Profile.isHistoryEnabled p' w'
          = getEnableLogging (settings w) && db_isOpen db
        ∧ Profile.onRequestSent friendPk message now p' w'
          = Done (if getEnableLogging (settings w) && db_isOpen db
                  then [HistoryAddNewMessage friendPk (Profile.inviteStr message)
                          (getSelfPublicKey c) now true (getUsername c)]
                  else []).
Proof.
  intros Hrun Hlive Hhist Hcore. unfold Profile.loadDatabase in Hrun.
  rewrite Hcore, Hlive in Hrun. cbn in Hrun.
  unfold Profile.onRequestSent, Profile.isHistoryEnabled.
  destruct (negb (length (getByteArray (getSelfPublicKey c))
                  =? TOX_PASS_SALT_LENGTH)%nat);
    destruct (RawDatabase_new _ _ _ _) as [db fs];
    exists db;
    (destruct (db_isOpen db) eqn:Hopen; injection Hrun as <- <-; cbn;
     [ rewrite andb_true_r;
       destruct (getEnableLogging (settings w)); cbn; by rewrite ?Hcore
     | rewrite Hhist, !andb_false_r; done ]).
Qed.
End Properties.

(** * The operations on concrete inputs *)

Import Demo.

(** C3.  Removing the password of a loaded, encrypted profile clears the
    [encrypted] flag and keeps the key: afterwards the profile is marked
    unencrypted while [getPasskey] still returns key material. *)
Theorem setPassword_empty_leaves_key :
  ∃ p w1 err p' w2,
    Profile.loadProfile "alice" "pw" w0 = Done (Some p, w1)
    ∧ Profile.encrypted p = true ∧ Profile.getPasskey p = Some "pw"
    ∧ Profile.setPassword "" p w1 = Done (err, p', w2)
    ∧ Profile.isEncrypted p' = false ∧ Profile.getPasskey p' = Some "pw".
Proof.
  do 5 eexists.
  split; [vm_compute; reflexivity|].
  do 2 (split; [reflexivity|]).
  split; [vm_compute; reflexivity|].
  split; reflexivity.
Qed.

(** C4.  Loading a profile whose core rejects the proxy: [initCore] emits
    badProxy and returns, and [loadProfile] then stops at the assertion of
    [loadDatabase]; it does not return a null profile. *)
Theorem loadProfile_core_failure_aborts :
  Profile.initCore (bytes "Pxx") false (Profile.Profile "pat" None : T) w0
  = Done (Profile.Profile "pat" None, emit SigBadProxy w0)
  ∧ Profile.loadProfile "pat" "" w0 = Fatal "assert(core)"
  ∧ ∀ w', Profile.loadProfile "pat" "" w0 ≠ Done (None, w').
Proof.
  split; [reflexivity|].
  assert (Hrun : Profile.loadProfile "pat" "" w0 = Fatal "assert(core)")
    by (vm_compute; reflexivity).
  split; [exact Hrun|]. intros w'. rewrite Hrun. discriminate.
Qed.


(** Loading at work: a load under a held lock, a load of bob, whose lock
    another instance holds, and loads of the encrypted profile alice with no
    password, with a password no key can be derived from, and with the wrong
    password. *)
Lemma loadProfile_failure_modes_witness :
  (∃ w', Profile.loadProfile (ToxEncrypt:=QString) (Core:=Core) (RawDatabase:=Db)
           "alice" "pw" (world disk (Some "carol")) = Done (None, w')
         ∧ files w' = disk)
  ∧ (∃ w', Profile.loadProfile (ToxEncrypt:=QString) (Core:=Core) (RawDatabase:=Db)
             "bob" "" w0 = Done (None, w')
           ∧ files w' = disk)
  ∧ (∃ w', Profile.loadProfile (ToxEncrypt:=QString) (Core:=Core) (RawDatabase:=Db)
             "alice" "" w0 = Done (None, w')
           ∧ trace w' = [EvLock "alice" true;
                         LogLoadError LoadToxDataError.ENCRYPTED_NO_PASSWORD "/cfg/alice.tox";
                         EvUnlock]
           ∧ curLockName w' = None)
  ∧ (∃ w', Profile.loadProfile (ToxEncrypt:=QString) (Core:=Core) (RawDatabase:=Db)
             "alice" "weak" w0 = Done (None, w')
           ∧ trace w' = [EvLock "alice" true;
                         LogLoadError LoadToxDataError.COULD_NOT_DERIVE_KEY "/cfg/alice.tox";
                         EvUnlock]
           ∧ curLockName w' = None)
  ∧ (∃ w', Profile.loadProfile (ToxEncrypt:=QString) (Core:=Core) (RawDatabase:=Db)
             "alice" "wrong" w0 = Done (None, w')
           ∧ trace w' = [EvLock "alice" true;
                         LogLoadError LoadToxDataError.DECRYPTION_FAILED "/cfg/alice.tox";
                         EvUnlock]
           ∧ curLockName w' = None).
Proof.
  assert (Hfree : "alice" ∉ foreignLocks w0).
  { intros Hin. change ("alice" ∈ ({["bob"]} : gset string)) in Hin.
    apply elem_of_singleton in Hin. discriminate Hin. }
  assert (Hblob : files w0 !! "/cfg/alice.tox" = Some (bytes "Ehello"))
    by (vm_compute; reflexivity).
  assert (Hne : bytes "Ehello" ≠ []) by discriminate.
  split; [|split; [|split; [|split]]].
  - destruct (loadProfile_failure_modes (ToxEncrypt:=QString) (Core:=Core)
                (RawDatabase:=Db) "alice" "pw" (world disk (Some "carol")))
      as [Hheld _].
    destruct (Hheld eq_refl) as (w' & Hrun & Hfiles & _). eauto.
  - destruct (loadProfile_failure_modes (ToxEncrypt:=QString) (Core:=Core)
                (RawDatabase:=Db) "bob" "" w0) as (_ & Hforeign & _).
    destruct (Hforeign eq_refl) as (w' & Hrun & Hfiles & _); [|by eauto].
    change ("bob" ∈ ({["bob"]} : gset string)). by apply elem_of_singleton.
  - destruct (loadProfile_failure_modes (ToxEncrypt:=QString) (Core:=Core)
                (RawDatabase:=Db) "alice" "" w0) as (_ & _ & Hblobs).
    destruct (Hblobs eq_refl Hfree _ Hblob eq_refl Hne eq_refl) as (Hcase & _ & _).
    destruct (Hcase eq_refl) as (_ & w' & Hrun & Htrace & Hlock & _). eauto.
  - destruct (loadProfile_failure_modes (ToxEncrypt:=QString) (Core:=Core)
                (RawDatabase:=Db) "alice" "weak" w0) as (_ & _ & Hblobs).
    destruct (Hblobs eq_refl Hfree _ Hblob eq_refl Hne eq_refl) as (_ & Hcase & _).
    destruct (Hcase eq_refl eq_refl) as (_ & w' & Hrun & Htrace & Hlock & _). eauto.
  - destruct (loadProfile_failure_modes (ToxEncrypt:=QString) (Core:=Core)
                (RawDatabase:=Db) "alice" "wrong" w0) as (_ & _ & Hblobs).
    destruct (Hblobs eq_refl Hfree _ Hblob eq_refl Hne eq_refl) as (_ & _ & Hcase).
    destruct (Hcase "wrong" eq_refl eq_refl eq_refl)
      as (_ & w' & Hrun & Htrace & Hlock & _). eauto.
Defined.

(** Saving at work: a key that fails to encrypt leaves the disk as it
    was. *)
Lemma saveToxSave_atomic_witness :
  ∃ w', Profile.saveToxSave (bytes "state") (loaded "alice" (Some "mute"))
          (world disk (Some "alice")) = Done (false, w')
        ∧ files w' = disk.
Proof.
  destruct (saveToxSave_atomic (bytes "state") (loaded "alice" (Some "mute"))
              (world disk (Some "alice")) eq_refl eq_refl
              (λ _, ex_intro _ "mute" eq_refl))
    as (b & w' & evs & Hrun & _ & _ & _ & Hfail & _).
  destruct (Hfail eq_refl) as [-> Hfiles]. eauto.
Defined.

(** Removing at work: the write-protected save file of ro is reported, its
    settings file is deleted, and a second call reports nothing. *)
Lemma remove_idempotent_witness :
  ∃ p1 w1 w2,
    Profile.remove (loaded "ro" None) (world disk (Some "ro")) = (p1, ["/cfg/ro.tox"], w1)
    ∧ files w1 !! "/cfg/ro.tox" = Some (bytes "plain")
    ∧ files w1 !! "/cfg/ro.ini" = None
    ∧ Profile.remove p1 w1 = (p1, [], w2)
    ∧ files w2 = files w1.
Proof.
  destruct (remove_idempotent (loaded "ro" None) (world disk (Some "ro")))
    as [_ Hlive].
  destruct (Hlive eq_refl)
    as (p1 & ret & w1 & evs & dbret & dbevs & Hrun & _ & _ & _ & _ & _ & _ & _ & _
        & _ & Hret & (Hf & _ & Hdbret) & _ & w2 & Hagain & _ & Hfiles & _).
  exists p1, w1, w2.
  split; [rewrite Hrun, Hret, Hdbret; reflexivity|].
  split; [rewrite Hf; vm_compute; reflexivity|].
  split; [rewrite Hf; vm_compute; reflexivity|].
  split; assumption.
Defined.

(** An avatar offer at work: the cached avatar of the friend hashes to its
    three bytes followed by zeros; an offer with that hash is rejected, an
    offer with the three bytes alone is accepted. *)
Lemma avatar_offer_accept_iff_witness :
  Profile.onAvatarOfferReceived 0 7 (bytes "png" ++ repeat Byte.x00 29)%list 3
    (loaded "carol" None) (world disk (Some "carol"))
  = Done (emit (EvHandleAvatarOffer 0 7 false 3) (world disk (Some "carol")))
  ∧ Profile.onAvatarOfferReceived 0 7 (bytes "png") 3
      (loaded "carol" None) (world disk (Some "carol"))
    = Done (emit (EvHandleAvatarOffer 0 7 true 3) (world disk (Some "carol"))).
Proof.
  assert (Hsize : hashSizeSupported = true) by reflexivity.
  assert (Hkey : Profile.encrypted (loaded "carol" None) = true →
                 is_Some (Profile.passkey (loaded "carol" None)))
    by (intros Henc; discriminate Henc).
  assert (Hcached : Profile.loadAvatarData (pk32 "f"%byte) (loaded "carol" None)
                      (world disk (Some "carol"))
                    = Done (bytes "png", world disk (Some "carol")))
    by (vm_compute; reflexivity).
  split.
  - destruct (avatar_offer_accept_iff 0 7 3 (bytes "png" ++ repeat Byte.x00 29)%list
                (loaded "carol" None) (world disk (Some "carol")) _ eq_refl Hsize Hkey)
      as (pic & w1 & accept & cached & Hload & Hbuf & _ & _ & _ & Hrun & _ & Hreject & _).
    change (getFriendPublicKey _ 0%N) with (pk32 "f"%byte) in Hload.
    rewrite Hcached in Hload. injection Hload as <- <-.
    rewrite Hrun, (Hreject Hbuf). reflexivity.
  - destruct (avatar_offer_accept_iff 0 7 3 (bytes "png")
                (loaded "carol" None) (world disk (Some "carol")) _ eq_refl Hsize Hkey)
      as (pic & w1 & accept & cached & Hload & _ & _ & _ & _ & Hrun & _ & _ & Hother).
    change (getFriendPublicKey _ 0%N) with (pk32 "f"%byte) in Hload.
    rewrite Hcached in Hload. injection Hload as <- <-.
    rewrite Hrun, Hother; [reflexivity|]. vm_compute. discriminate.
Defined.

(** The avatar fallback at work: the encrypted profile alice has no file at
    the hashed path and gets the plaintext avatar of the friend. *)
Lemma loadAvatarData_fallback_witness :
  Profile.loadAvatarData (pk32 "f"%byte) (loaded "alice" (Some "pw"))
    (world disk (Some "alice"))
  = Done (bytes "png", world disk (Some "alice")).
Proof.
  destruct (loadAvatarData_fallback (pk32 "f"%byte) (loaded "alice" (Some "pw"))
              (world disk (Some "alice"))) as (Hfallback & _).
  assert (Hhashed : Profile.avatarPath (pk32 "f"%byte) false
                      (loaded "alice" (Some "pw")) (world disk (Some "alice"))
                    = Done hashedFriendAvatar)
    by (vm_compute; reflexivity).
  assert (Hmissing : QFile.exists_ hashedFriendAvatar (world disk (Some "alice")) = false)
    by (vm_compute; reflexivity).
  destruct (Hfallback hashedFriendAvatar eq_refl Hhashed Hmissing) as [_ Hload].
  rewrite Hload. vm_compute. reflexivity.
Defined.

(** Renaming at work: carol, loaded and holding her lock, is renamed to
    dave; the lock of dave is the first entry of the trace, it is held at
    the end and no unlock is recorded.  Renaming her to bob, whose lock
    another instance holds, fails and leaves everything as it was. *)
Lemma rename_locks_first_witness :
  (∃ p' w' evs,
     Profile.rename "dave" (loaded "carol" None) (world disk (Some "carol"))
     = (true, p', w')
     ∧ trace w' = EvLock "dave" true :: evs
     ∧ (EvUnlock ∉ evs)
     ∧ curLockName w' = Some "dave"
     ∧ Profile.name p' = "dave")
  ∧ ∃ w', Profile.rename "bob" (loaded "carol" None) (world disk (Some "carol"))
          = (false, loaded "carol" None, w')
          ∧ files w' = disk ∧ curLockName w' = Some "carol".
Proof.
  split.
  - destruct (rename_locks_first "dave" (loaded "carol" None)
                (world disk (Some "carol")))
      as (locked & p' & w' & evs & Hrun & Htrace & Hquiet & _ & Hok & _ & Hiff).
    assert (Hlocked : locked = true).
    { apply Hiff. right. split; [|by right].
      intros Hin. change ("dave" ∈ ({["bob"]} : gset string)) in Hin.
      apply elem_of_singleton in Hin. discriminate Hin. }
    subst locked. destruct (Hok eq_refl) as (Hlock & Hname & _).
    exists p', w', evs. split; [exact Hrun|]. split; [exact Htrace|].
    split; [|by split].
    intros Hin. by destruct (Hquiet _ Hin) as [Hne _].
  - destruct (rename_locks_first "bob" (loaded "carol" None)
                (world disk (Some "carol")))
      as (locked & p' & w' & evs & Hrun & _ & _ & Hfail & _ & _ & Hiff).
    assert (Hlocked : locked = false).
    { destruct locked; [|done]. exfalso.
      destruct (proj1 Hiff eq_refl) as [Hsame|[Hfree _]]; [discriminate Hsame|].
      apply Hfree. change ("bob" ∈ ({["bob"]} : gset string)).
      by apply elem_of_singleton. }
    subst locked. destruct (Hfail eq_refl) as (_ & -> & Hfiles & Hlock & _).
    exists w'. split; [exact Hrun|]. split; [exact Hfiles|exact Hlock].
Defined.

(** A password change at work: carol has no database handle; setting a
    password encrypts the profile, rewrites the save file under the new key
    and still reports the database error. *)
Lemma setPassword_db_absent_witness :
  ∃ p' w', Profile.setPassword "new" (loaded "carol" None) (world disk (Some "carol"))
           = Done (Profile.dbPasswordFailed, p', w')
           ∧ Profile.encrypted p' = true
           ∧ files w' !! "/cfg/carol.tox" = Some (bytes "Estate").
Proof.
  assert (Hsize : hashSizeSupported = true) by reflexivity.
  assert (Hdata : getToxSaveData (mkCore (pk32 "k"%byte) [(0%N, pk32 "f"%byte)]
                                    (bytes "state") "" "") ≠ [])
    by discriminate.
  destruct (setPassword_db_absent "new" (loaded "carol" None)
              (world disk (Some "carol")) _ eq_refl eq_refl eq_refl Hdata Hsize)
    as (err & p' & w' & Hrun & Habsent & _).
  destruct (Habsent eq_refl) as [_ Hkey].
  destruct Hkey as (-> & Henc & _); [right; by eexists|].
  exists p', w'. split; [exact Hrun|]. split; [exact Henc|].
  assert (Hfiles : (match Profile.setPassword "new" (loaded "carol" None)
                            (world disk (Some "carol")) with
                    | Done (_, _, w) => files w !! "/cfg/carol.tox"
                    | Fatal _ => None
                    end) = Some (bytes "Estate"))
    by (vm_compute; reflexivity).
  rewrite Hrun in Hfiles. exact Hfiles.
Defined.

(** * The further properties at work *)

(** Discharging the first hypothesis of [H] by evaluation. *)
Ltac feed H :=
  match type of H with
  | ?A → _ =>
      let Ha := fresh "Ha" in
      assert (Ha : A) by (vm_compute; first [reflexivity | discriminate]);
      specialize (H Ha); clear Ha
  end.

(** Loading at work: the save of alice is decrypted with the key derived
    from the password. *)
Lemma loadToxData_outcome_witness :
  ∃ blob : QByteArray,
    files w0 !! "/cfg/alice.tox" = Some blob
    ∧ isEncryptedData blob = true
    ∧ bytes "hello" = decrypt "pw" blob.
Proof.
  assert (Hrun : Profile.loadToxData "pw" "/cfg/alice.tox" [] w0
                 = (Some "pw", bytes "hello", LoadToxDataError.OK))
    by (vm_compute; reflexivity).
  destruct (loadToxData_outcome _ _ _ _ _ _ _ Hrun) as [Hok _].
  destruct (Hok eq_refl) as (blob & Hblob & _ & _ & _ & Henc & _ & _ & Hout).
  eauto.
Defined.

(** A failed load at work: alice without a password. *)
Lemma loadProfile_failure_is_clean_witness :
  ∃ w', Profile.loadProfile (ToxEncrypt:=QString) (Core:=Core) (RawDatabase:=Db)
          "alice" "" w0 = Done (None, w')
        ∧ quiet_step w0 w'.
Proof.
  pose (run := Profile.loadProfile (ToxEncrypt:=QString) (Core:=Core)
                 (RawDatabase:=Db) "alice" "" w0).
  assert (Hrun : run = Done (None, (outcome (None, w0) run).2))
    by (vm_compute; reflexivity).
  exists (outcome (None, w0) run).2. split; [exact Hrun|].
  exact (loadProfile_failure_is_clean "alice" "" w0 _ Hrun).
Defined.

(** A load at work: carol, who has no password. *)
Lemma loadProfile_success_state_witness :
  ∃ (p : T) w',
    Profile.loadProfile "carol" "" w0 = Done (Some p, w')
    ∧ curLockName w' = Some "carol"
    ∧ Profile.name p = "carol"
    ∧ is_Some (Profile.database p).
Proof.
  pose (run := Profile.loadProfile (ToxEncrypt:=QString) (Core:=Core)
                 (RawDatabase:=Db) "carol" "" w0).
  pose (p := default (loaded "" None) (outcome (None, w0) run).1).
  assert (Hrun : run = Done (Some p, (outcome (None, w0) run).2))
    by (vm_compute; reflexivity).
  destruct (loadProfile_success_state "carol" "" w0 _ p Hrun)
    as (_ & Hlock & Hname & _ & _ & Hdb & _).
  exists p, (outcome (None, w0) run).2.
  split; [exact Hrun|]. split; [exact Hlock|]. split; [exact Hname|exact Hdb].
Defined.

(** A refused creation at work: carol exists already. *)
Lemma createProfile_failure_is_clean_witness :
  ∃ w', Profile.createProfile (ToxEncrypt:=QString) (Core:=Core) (RawDatabase:=Db)
          "carol" "" w0 = Done (None, w')
        ∧ quiet_step w0 w'.
Proof.
  pose (run := Profile.createProfile (ToxEncrypt:=QString) (Core:=Core)
                 (RawDatabase:=Db) "carol" "" w0).
  assert (Hrun : run = Done (None, (outcome (None, w0) run).2))
    by (vm_compute; reflexivity).
  exists (outcome (None, w0) run).2. split; [exact Hrun|].
  exact (proj1 (createProfile_failure_is_clean "carol" "" w0 _ Hrun)).
Defined.

(** A creation at work: dave, with a password. *)
Lemma createProfile_success_state_witness :
  ∃ (p : T) w',
    Profile.createProfile "dave" "pw" w0 = Done (Some p, w')
    ∧ curLockName w' = Some "dave"
    ∧ Profile.encrypted p = true
    ∧ Profile.passkey p = Some "pw".
Proof.
  pose (run := Profile.createProfile (ToxEncrypt:=QString) (Core:=Core)
                 (RawDatabase:=Db) "dave" "pw" w0).
  pose (p := default (loaded "" None) (outcome (None, w0) run).1).
  assert (Hrun : run = Done (Some p, (outcome (None, w0) run).2))
    by (vm_compute; reflexivity).
  destruct (createProfile_success_state "dave" "pw" w0 _ p Hrun)
    as (_ & _ & Hlock & _ & _ & _ & _ & Henc & Hkey & _).
  exists p, (outcome (None, w0) run).2.
  split; [exact Hrun|]. split; [exact Hlock|]. split; [exact Henc|exact Hkey].
Defined.

(** The first save at work: a new plain profile dave gets its core state
    written under its name. *)
Lemma initCore_first_save_witness :
  ∃ (p' : T) w',
    Profile.initCore [] true (Profile.Profile "dave" None) (world disk (Some "dave"))
    = Done (p', w')
    ∧ files w' !! "/cfg/dave.tox" = Some (bytes "s")
    ∧ files w' !! "/cfg/carol.tox" = Some (bytes "plain").
Proof.
  assert (Hkeyed : Profile.encrypted (Profile.Profile "dave" None : T) = true →
                   is_Some (Profile.passkey (Profile.Profile "dave" None : T)))
    by (intros Henc; discriminate Henc).
  assert (Hdata : getToxSaveData
                    (setUsername "dave"
                       (setStatusMessage "Toxing on qTox"
                          (mkCore (pk32 "k"%byte) [(0%N, pk32 "f"%byte)]
                             (bytes "s") "" ""))) ≠ [])
    by discriminate.
  assert (Hcore : makeToxCore [] (settings (world disk (Some "dave")))
                  = inl (mkCore (pk32 "k"%byte) [(0%N, pk32 "f"%byte)]
                           (bytes "s") "" ""))
    by (vm_compute; reflexivity).
  assert (Hav : makeCoreAV (mkCore (pk32 "k"%byte) [(0%N, pk32 "f"%byte)]
                              (bytes "s") "" "")
                  (settings (world disk (Some "dave"))) = Some tt)
    by (vm_compute; reflexivity).
  destruct (initCore_first_save (Profile.Profile "dave" None : T)
              (world disk (Some "dave")) _ _ eq_refl eq_refl Hkeyed Hcore Hav Hdata)
    as (p' & w' & Hrun & _ & _ & _ & Hframe & Hwritten).
  exists p', w'. split; [exact Hrun|]. split.
  - apply Hwritten; [reflexivity|discriminate|reflexivity|reflexivity].
  - rewrite Hframe by discriminate. vm_compute. reflexivity.
Defined.

(** AV failing at work: carol is left with a core and no broadcaster, and
    starting the core stops at the missing broadcaster. *)
Lemma initCore_av_failure_witness :
  Profile.initCore (CoreAPI0:=coreNoAv) (bytes "plain") false
    (Profile.Profile "carol" None : T) (world disk (Some "carol"))
  = Done (Profile.set_core
            (Some (mkCore (pk32 "k"%byte) [(0%N, pk32 "f"%byte)] (bytes "splain") "" ""))
            (Profile.Profile "carol" None),
          emit SigFailedToStart (world disk (Some "carol")))
  ∧ ∃ why,
      Profile.startCore (CoreAPI0:=coreNoAv)
        (Profile.set_core
           (Some (mkCore (pk32 "k"%byte) [(0%N, pk32 "f"%byte)] (bytes "splain") "" ""))
           (Profile.Profile "carol" None : T))
        (world disk (Some "carol"))
      = Fatal why.
Proof.
  assert (Hcore : makeToxCore (CoreAPI:=coreNoAv) (bytes "plain")
                    (settings (world disk (Some "carol")))
                  = inl (mkCore (pk32 "k"%byte) [(0%N, pk32 "f"%byte)]
                           (bytes "splain") "" ""))
    by (vm_compute; reflexivity).
  assert (Hav : makeCoreAV (CoreAPI:=coreNoAv)
                  (mkCore (pk32 "k"%byte) [(0%N, pk32 "f"%byte)]
                     (bytes "splain") "" "")
                  (settings (world disk (Some "carol"))) = None)
    by (vm_compute; reflexivity).
  destruct (initCore_av_failure (CoreAPI0:=coreNoAv) (bytes "plain") false
              (Profile.Profile "carol" None : T) (world disk (Some "carol")) _
              eq_refl Hcore Hav eq_refl)
    as (Hrun & _ & Hstart).
  split; [exact Hrun|].
  destruct (Profile.startCore (CoreAPI0:=coreNoAv)
              (Profile.set_core
                 (Some (mkCore (pk32 "k"%byte) [(0%N, pk32 "f"%byte)]
                          (bytes "splain") "" ""))
                 (Profile.Profile "carol" None : T))
              (world disk (Some "carol"))) as [why|r] eqn:Hrun2.
  - exists why. reflexivity.
  - exfalso. exact (Hstart _ _ Hrun2).
Defined.

(** A failed commit at work: the save is reported as done and the disk is
    what it was. *)
Lemma saveToxSave_ignores_commit_witness :
  ∃ w', Profile.saveToxSave (H1:=fileEnvNoCommit) (bytes "state")
          (loaded "carol" None) (world disk (Some "carol")) = Done (true, w')
        ∧ files w' = disk.
Proof.
  assert (Hopen : canOpenWrite (FileEnv:=fileEnvNoCommit) "/cfg/carol.tox" = true)
    by reflexivity.
  assert (Hflush : flushOk (FileEnv:=fileEnvNoCommit) "/cfg/carol.tox"
                     (bytes "state") = true)
    by reflexivity.
  assert (Hcommit : commitOk (FileEnv:=fileEnvNoCommit) "/cfg/carol.tox" = false)
    by reflexivity.
  destruct (saveToxSave_ignores_commit (H1:=fileEnvNoCommit) (bytes "state")
              (loaded "carol" None) (world disk (Some "carol"))
              eq_refl eq_refl eq_refl Hopen Hflush Hcommit)
    as (w' & Hrun & Hfiles & _).
  eauto.
Defined.

(** Save and load at work: the state of alice comes back under her
    password. *)
Lemma save_then_load_witness :
  ∃ w', Profile.saveToxSave (bytes "state") (loaded "alice" (Some "pw"))
          (world disk (Some "alice")) = Done (true, w')
        ∧ ∃ key, Profile.loadToxData "pw" "/cfg/alice.tox" [] w'
                 = (key, bytes "state", LoadToxDataError.OK)
                 ∧ is_Some key.
Proof.
  pose (p := loaded "alice" (Some "pw")).
  pose (w := world disk (Some "alice")).
  pose (w' := (outcome (true, w0) (Profile.saveToxSave (bytes "state") p w)).2).
  pose proof (save_then_load (bytes "state") "pw" p w w') as H.
  cbv zeta in H. do 4 feed H.
  assert (Hplain : Profile.encrypted p = false →
                   isEncryptedData (bytes "state") = false)
    by (intros Henc; discriminate Henc).
  assert (Hcipher : ∀ k, Profile.encrypted p = true →
            Profile.passkey p = Some k →
            isEncryptedData (encrypt k (bytes "state")) = true
            ∧ isEmptyS "pw" = false
            ∧ ∃ k', makeToxEncryptFor "pw" (encrypt k (bytes "state")) = Some k'
                    ∧ decrypt k' (encrypt k (bytes "state")) = bytes "state").
  { intros k _ Hk. injection Hk as <-.
    split; [reflexivity|]. split; [reflexivity|]. exists "pw". split; reflexivity. }
  destruct (H Hplain Hcipher) as (key & Hload & Hkey).
  exists w'. split; [vm_compute; reflexivity|].
  exists key. split; [exact Hload|]. exact (proj2 Hkey eq_refl).
Defined.

(** An avatar saved and loaded at work, on the encrypted profile alice. *)
Lemma saveAvatar_then_load_witness :
  ∃ w', Profile.saveAvatar (pk32 "f"%byte) (bytes "new") (loaded "alice" (Some "pw"))
          (world disk (Some "alice")) = Done w'
        ∧ Profile.loadAvatarData (pk32 "f"%byte) (loaded "alice" (Some "pw")) w'
          = Done (bytes "new", w').
Proof.
  pose (run := Profile.saveAvatar (pk32 "f"%byte) (bytes "new")
                 (loaded "alice" (Some "pw")) (world disk (Some "alice"))).
  assert (Hrun : run = Done (outcome w0 run)) by (vm_compute; reflexivity).
  assert (Hpath : Profile.avatarPath (pk32 "f"%byte) false
                    (loaded "alice" (Some "pw")) (world disk (Some "alice"))
                  = Done hashedFriendAvatar)
    by (vm_compute; reflexivity).
  assert (Hne : bytes "new" ≠ []) by discriminate.
  assert (Hcrypt : ∀ k, Profile.encrypted (loaded "alice" (Some "pw")) = true →
            Profile.passkey (loaded "alice" (Some "pw")) = Some k →
            encrypt k (bytes "new") ≠ []
            ∧ decrypt k (encrypt k (bytes "new")) = bytes "new").
  { intros k _ Hk. injection Hk as <-. split; [discriminate|reflexivity]. }
  assert (Hopen : canOpenWrite hashedFriendAvatar = true)
    by (vm_compute; reflexivity).
  assert (Hcommit : commitOk hashedFriendAvatar = true) by reflexivity.
  assert (Hread : canOpenRead hashedFriendAvatar = true) by reflexivity.
  exists (outcome w0 run). split; [exact Hrun|].
  exact (saveAvatar_then_load (pk32 "f"%byte) (bytes "new")
           (loaded "alice" (Some "pw")) (world disk (Some "alice")) _
           hashedFriendAvatar Hrun Hpath Hne Hopen Hcommit Hread Hcrypt).
Defined.

(** An empty avatar at work: the cached picture of the friend is deleted
    and nothing is found afterwards. *)
Lemma saveAvatar_nothing_to_store_witness :
  ∃ w', Profile.saveAvatar (pk32 "f"%byte) [] (loaded "carol" None)
          (world disk (Some "carol")) = Done w'
        ∧ files w' = delete friendAvatar disk
        ∧ Profile.loadAvatarData (pk32 "f"%byte) (loaded "carol" None) w'
          = Done ([], w').
Proof.
  pose (run := Profile.saveAvatar (pk32 "f"%byte) [] (loaded "carol" None)
                 (world disk (Some "carol"))).
  assert (Hrun : run = Done (outcome w0 run)) by (vm_compute; reflexivity).
  assert (Hpath : Profile.avatarPath (pk32 "f"%byte) false (loaded "carol" None)
                    (world disk (Some "carol")) = Done friendAvatar)
    by (vm_compute; reflexivity).
  assert (Hrm : canRemove friendAvatar = true) by (vm_compute; reflexivity).
  destruct (saveAvatar_nothing_to_store (pk32 "f"%byte) [] (loaded "carol" None)
              (world disk (Some "carol")) _ friendAvatar Hrun Hpath
              (or_introl eq_refl) Hrm)
    as (Hfiles & Hload & Hraw).
  exists (outcome w0 run). split; [exact Hrun|]. split; [exact Hfiles|].
  rewrite Hload, (Hraw eq_refl). reflexivity.
Defined.

(** Removing an avatar at work: the picture of the friend goes, and its
    identicon is announced. *)
Lemma removeAvatar_effect_witness :
  ∃ w', Profile.removeAvatar (pk32 "f"%byte) (loaded "carol" None)
          (world disk (Some "carol"))
        = Done ([friendAvatarSet (pk32 "f"%byte)
                   (Pix_identicon (repeat "f"%byte 32) 32);
                 friendAvatarChanged (pk32 "f"%byte)
                   (Pix_identicon (repeat "f"%byte 32) 32)], w')
        ∧ files w' = delete friendAvatar disk.
Proof.
  pose (run := Profile.removeAvatar (pk32 "f"%byte) (loaded "carol" None)
                 (world disk (Some "carol"))).
  assert (Hrun : run = Done ([friendAvatarSet (pk32 "f"%byte)
                                (Pix_identicon (repeat "f"%byte 32) 32);
                              friendAvatarChanged (pk32 "f"%byte)
                                (Pix_identicon (repeat "f"%byte 32) 32)],
                             (outcome ([], w0) run).2))
    by (vm_compute; reflexivity).
  assert (Hpath : Profile.avatarPath (pk32 "f"%byte) false (loaded "carol" None)
                    (world disk (Some "carol")) = Done friendAvatar)
    by (vm_compute; reflexivity).
  assert (Hrm : canRemove friendAvatar = true) by (vm_compute; reflexivity).
  exists (outcome ([], w0) run).2. split; [exact Hrun|].
  exact (proj1 (removeAvatar_effect (pk32 "f"%byte) (loaded "carol" None)
                  (world disk (Some "carol")) _ _ _ friendAvatar Hrun eq_refl
                  Hpath Hrm)).
Defined.

(** Starting the core at work: alice has her own avatar in plaintext only;
    it is stored encrypted under the hashed name, and the plaintext copy
    stays. *)
Lemma startCore_migrates_avatar_witness :
  ∃ sigs (p' : T) w',
    Profile.startCore (loaded "alice" (Some "pw"))
      (world diskPlainAvatar (Some "alice")) = Done (sigs, p', w')
    ∧ files w' = <[hashedSelfAvatar := bytes "Eme"]> diskPlainAvatar
    ∧ files w' !! selfAvatar = Some (bytes "me").
Proof.
  pose (w := world diskPlainAvatar (Some "alice")).
  pose (p := loaded "alice" (Some "pw")).
  pose (sigs := [ConnectRequestSent; coreChanged; CoreStarted;
                 selfAvatarChanged (Pix_loadFromData (bytes "me"));
                 BroadcasterSetAvatar (bytes "me"); BroadcasterEnableAutoBroadcast]).
  pose (run := Profile.startCore p w).
  pose (w' := (outcome ([], p, w) run).2).
  pose proof (startCore_migrates_avatar p p w w' sigs
                (mkCore (pk32 "k"%byte) [(0%N, pk32 "f"%byte)] (bytes "state") "" "")
                "pw" hashedSelfAvatar (bytes "me")) as H.
  cbv zeta in H. feed H.
  assert (Hrun : run = Done (sigs, p, w')) by (vm_compute; reflexivity).
  do 11 feed H.
  destruct H as (Hfiles & Hkept & _).
  exists sigs, p, w'. split; [exact Hrun|]. split; [exact Hfiles|exact Hkept].
Defined.

(** Starting the core at work: carol has no avatar; nothing is written and
    her identicon is announced. *)
Lemma startCore_without_avatar_witness :
  ∃ (p' : T) w',
    Profile.startCore (loaded "carol" None) (world disk (Some "carol"))
    = Done ([ConnectRequestSent; coreChanged; CoreStarted;
             selfAvatarChanged (Pix_identicon (repeat "k"%byte 32) 32);
             BroadcasterSetAvatar []; BroadcasterEnableAutoBroadcast], p', w')
    ∧ files w' = disk.
Proof.
  pose (w := world disk (Some "carol")).
  pose (p := loaded "carol" None).
  pose (sigs := [ConnectRequestSent; coreChanged; CoreStarted;
                 selfAvatarChanged (Pix_identicon (repeat "k"%byte 32) 32);
                 BroadcasterSetAvatar []; BroadcasterEnableAutoBroadcast]).
  pose (run := Profile.startCore p w).
  pose (w' := (outcome ([], p, w) run).2).
  assert (Hrun : run = Done (sigs, p, w')) by (vm_compute; reflexivity).
  pose proof (startCore_without_avatar p p w w' sigs
                (mkCore (pk32 "k"%byte) [(0%N, pk32 "f"%byte)] (bytes "state") "" "")
                selfAvatar Hrun) as H.
  cbv zeta in H. do 4 feed H.
  exists p, w'. split; [exact Hrun|exact (proj1 H)].
Defined.



(** Renaming at work: carol, loaded and holding her lock, becomes dave,
    and her save file moves. *)
Lemma rename_success_state_witness :
  ∃ w',
    Profile.rename "dave" (loaded "carol" None) (world disk (Some "carol"))
    = (true, Profile.set_name "dave" (loaded "carol" None), w')
    ∧ curLockName w' = Some "dave"
    ∧ getCurrentProfile (settings w') = "dave"
    ∧ files w' !! "/cfg/dave.tox" = Some (bytes "plain")
    ∧ files w' !! "/cfg/carol.tox" = None.
Proof.
  pose (w := world disk (Some "carol")).
  pose (p := loaded "carol" None).
  pose (w' := (Profile.rename "dave" p w).2).
  assert (Hrun : Profile.rename "dave" p w = (true, Profile.set_name "dave" p, w'))
    by (vm_compute; reflexivity).
  pose proof (rename_success_state "dave" p (Profile.set_name "dave" p) w w' Hrun)
    as H.
  cbv zeta in H.
  destruct H as (_ & Hlock & Hcur & _ & _ & _ & Hfiles & _).
  specialize (Hfiles eq_refl (bytes "plain")). feed Hfiles.
  assert (Hfree : QFile.exists_ "/cfg/dave.tox" w
                  || negb (canRename "/cfg/carol.tox" "/cfg/dave.tox") = false)
    by (vm_compute; reflexivity).
  change (if QFile.exists_ "/cfg/dave.tox" w
             || negb (canRename "/cfg/carol.tox" "/cfg/dave.tox")
          then files w' !! "/cfg/carol.tox" = Some (bytes "plain")
               ∧ files w' !! "/cfg/dave.tox" = files w !! "/cfg/dave.tox"
          else files w' !! "/cfg/dave.tox" = Some (bytes "plain")
               ∧ files w' !! "/cfg/carol.tox" = None) in Hfiles.
  rewrite Hfree in Hfiles.
  exists w'. split; [exact Hrun|]. split; [exact Hlock|].
  split; [exact Hcur|exact Hfiles].
Defined.

(** Removing at work: carol is gone from the disk and her name can be
    created again. *)
Lemma remove_aftermath_witness :
  ∃ w1 w2,
    Profile.remove (loaded "carol" None) (world disk (Some "carol"))
    = (Profile.set_isRemoved true (loaded "carol" None), [], w1)
    ∧ Profile.exists_ "carol" w1 = false
    ∧ Profile.createToxData (ToxEncrypt:=QString) "carol" "" "/cfg/carol.tox" w1
      = (None, CreateToxDataError.OK, w2).
Proof.
  pose (w := world disk (Some "carol")).
  pose (p := loaded "carol" None).
  pose (w1 := (Profile.remove p w).2).
  assert (Hrun : Profile.remove p w = (Profile.set_isRemoved true p, [], w1))
    by (vm_compute; reflexivity).
  assert (Hclosed : ∀ db, Profile.database p = Some db → db_isOpen db = false)
    by (intros db Hdb; discriminate Hdb).
  assert (Hrm : canRemove "/cfg/carol.tox" = true) by (vm_compute; reflexivity).
  assert (Hfree : "carol" ∉ foreignLocks w).
  { intros Hin. change ("carol" ∈ ({["bob"]} : gset string)) in Hin.
    apply elem_of_singleton in Hin. discriminate Hin. }
  destruct (remove_aftermath p (Profile.set_isRemoved true p) w w1 [] eq_refl Hrun)
    as (_ & _ & _ & _ & Hfiles).
  destruct (Hfiles Hclosed) as (_ & Hfreed).
  destruct (Hfreed Hrm) as (Hgone & Hcreate).
  destruct (Hcreate Hfree) as (w2 & Hnew).
  exists w1, w2. split; [exact Hrun|]. split; [exact Hgone|exact Hnew].
Defined.

(** Automatic login at work: carol, whose save is plain, is loaded. *)
Lemma autoLoginStep_outcome_witness :
  ∃ (p : T) w',
    AppManager.autoLoginStep (AppManager.mkChoice "carol" true false None) w0
    = Done (AppManager.bootstrapWithProfile p, false, w')
    ∧ Profile.encrypted p = false
    ∧ curLockName w' = Some "carol".
Proof.
  pose (c := AppManager.mkChoice "carol" true false None).
  pose (run := AppManager.autoLoginStep (ToxEncrypt:=QString) (Core:=Core)
                 (RawDatabase:=Db) c w0).
  pose (next := (outcome (AppManager.showLogin "", false, w0) run).1.1).
  pose (p := match next with
             | AppManager.bootstrapWithProfile q => q
             | AppManager.showLogin _ => loaded "" None
             end).
  pose (w' := (outcome (AppManager.showLogin "", false, w0) run).2).
  assert (Hrun : run = Done (AppManager.bootstrapWithProfile p, false, w'))
    by (vm_compute; reflexivity).
  pose proof (autoLoginStep_outcome c w0 w' (AppManager.bootstrapWithProfile p)
                false Hrun) as H.
  cbv zeta in H.
  destruct H as (_ & _ & _ & _ & Henc & _ & Hlock & _).
  exists p, w'. split; [exact Hrun|]. split; [exact Henc|exact Hlock].
Defined.

(** The history at work: once the database of carol is open, a friend
    request is written down. *)
Lemma history_after_loadDatabase_witness :
  ∃ (p' : T) w',
    Profile.loadDatabase "" (lonely "carol" None) (world disk (Some "carol"))
    = Done (p', w')
    ∧ Profile.onRequestSent (pk32 "f"%byte) "hi" 7 p' w'
      = Done [HistoryAddNewMessage (pk32 "f"%byte) (Profile.inviteStr "hi")
                (pk32 "k"%byte) 7 true "me"].
Proof.
  pose (w := world disk (Some "carol")).
  pose (p := lonely "carol" None).
  pose (run := Profile.loadDatabase "" p w).
  pose (p' := (outcome (p, w) run).1).
  pose (w' := (outcome (p, w) run).2).
  assert (Hrun : run = Done (p', w')) by (vm_compute; reflexivity).
  pose proof (history_after_loadDatabase "" p p' w w'
                (mkCore (pk32 "k"%byte) [] (bytes "state") "me" "")
                (pk32 "f"%byte) "hi" 7 Hrun) as H.
  do 3 feed H.
  destruct H as (db & Hdb & _ & Hsent).
  assert (Hopen : Profile.database p' = Some (mkDb true true))
    by (vm_compute; reflexivity).
  rewrite Hopen in Hdb. injection Hdb as <-.
  exists p', w'. split; [exact Hrun|]. exact Hsent.
Defined.


(** The way to the autologin step at work: with [-p nobody], a profile
    that does not exist, [run] returns EXIT_FAILURE on the argument
    notes.txt and brings up the login screen on a Tox URI although another
    instance would accept every event; with no option and no argument that
    instance accepts the activation and [run] returns EXIT_SUCCESS. *)
Lemma chooseProfile_then_autoLogin_witness :
  (∃ w1, AppManager.profileStage (ToxEncrypt:=QString) (Core:=Core) (RawDatabase:=Db)
           (AppManager.mkParser (Some "nobody") false ["notes.txt"]) true
           (AppManager.mkIPC true false (λ _ _ _, true)) true "save" w0
         = Done (AppManager.Return AppManager.EXIT_FAILURE,
                 emit (Log "Invalid argument") w1))
  ∧ (∃ w1, AppManager.profileStage (ToxEncrypt:=QString) (Core:=Core) (RawDatabase:=Db)
             (AppManager.mkParser (Some "nobody") false ["tox:abc"]) true
             (AppManager.mkIPC true false (λ _ _ _, true)) true "save" w0
           = Done (AppManager.GoOn (AppManager.showLogin "nobody") false, w1))
  ∧ (∃ message,
       AppManager.profileStage (ToxEncrypt:=QString) (Core:=Core) (RawDatabase:=Db)
         (AppManager.mkParser None false []) true
         (AppManager.mkIPC true false (λ _ _ _, true)) true "save" w0
       = Done (AppManager.Return AppManager.EXIT_SUCCESS, emit (Log message) w0)).
Proof.
  pose (ipc := AppManager.mkIPC true false (λ _ _ _, true)).
  split; [|split].
  - pose proof (chooseProfile_then_autoLogin (ToxEncrypt:=QString) (Core:=Core)
                  (RawDatabase:=Db)
                  (AppManager.mkParser (Some "nobody") false ["notes.txt"])
                  true ipc true "save" w0) as H.
    cbv zeta in H. destruct H as (_ & _ & H & _). feed H.
    eexists. exact H.
  - pose proof (chooseProfile_then_autoLogin (ToxEncrypt:=QString) (Core:=Core)
                  (RawDatabase:=Db)
                  (AppManager.mkParser (Some "nobody") false ["tox:abc"])
                  true ipc true "save" w0) as H.
    cbv zeta in H. destruct H as (_ & H & _).
    cbn [AppManager.value_p] in H. destruct H as (_ & _ & H). feed H.
    destruct H as (_ & _ & H).
    match type of H with
    | context [bool_decide ?P] =>
        assert (Hev : bool_decide P = false) by (vm_compute; reflexivity);
        rewrite Hev in H
    end.
    eexists. exact H.
  - pose proof (chooseProfile_then_autoLogin (ToxEncrypt:=QString) (Core:=Core)
                  (RawDatabase:=Db)
                  (AppManager.mkParser None false [])
                  true ipc true "save" w0) as H.
    cbv zeta in H. destruct H as (_ & _ & _ & H & _). feed H.
    exact H.
Defined.
